(** * Authenticated task CRUD with ownership-scoped pagination

    A shallow embedding of the Fastify API of the repository
    (apps/api/src/routes/{auth,users,tasks},
    apps/api/src/lib/{auth,validation}.ts, packages/db/src/schema) and of
    the web client's [fetchApi] (apps/web/src/lib/api.ts), together with the
    properties its specification states about it.

    Conventions of the embedding
    - A table is the list of its rows in the store's row order; a query is a
      function on that list.  [ORDER BY created_at DESC] names no second
      sort key, so the order among rows of equal creation time is the
      store's choice, made anew in every query: sorting is an operation of
      the interface [OrderBy] that takes the request's surroundings, and
      its law [OrderByOk] asks for a permutation that is newest first.
    - A handler is a function from the store to an outcome and a new store.
      [Returned v] is a 200 response with body [v]; [Raised e] is an error
      sent through the error handler in effect for the route.
    - A request is what a handler finds after Fastify has parsed it: a JSON
      body has the type the handler declares; the query string of a route
      without a schema is a record of strings.  What Fastify's parsers
      refuse never reaches a route and is no request here, and the store is
      taken to answer every query.
    - bcrypt, the JWT signer, zod's e-mail test and the driver's boolean
      serializer are library code: they are operations of the interfaces
      [Bcrypt], [Jwt], [Zod] and [Driver]; JavaScript's numbers are the
      interface [JsNumbers].  The laws a proof needs are separate classes
      ([BcryptOk], [JwtOk], [JsNumbersOk]).
    - What a request draws from its surroundings (the clock, the store's
      [gen_random_uuid()], bcrypt's salt) is the record [Env].
    - JavaScript strings are [string]; [String.length] stands for [.length].
      Dates are integers (milliseconds since the epoch). *)

From Stdlib Require Import List Ascii String ZArith Lia Bool Arith Permutation Sorted.
From Stdlib Require Import DecimalString DecimalN DecimalPos.
Import ListNotations.
Open Scope string_scope.
Open Scope Z_scope.

Set Implicit Arguments.

(** ** Data model *)

Definition uuid := string.
Definition Date := Z.

(** packages/db/src/schema/users.ts *)
Module users.
Record row := mk {
  id : uuid;
  email : string;
  name : string;
  passwordHash : string;
  createdAt : Date;
  updatedAt : Date }.
End users.

(** packages/db/src/schema/tasks.ts; [description] is a nullable column. *)
Module tasks.
Record row := mk {
  id : uuid;
  userId : uuid;
  title : string;
  description : option string;
  completed : bool;
  createdAt : Date;
  updatedAt : Date }.
End tasks.

Record Db := mkDb {
  users_table : list users.row;
  tasks_table : list tasks.row }.

(** ** Errors and the error handlers *)

(** What a handler can raise: an http-errors object made by
    @fastify/sensible or by a plugin (it carries a status code), or a bare
    [new Error(message)], which carries none. *)
Inductive Thrown :=
| HttpError (statusCode : Z) (name message : string)
| JsError (message : string).

(** packages/types: [ApiError], the three keys of an error body that the
    properties speak of.  [error] is [None] when the key is absent.  (The
    body of a library error can carry a fourth key, [code]; it is left
    out.) *)
Record ApiError := mkApiError {
  error : option string;
  message : string;
  statusCode : Z }.

(** Node's [http.STATUS_CODES], the entries for the statuses this server
    sends. *)
Definition STATUS_CODES (sc : Z) : option string :=
  if sc =? 400 then Some "Bad Request"
  else if sc =? 401 then Some "Unauthorized"
  else if sc =? 403 then Some "Forbidden"
  else if sc =? 404 then Some "Not Found"
  else if sc =? 409 then Some "Conflict"
  else if sc =? 500 then Some "Internal Server Error"
  else None.

(** The error handler in effect for the routes.  The server entry file
    awaits the [register] of authRoutes, usersRoutes and tasksRoutes before
    it calls [setErrorHandler], so the contexts of the three plugins keep
    Fastify's default handler: the status is [error.statusCode] when that is
    at least 400 and 500 otherwise, and the body is
    [{ statusCode, error: STATUS_CODES[statusCode], message: error.message }]. *)
Definition errorHandler (e : Thrown) : ApiError :=
  match e with
  | HttpError sc n m =>
      let status := if 400 <=? sc then sc else 500 in
      {| error := STATUS_CODES status; message := m; statusCode := status |}
  | JsError m =>
      {| error := STATUS_CODES 500; message := m; statusCode := 500 |}
  end.

(** The server entry file, the callback of [fastify.setErrorHandler]:
    statusCode = error.statusCode || 500, error = error.name || 'Error',
    message = error.message || 'Internal Server Error'.  It is set on the
    root instance after the route plugins were registered and answers for
    none of their routes. *)
Definition rootErrorHandler (e : Thrown) : ApiError :=
  match e with
  | HttpError sc n m =>
      {| error := Some (if (n =? "")%string then "Error" else n);
         message := if (m =? "")%string then "Internal Server Error" else m;
         statusCode := if sc =? 0 then 500 else sc |}
  | JsError m =>
      {| error := Some "Error";
         message := if (m =? "")%string then "Internal Server Error" else m;
         statusCode := 500 |}
  end.

(** The error kinds of the specification, by status code. *)
Inductive ErrorKind :=
| ValidationError | Unauthenticated | NotFound | Conflict | Internal.

Definition kind_of_status (sc : Z) : ErrorKind :=
  if sc =? 400 then ValidationError
  else if sc =? 401 then Unauthenticated
  else if sc =? 404 then NotFound
  else if sc =? 409 then Conflict
  else Internal.

Definition kind_of (e : Thrown) : ErrorKind :=
  kind_of_status (statusCode (errorHandler e)).

(** @fastify/sensible reply helpers. *)
Module reply.
Definition badRequest (m : string) : Thrown := HttpError 400 "BadRequestError" m.
Definition unauthorized (m : string) : Thrown := HttpError 401 "UnauthorizedError" m.
Definition notFound (m : string) : Thrown := HttpError 404 "NotFoundError" m.
Definition conflict (m : string) : Thrown := HttpError 409 "ConflictError" m.
End reply.

(** ** Handlers as store transformers *)

Inductive Outcome (A : Type) :=
| Returned (a : A)
| Raised (e : Thrown).
Arguments Raised {A} e.

Definition Async (A : Type) := Db -> Outcome A * Db.

Definition ret {A} (a : A) : Async A := fun db => (Returned a, db).
Definition throw {A} (e : Thrown) : Async A := fun db => (Raised e, db).
Definition bind {A B} (c : Async A) (k : A -> Async B) : Async B :=
  fun db =>
    match c db with
    | (Returned a, db') => k a db'
    | (Raised e, db') => (Raised e, db')
    end.
Definition read {A} (q : Db -> A) : Async A := fun db => (Returned (q db), db).

Notation "x <- c ;; k" := (bind c (fun x => k))
  (at level 61, c at next level, right associativity).

(** The response a client sees. *)
Inductive Response (A : Type) :=
| Ok200 (body : A)
| Failed (body : ApiError).
Arguments Failed {A} body.

Definition respond {A} (o : Outcome A) : Response A :=
  match o with
  | Returned a => Ok200 a
  | Raised e => Failed (errorHandler e)
  end.

(** ** Library interfaces *)

(** bcrypt: [hash(password, rounds)] draws a salt; [compare(password, hash)]. *)
Class Bcrypt := {
  bcrypt_hash : string -> Z -> string -> string;
  bcrypt_compare : string -> string -> bool }.

Class BcryptOk {bc : Bcrypt} : Prop :=
  compare_hash : forall password rounds salt,
    bcrypt_compare password (bcrypt_hash password rounds salt) = true.

(** @fastify/jwt: [sign({userId}, {expiresIn})] at an issue time (seconds) and
    [verify(token)] at a later time; the payload's [userId] on success.
    [jwt_rejection] is the message of the 401 that the plugin throws for a
    token it does not verify ("Authorization token expired", or
    "Authorization token is invalid: " and the verifier's reason). *)
Class Jwt := {
  jwt_sign : string -> uuid -> Z -> Z -> string;
  jwt_verify : string -> string -> Z -> option uuid;
  jwt_rejection : string -> string -> Z -> string }.

Class JwtOk {jw : Jwt} : Prop :=
  verify_sign : forall secret userId iat ttl now,
    now < iat + ttl ->
    jwt_verify secret (jwt_sign secret userId iat ttl) now = Some userId.

(** zod: the e-mail pattern and the text of a validation failure. *)
Class Zod := {
  is_email : string -> bool;
  issues_message : list string -> string }.

(** What one request draws from outside the program. *)
Record Env := mkEnv {
  now : Date;
  random_uuid : uuid;
  salt : string }.

(** Newest first: every row is at least as new as the rows after it. *)
Definition newest_first (l : list tasks.row) : Prop :=
  StronglySorted (fun x y => tasks.createdAt y <= tasks.createdAt x) l.

(** PostgreSQL's [ORDER BY created_at DESC] on a list of rows.  The order
    among rows of equal creation time is left to the store, and it is free
    to choose anew in every query: [order_by_createdAt_desc env rows] is
    the order it gives the rows in the query of the request that draws
    [env]. *)
Class OrderBy := {
  order_by_createdAt_desc : Env -> list tasks.row -> list tasks.row }.

Class OrderByOk {ob : OrderBy} : Prop := {
  order_by_perm : forall env l, Permutation l (order_by_createdAt_desc env l);
  order_by_sorted : forall env l, newest_first (order_by_createdAt_desc env l) }.

(** JavaScript numbers (IEEE 754 doubles) with the operations the list
    handler applies to them: [Number(string)] of a coercion, [-], [*], [/],
    [Math.ceil], the test of a condition, and the integer a number is when
    it is one ([None] for NaN, the infinities and fractions). *)
Class JsNumbers := {
  number : Type;
  of_Z : Z -> number;
  ToNumber : string -> number;
  minus : number -> number -> number;
  times : number -> number -> number;
  divide : number -> number -> number;
  Math_ceil : number -> number;
  Number_truthy : number -> bool;
  integer_value : number -> option Z }.

(** postgres.js, the driver under drizzle: the boolean it sends to the
    store for a JavaScript string that is bound to a boolean column, and
    the message of the error it throws when the store refuses a number as a
    bigint parameter (the message quotes the number). *)
Class Driver {js : JsNumbers} := {
  boolean_param : string -> bool;
  bigint_refusal : number -> string }.

(** [Number.MAX_SAFE_INTEGER], 2^53 - 1. *)
Definition MAX_SAFE_INTEGER : Z := 9007199254740991.

Definition safe_integer (z : Z) : Prop :=
  - MAX_SAFE_INTEGER <= z <= MAX_SAFE_INTEGER.

(** The decimal numeral of a natural number, as a query string carries
    it. *)
Definition decimal (z : Z) : string :=
  NilZero.string_of_uint (N.to_uint (Z.to_N z)).

(** What the proofs use of doubles: a decimal numeral is read as its
    number, and on safe integers the operations are exact; zero times any
    number (a finite one, an infinity, NaN) is a zero or NaN, both falsy. *)
Class JsNumbersOk {js : JsNumbers} : Prop := {
  ToNumber_decimal : forall z,
    0 <= z <= MAX_SAFE_INTEGER -> ToNumber (decimal z) = of_Z z;
  minus_exact : forall a b,
    safe_integer a -> safe_integer b -> safe_integer (a - b) ->
    minus (of_Z a) (of_Z b) = of_Z (a - b);
  times_exact : forall a b,
    safe_integer a -> safe_integer b -> safe_integer (a * b) ->
    times (of_Z a) (of_Z b) = of_Z (a * b);
  times_zero : forall x, Number_truthy (times (of_Z 0) x) = false;
  truthy_of_Z : forall z,
    safe_integer z -> Number_truthy (of_Z z) = negb (z =? 0);
  integer_value_of_Z : forall z,
    safe_integer z -> integer_value (of_Z z) = Some z;
  ceil_divide : forall a b,
    0 <= a <= MAX_SAFE_INTEGER -> 0 < b <= MAX_SAFE_INTEGER ->
    Math_ceil (divide (of_Z a) (of_Z b)) = of_Z (- (- a / b)) }.

(** A request as the handler finds it: the bearer token of its
    Authorization header, route parameters, query string and body.  A JSON
    body is typed as the handler's [FastifyRequest<...>] says.  The task
    routes are registered without a schema, so nothing turns their query
    string into numbers or booleans: each parameter of it is the string
    that was sent (a parameter is taken to be sent at most once). *)
Record Request (P Q B : Type) := mkRequest {
  authorization : option string;
  params : P;
  query : Q;
  body : B }.

(** ** API contract types (packages/types/src/api.ts) *)

Module LoginBody.
Record t := mk { email : string; password : string }.
End LoginBody.

Module RegisterBody.
Record t := mk { email : string; password : string; name : string }.
End RegisterBody.

(** An optional property ([title?: string]) is an [option]; [None] is
    [undefined]. *)
Module CreateTaskRequest.
Record t := mk { title : string; description : option string }.
End CreateTaskRequest.

Module UpdateTaskRequest.
Record t := mk {
  title : option string;
  description : option string;
  completed : option bool }.
End UpdateTaskRequest.

(** [request.query] of the list route: [None] is [undefined], a parameter
    that was not sent. *)
Module ListTasksParams.
Record t := mk {
  page : option string;
  limit : option string;
  completed : option string }.
End ListTasksParams.

(** A query parameter after [const { page = 1, limit = 20 } = request.query]:
    the string that was sent, or the default, a number literal. *)
Inductive Param :=
| Default (z : Z)
| Sent (s : string).

Definition to_number {js : JsNumbers} (p : Param) : number :=
  match p with
  | Default z => of_Z z
  | Sent s => ToNumber s
  end.

Module IdParams.
Record t := mk { id : string }.
End IdParams.

(** A JavaScript object literal with string or date values, as the auth
    handlers build for [user]. *)
Inductive JsValue :=
| JsString (s : string)
| JsDate (d : Date).

Definition JsObject := list (string * JsValue).

Definition keys (o : JsObject) : list string := map fst o.

Module AuthResponse.
Record t := mk { user : JsObject; token : string; expiresIn : Z }.
End AuthResponse.

(** The handler returns [page] and [limit] as it found them. *)
Module Pagination.
Record t {js : JsNumbers} := mk {
  page : Param;
  limit : Param;
  total : Z;
  totalPages : number }.
Arguments mk {js} page limit total totalPages.
End Pagination.

Module ListTasksResponse.
Record t {js : JsNumbers} := mk {
  data : list tasks.row;
  pagination : Pagination.t }.
Arguments mk {js} data pagination.
End ListTasksResponse.

Module DeleteTaskResponse.
Record t := mk { success : bool }.
End DeleteTaskResponse.

Module UpdateUserRequest.
Record t := mk { name : option string; email : option string }.
End UpdateUserRequest.

(** A request that reaches one of the registered routes, and the body of a
    200 answer.  A request that Fastify answers before a route is reached
    (a body that is not JSON, an unknown path) is not a [Call]. *)
Inductive Call :=
| GET_health
| POST_auth_login (r : Request unit unit LoginBody.t)
| POST_auth_register (r : Request unit unit RegisterBody.t)
| GET_users_me (r : Request unit unit unit)
| PATCH_users_me (r : Request unit unit UpdateUserRequest.t)
| GET_tasks (r : Request unit ListTasksParams.t unit)
| POST_tasks (r : Request unit unit CreateTaskRequest.t)
| GET_tasks_id (r : Request IdParams.t unit unit)
| PATCH_tasks_id (r : Request IdParams.t unit UpdateTaskRequest.t)
| DELETE_tasks_id (r : Request IdParams.t unit unit).

Inductive Body {js : JsNumbers} :=
| HealthBody (status : string) (timestamp : Date)
| AuthBody (b : AuthResponse.t)
| UserBody (b : JsObject)
| ListBody (b : ListTasksResponse.t)
| TaskBody (b : tasks.row)
| DeleteBody (b : DeleteTaskResponse.t).

(** The bearer token a request carries, and whether its route sits behind
    the [onRequest] hook. *)
Definition authorization_of (c : Call) : option string :=
  match c with
  | GET_health => None
  | POST_auth_login r => authorization r
  | POST_auth_register r => authorization r
  | GET_users_me r => authorization r
  | PATCH_users_me r => authorization r
  | GET_tasks r => authorization r
  | POST_tasks r => authorization r
  | GET_tasks_id r => authorization r
  | PATCH_tasks_id r => authorization r
  | DELETE_tasks_id r => authorization r
  end.

Definition protected (c : Call) : bool :=
  match c with
  | GET_health | POST_auth_login _ | POST_auth_register _ => false
  | _ => true
  end.

(** ** Queries (drizzle-orm over PostgreSQL) *)

(** [const [x] = await ...]: the first row, or [undefined]. *)
Definition first_row {A} (rows : list A) : option A := hd_error rows.

Definition select_users (where_ : users.row -> bool) (limit : nat)
  : Async (list users.row) :=
  read (fun db => firstn limit (filter where_ (users_table db))).

Definition select_tasks (where_ : tasks.row -> bool) (limit : nat)
  : Async (list tasks.row) :=
  read (fun db => firstn limit (filter where_ (tasks_table db))).

(** A violated constraint makes the driver throw an error without a status
    code.  (PostgreSQL's message goes on to name the constraint; the
    properties use the missing status code only.) *)
Definition constraint_violation : Thrown :=
  JsError "duplicate key value violates unique constraint".

Definition foreign_key_violation : Thrown :=
  JsError "insert or update on table violates foreign key constraint".

(** [const [newUser] = db.insert(users).values({...}).returning()]: one row
    is inserted and returned; id, createdAt and updatedAt take their column
    defaults; the primary key and [email] are unique. *)
Definition insert_users (env : Env) (email passwordHash name : string)
  : Async users.row :=
  fun db =>
    let row := users.mk (random_uuid env) email name passwordHash
                        (now env) (now env) in
    if existsb (fun u => (users.id u =? users.id row)%string
                         || (users.email u =? email)%string)
               (users_table db)
    then (Raised constraint_violation, db)
    else (Returned row, mkDb (users_table db ++ [row]) (tasks_table db)).

(** [const [task] = db.insert(tasks).values({...}).returning()]:
    [completed] defaults to false; [userId] references [users.id]. *)
Definition insert_tasks (env : Env) (userId : uuid) (title : string)
    (description : option string) : Async tasks.row :=
  fun db =>
    let row := tasks.mk (random_uuid env) userId title description false
                        (now env) (now env) in
    if existsb (fun t => (tasks.id t =? tasks.id row)%string) (tasks_table db)
    then (Raised constraint_violation, db)
    else if negb (existsb (fun u => (users.id u =? userId)%string)
                          (users_table db))
    then (Raised foreign_key_violation, db)
    else (Returned row, mkDb (users_table db) (tasks_table db ++ [row])).

(** [updateData]: the keys that were assigned. *)
Module UpdateData.
Record t := mk {
  title : option string;
  description : option string;
  completed : option bool;
  updatedAt : option Date }.
End UpdateData.

Definition set_task (u : UpdateData.t) (t : tasks.row) : tasks.row :=
  tasks.mk (tasks.id t) (tasks.userId t)
    (match UpdateData.title u with Some x => x | None => tasks.title t end)
    (match UpdateData.description u with
     | Some x => Some x
     | None => tasks.description t
     end)
    (match UpdateData.completed u with
     | Some x => x
     | None => tasks.completed t
     end)
    (tasks.createdAt t)
    (match UpdateData.updatedAt u with
     | Some x => x
     | None => tasks.updatedAt t
     end).

(** [db.update(tasks).set(updateData).where(w).returning()] *)
Definition update_tasks (u : UpdateData.t) (where_ : tasks.row -> bool)
  : Async (list tasks.row) :=
  fun db =>
    (Returned (map (set_task u) (filter where_ (tasks_table db))),
     mkDb (users_table db)
          (map (fun t => if where_ t then set_task u t else t)
               (tasks_table db))).

(** [db.delete(tasks).where(w).returning()] *)
Definition delete_tasks (where_ : tasks.row -> bool)
  : Async (list tasks.row) :=
  fun db =>
    (Returned (filter where_ (tasks_table db)),
     mkDb (users_table db)
          (filter (fun t => negb (where_ t)) (tasks_table db))).

(** [updateData] of the users handler: the keys that were assigned. *)
Module UserUpdateData.
Record t := mk {
  name : option string;
  email : option string;
  updatedAt : option Date }.
End UserUpdateData.

Definition set_user (u : UserUpdateData.t) (r : users.row) : users.row :=
  users.mk (users.id r)
    (match UserUpdateData.email u with Some x => x | None => users.email r end)
    (match UserUpdateData.name u with Some x => x | None => users.name r end)
    (users.passwordHash r)
    (users.createdAt r)
    (match UserUpdateData.updatedAt u with
     | Some x => x
     | None => users.updatedAt r
     end).

Fixpoint has_duplicate (l : list string) : bool :=
  match l with
  | [] => false
  | x :: l' => existsb (String.eqb x) l' || has_duplicate l'
  end.

(** [db.update(users).set(updateData).where(w).returning()]: [email] is
    unique, so an update that sets it and would leave two rows with one
    e-mail is refused by the store. *)
Definition update_users (u : UserUpdateData.t) (where_ : users.row -> bool)
  : Async (list users.row) :=
  fun db =>
    let table' :=
      map (fun r => if where_ r then set_user u r else r) (users_table db) in
    match UserUpdateData.email u with
    | Some _ =>
        if has_duplicate (map users.email table')
        then (Raised constraint_violation, db)
        else (Returned (map (set_user u) (filter where_ (users_table db))),
              mkDb table' (tasks_table db))
    | None =>
        (Returned (map (set_user u) (filter where_ (users_table db))),
         mkDb table' (tasks_table db))
    end.

(** drizzle's [.limit(l)]: a LIMIT clause is built for a number that is not
    negative, and for no other value. *)
Definition limit_clause (limit : Param) : option nat :=
  match limit with
  | Default z => if 0 <=? z then Some (Z.to_nat z) else None
  | Sent _ => None
  end.

(** PostgreSQL's [OFFSET $n]: the parameter is a bigint, a whole number
    below 2^63, that is not negative; the store refuses every other
    number. *)
Definition offset_rows {A} {js : JsNumbers} {dr : Driver} (offset : number)
    (rows : list A) : Outcome (list A) :=
  match integer_value offset with
  | Some o =>
      if o <? 0 then Raised (JsError "OFFSET must not be negative")
      else if 9223372036854775807 <? o
      then Raised (JsError (bigint_refusal offset))
      else Returned (skipn (Z.to_nat o) rows)
  | None => Raised (JsError (bigint_refusal offset))
  end.

(** [.limit(l).offset(o)] on the rows of a query: drizzle builds an OFFSET
    clause for a truthy value only; OFFSET applies before LIMIT. *)
Definition limit_offset {A} {js : JsNumbers} {dr : Driver} (limit : Param)
    (offset : number) (rows : list A) : Outcome (list A) :=
  match (if Number_truthy offset then offset_rows offset rows
         else Returned rows) with
  | Returned l =>
      Returned (match limit_clause limit with
                | Some n => firstn n l
                | None => l
                end)
  | Raised e => Raised e
  end.

(** [select().from(tasks).where(w).orderBy(desc(createdAt)).limit(l).offset(o)] *)
Definition select_tasks_page {ob : OrderBy} {js : JsNumbers} {dr : Driver}
    (env : Env)
    (where_ : tasks.row -> bool) (limit : Param) (offset : number)
  : Async (list tasks.row) :=
  fun db =>
    (limit_offset limit offset
       (order_by_createdAt_desc env (filter where_ (tasks_table db))), db).

(** [select({ value: count() }).from(tasks).where(w)] *)
Definition count_tasks (where_ : tasks.row -> bool) : Async Z :=
  read (fun db => Z.of_nat (List.length (filter where_ (tasks_table db)))).

(** Test doubles for the library interfaces: a hash that stores the
    password behind a marker, a token that spells out the secret and the
    user (it does not expire), a store that sorts stably, the boolean
    serializer of postgres.js, and numbers that are exact on the
    integers. *)
Module Fake.

Definition hash (password : string) (rounds : Z) (salt : string) : string :=
  "$" ++ password.

Definition compare (password h : string) : bool :=
  (h =? "$" ++ password)%string.

Definition bcrypt : Bcrypt :=
  {| bcrypt_hash := hash; bcrypt_compare := compare |}.

Fixpoint strip_prefix (p s : string) : option string :=
  match p, s with
  | EmptyString, _ => Some s
  | String a p', String b s' =>
      if Ascii.eqb a b then strip_prefix p' s' else None
  | String _ _, EmptyString => None
  end.

Definition jwt : Jwt :=
  {| jwt_sign := fun secret userId iat ttl => (secret ++ ".") ++ userId;
     jwt_verify := fun secret token now => strip_prefix (secret ++ ".") token;
     jwt_rejection := fun secret token now =>
       "Authorization token is invalid: The token is malformed." |}.

(** A store that sorts stably from its row order (an insertion sort):
    rows of equal creation time come out in the order they are stored. *)
Fixpoint insert_desc (x : tasks.row) (l : list tasks.row) : list tasks.row :=
  match l with
  | [] => [x]
  | y :: l' =>
      if tasks.createdAt x <? tasks.createdAt y
      then y :: insert_desc x l'
      else x :: l
  end.

Fixpoint stable_sort (l : list tasks.row) : list tasks.row :=
  match l with
  | [] => []
  | x :: l' => insert_desc x (stable_sort l')
  end.

Definition order_by : OrderBy :=
  {| order_by_createdAt_desc := fun env => stable_sort |}.

(** Numbers that compute exactly with integers and know the quotient of two
    integers; [Frac a b] is a quotient that is not an integer.  What this
    double does not know (arithmetic on fractions and infinities, numerals
    other than unsigned decimal ones) it gives as NaN. *)
Inductive number :=
| Num (z : Z)
| Frac (a b : Z)
| Infinity
| NegInfinity
| NaN.

Definition ToNumber (s : string) : number :=
  if (s =? "")%string then Num 0
  else
    match NilZero.uint_of_string s with
    | Some d => Num (Z.of_N (N.of_uint d))
    | None => NaN
    end.

Definition minus (x y : number) : number :=
  match x, y with
  | Num a, Num b => Num (a - b)
  | _, _ => NaN
  end.

Definition times (x y : number) : number :=
  match x, y with
  | Num a, Num b => Num (a * b)
  | _, _ => NaN
  end.

Definition divide (x y : number) : number :=
  match x, y with
  | Num a, Num b =>
      if b =? 0 then
        if a =? 0 then NaN else if 0 <? a then Infinity else NegInfinity
      else if a mod b =? 0 then Num (a / b)
      else Frac a b
  | _, _ => NaN
  end.

Definition Math_ceil (x : number) : number :=
  match x with
  | Frac a b => Num (- (- a / b))
  | _ => x
  end.

Definition Number_truthy (x : number) : bool :=
  match x with
  | Num z => negb (z =? 0)
  | NaN => false
  | _ => true
  end.

Definition integer_value (x : number) : option Z :=
  match x with
  | Num z => Some z
  | _ => None
  end.

Definition js : JsNumbers :=
  Build_JsNumbers Num ToNumber minus times divide Math_ceil Number_truthy
    integer_value.

(** postgres.js serializes a boolean parameter as
    [x === true ? 't' : 'f']: every string is sent as false. *)
Definition driver : @Driver js :=
  {| boolean_param := fun s => false;
     bigint_refusal := fun n => "invalid input syntax for type bigint" |}.

Definition zod : Zod :=
  {| is_email := fun s =>
       existsb (Ascii.eqb "@"%char) (list_ascii_of_string s);
     issues_message := fun issues => String.concat ", " issues |}.

End Fake.

(** ** The server *)

Section Server.

Context {bc : Bcrypt} {jw : Jwt} {zd : Zod} {ob : OrderBy}
        {js : JsNumbers} {dr : Driver}.

(** [process.env.JWT_SECRET || 'your-secret-key-change-in-production'] *)
Variable JWT_SECRET : string.

(** *** lib/auth.ts *)

Definition SALT_ROUNDS : Z := 10.

Definition hashPassword (env : Env) (password : string) : string :=
  bcrypt_hash password SALT_ROUNDS (salt env).

Definition verifyPassword (password hash : string) : bool :=
  bcrypt_compare password hash.

(** [request.jwtVerify()]: the payload's [userId], or a 401 of the plugin. *)
Definition jwtVerify {P Q B} (env : Env) (request : Request P Q B)
  : Outcome uuid :=
  match authorization request with
  | None =>
      Raised (HttpError 401 "FastifyError"
                "No Authorization was found in request.headers")
  | Some token =>
      match jwt_verify JWT_SECRET token (now env / 1000) with
      | Some userId => Returned userId
      | None =>
          Raised (HttpError 401 "FastifyError"
                    (jwt_rejection JWT_SECRET token (now env / 1000)))
      end
  end.

Definition getUserIdFromToken {P Q B} (env : Env) (request : Request P Q B)
  : Async uuid :=
  fun db =>
    match jwtVerify env request with
    | Returned userId => (Returned userId, db)
    | Raised _ => (Raised (JsError "Invalid or missing token"), db)
    end.

(** [jwt.sign({ userId }, { expiresIn: '7d' })] *)
Definition generateToken (env : Env) (userId : uuid) : string :=
  jwt_sign JWT_SECRET userId (now env / 1000) 604800.

(** *** lib/validation.ts and routes/auth/schemas.ts

    A schema gives the list of the fields it rejects. *)

Definition emailSchema (s : string) : bool := is_email s.

Definition passwordSchema (s : string) : bool := (8 <=? String.length s)%nat.

Definition loginBodySchema (b : LoginBody.t) : list string :=
  (if emailSchema (LoginBody.email b) then [] else ["email"])
  ++ (if passwordSchema (LoginBody.password b) then [] else ["password"]).

Definition registerBodySchema (b : RegisterBody.t) : list string :=
  (if emailSchema (RegisterBody.email b) then [] else ["email"])
  ++ (if passwordSchema (RegisterBody.password b) then [] else ["password"])
  ++ (if (1 <=? String.length (RegisterBody.name b))%nat then []
      else ["name"]).

(** [paginationSchema]: [z.coerce.number()] applies [Number] to what was
    sent; the number must be a positive integer, [limit] at most 100; a
    parameter that was not sent takes its default, 1 or 20.  No route of
    the repository is registered with it. *)
Definition paginationSchema (q : ListTasksParams.t) : list string :=
  (match ListTasksParams.page q with
   | Some s =>
       match integer_value (ToNumber s) with
       | Some p => if 0 <? p then [] else ["page"]
       | None => ["page"]
       end
   | None => []
   end)
  ++ (match ListTasksParams.limit q with
      | Some s =>
          match integer_value (ToNumber s) with
          | Some l => if (0 <? l) && (l <=? 100) then [] else ["limit"]
          | None => ["limit"]
          end
      | None => []
      end).

(** The validator compiled from a route's [schema.body]: a failure is a 400
    raised before the handler runs. *)
Definition validate {B} (schema : B -> list string) (b : B) : Outcome B :=
  match schema b with
  | [] => Returned b
  | issues => Raised (HttpError 400 "Error" (issues_message issues))
  end.

(** *** routes/auth/handlers.ts *)

Definition loginHandler (env : Env) (request : Request unit unit LoginBody.t)
  : Async AuthResponse.t :=
  let email := LoginBody.email (body request) in
  let password := LoginBody.password (body request) in
  rows <- select_users (fun u => (users.email u =? email)%string) 1 ;;
  match first_row rows with
  | None => throw (reply.unauthorized "Invalid email or password")
  | Some user =>
      let isValid := verifyPassword password (users.passwordHash user) in
      if negb isValid
      then throw (reply.unauthorized "Invalid email or password")
      else
        let token := generateToken env (users.id user) in
        ret (AuthResponse.mk
               [("id", JsString (users.id user));
                ("email", JsString (users.email user));
                ("name", JsString (users.name user));
                ("createdAt", JsDate (users.createdAt user));
                ("updatedAt", JsDate (users.updatedAt user))]
               token
               (7 * 24 * 60 * 60))
  end.

Definition registerHandler (env : Env)
    (request : Request unit unit RegisterBody.t) : Async AuthResponse.t :=
  let email := RegisterBody.email (body request) in
  let password := RegisterBody.password (body request) in
  let name := RegisterBody.name (body request) in
  rows <- select_users (fun u => (users.email u =? email)%string) 1 ;;
  match first_row rows with
  | Some existingUser =>
      throw (reply.conflict "User with this email already exists")
  | None =>
      let passwordHash := hashPassword env password in
      newUser <- insert_users env email passwordHash name ;;
      let token := generateToken env (users.id newUser) in
      ret (AuthResponse.mk
             [("id", JsString (users.id newUser));
              ("email", JsString (users.email newUser));
              ("name", JsString (users.name newUser));
              ("createdAt", JsDate (users.createdAt newUser));
              ("updatedAt", JsDate (users.updatedAt newUser))]
             token
             (7 * 24 * 60 * 60))
  end.

(** *** routes/auth/index.ts: [fastify.post(path, { schema }, handler)] *)

Definition with_schema {P Q B A} (schema : B -> list string)
    (handler : Request P Q B -> Async A) (request : Request P Q B)
  : Async A :=
  fun db =>
    match validate schema (body request) with
    | Raised e => (Raised e, db)
    | Returned _ => handler request db
    end.

Definition authRoutes_post_login (env : Env) :=
  with_schema loginBodySchema (loginHandler env).

Definition authRoutes_post_register (env : Env) :=
  with_schema registerBodySchema (registerHandler env).

(** *** routes/tasks/handlers.ts *)

(** [and(eq(tasks.id, id), eq(tasks.userId, userId))] *)
Definition id_and_owner (id userId : uuid) (t : tasks.row) : bool :=
  (tasks.id t =? id)%string && (tasks.userId t =? userId)%string.

(** The where clause of the list query.  [completed] is the string that
    was sent; [eq(tasks.completed, completed)] compares the column with the
    boolean the driver sends for it. *)
Definition whereClause (userId : uuid) (completed : option string)
    (t : tasks.row) : bool :=
  match completed with
  | Some c =>
      (tasks.userId t =? userId)%string
      && Bool.eqb (tasks.completed t) (boolean_param c)
  | None => (tasks.userId t =? userId)%string
  end.

Definition listTasksHandler (env : Env)
    (request : Request unit ListTasksParams.t unit)
  : Async ListTasksResponse.t :=
  userId <- getUserIdFromToken env request ;;
  let page :=
    match ListTasksParams.page (query request) with
    | Some s => Sent s
    | None => Default 1
    end in
  let limit :=
    match ListTasksParams.limit (query request) with
    | Some s => Sent s
    | None => Default 20
    end in
  let completed := ListTasksParams.completed (query request) in
  let offset := times (minus (to_number page) (of_Z 1)) (to_number limit) in
  taskList <- select_tasks_page env (whereClause userId completed) limit
                offset ;;
  total <- count_tasks (whereClause userId completed) ;;
  ret (ListTasksResponse.mk taskList
         (Pagination.mk page limit total
            (Math_ceil (divide (of_Z total) (to_number limit))))).

Definition getTaskHandler (env : Env) (request : Request IdParams.t unit unit)
  : Async tasks.row :=
  userId <- getUserIdFromToken env request ;;
  let id := IdParams.id (params request) in
  rows <- select_tasks (id_and_owner id userId) 1 ;;
  match first_row rows with
  | None => throw (reply.notFound "Task not found")
  | Some task => ret task
  end.

(** [description || null]: [undefined] and the empty string are falsy. *)
Definition or_null (description : option string) : option string :=
  match description with
  | None => None
  | Some d => if (d =? "")%string then None else Some d
  end.

Definition createTaskHandler (env : Env)
    (request : Request unit unit CreateTaskRequest.t) : Async tasks.row :=
  userId <- getUserIdFromToken env request ;;
  let title := CreateTaskRequest.title (body request) in
  let description := CreateTaskRequest.description (body request) in
  task <- insert_tasks env userId title (or_null description) ;;
  ret task.

Definition is_undefined {A} (x : option A) : bool :=
  match x with
  | None => true
  | Some _ => false
  end.

Definition updateTaskHandler (env : Env)
    (request : Request IdParams.t unit UpdateTaskRequest.t)
  : Async tasks.row :=
  userId <- getUserIdFromToken env request ;;
  let id := IdParams.id (params request) in
  let title := UpdateTaskRequest.title (body request) in
  let description := UpdateTaskRequest.description (body request) in
  let completed := UpdateTaskRequest.completed (body request) in
  if is_undefined title && is_undefined description && is_undefined completed
  then throw (reply.badRequest "At least one field must be provided")
  else
    let updateData := UpdateData.mk None None None (Some (now env)) in
    let updateData :=
      match title with
      | Some x =>
          UpdateData.mk (Some x) (UpdateData.description updateData)
            (UpdateData.completed updateData) (UpdateData.updatedAt updateData)
      | None => updateData
      end in
    let updateData :=
      match description with
      | Some x =>
          UpdateData.mk (UpdateData.title updateData) (Some x)
            (UpdateData.completed updateData) (UpdateData.updatedAt updateData)
      | None => updateData
      end in
    let updateData :=
      match completed with
      | Some x =>
          UpdateData.mk (UpdateData.title updateData)
            (UpdateData.description updateData) (Some x)
            (UpdateData.updatedAt updateData)
      | None => updateData
      end in
    rows <- update_tasks updateData (id_and_owner id userId) ;;
    match first_row rows with
    | None => throw (reply.notFound "Task not found")
    | Some updatedTask => ret updatedTask
    end.

Definition deleteTaskHandler (env : Env)
    (request : Request IdParams.t unit unit) : Async DeleteTaskResponse.t :=
  userId <- getUserIdFromToken env request ;;
  let id := IdParams.id (params request) in
  rows <- delete_tasks (id_and_owner id userId) ;;
  match first_row rows with
  | None => throw (reply.notFound "Task not found")
  | Some deletedTask => ret (DeleteTaskResponse.mk true)
  end.

(** *** routes/tasks/index.ts: the [onRequest] hook, then the handler.  The
    routes are registered without a schema. *)

Definition onRequest {P Q B A} (env : Env)
    (handler : Request P Q B -> Async A) (request : Request P Q B)
  : Async A :=
  fun db =>
    match jwtVerify env request with
    | Raised e => (Raised e, db)
    | Returned _ => handler request db
    end.

Definition tasksRoutes_get (env : Env) := onRequest env (listTasksHandler env).
Definition tasksRoutes_post (env : Env) := onRequest env (createTaskHandler env).
Definition tasksRoutes_get_id (env : Env) := onRequest env (getTaskHandler env).
Definition tasksRoutes_patch_id (env : Env) :=
  onRequest env (updateTaskHandler env).
Definition tasksRoutes_delete_id (env : Env) :=
  onRequest env (deleteTaskHandler env).

(** *** routes/users/handlers.ts *)

Definition getUserHandler (env : Env) (request : Request unit unit unit)
  : Async JsObject :=
  userId <- getUserIdFromToken env request ;;
  rows <- select_users (fun u => (users.id u =? userId)%string) 1 ;;
  match first_row rows with
  | None => throw (reply.notFound "User not found")
  | Some user =>
      ret [("id", JsString (users.id user));
           ("email", JsString (users.email user));
           ("name", JsString (users.name user));
           ("createdAt", JsDate (users.createdAt user));
           ("updatedAt", JsDate (users.updatedAt user))]
  end.

(** A string-or-undefined value used as a condition: [undefined] and the
    empty string are falsy. *)
Definition truthy (x : option string) : bool :=
  match x with
  | None => false
  | Some s => negb (s =? "")%string
  end.

Definition updateUserHandler (env : Env)
    (request : Request unit unit UpdateUserRequest.t) : Async JsObject :=
  userId <- getUserIdFromToken env request ;;
  let name := UpdateUserRequest.name (body request) in
  let email := UpdateUserRequest.email (body request) in
  if negb (truthy name) && negb (truthy email)
  then throw (reply.badRequest "At least one field must be provided")
  else
    let updateData := UserUpdateData.mk None None None in
    let updateData :=
      if truthy name
      then UserUpdateData.mk name (UserUpdateData.email updateData)
             (UserUpdateData.updatedAt updateData)
      else updateData in
    let updateData :=
      if truthy email
      then UserUpdateData.mk (UserUpdateData.name updateData) email
             (UserUpdateData.updatedAt updateData)
      else updateData in
    let updateData :=
      UserUpdateData.mk (UserUpdateData.name updateData)
        (UserUpdateData.email updateData) (Some (now env)) in
    rows <- update_users updateData
              (fun u => (users.id u =? userId)%string) ;;
    match first_row rows with
    | None => throw (reply.notFound "User not found")
    | Some updatedUser =>
        ret [("id", JsString (users.id updatedUser));
             ("email", JsString (users.email updatedUser));
             ("name", JsString (users.name updatedUser));
             ("createdAt", JsDate (users.createdAt updatedUser));
             ("updatedAt", JsDate (users.updatedAt updatedUser))]
    end.

(** *** routes/users/index.ts: the [onRequest] hook, then the handler. *)

Definition usersRoutes_get_me (env : Env) :=
  onRequest env (getUserHandler env).
Definition usersRoutes_patch_me (env : Env) :=
  onRequest env (updateUserHandler env).

(** *** The server entry file: the routes registered under /api/auth,
    /api/users and /api/tasks, and the health check *)

Definition lift {A B} (f : A -> B) (r : Outcome A * Db) : Outcome B * Db :=
  (match fst r with
   | Returned a => Returned (f a)
   | Raised e => Raised e
   end, snd r).

Definition serve (env : Env) (c : Call) : Async Body :=
  fun db =>
    match c with
    | GET_health => (Returned (HealthBody "ok" (now env)), db)
    | POST_auth_login r => lift AuthBody (authRoutes_post_login env r db)
    | POST_auth_register r => lift AuthBody (authRoutes_post_register env r db)
    | GET_users_me r => lift UserBody (usersRoutes_get_me env r db)
    | PATCH_users_me r => lift UserBody (usersRoutes_patch_me env r db)
    | GET_tasks r => lift ListBody (tasksRoutes_get env r db)
    | POST_tasks r => lift TaskBody (tasksRoutes_post env r db)
    | GET_tasks_id r => lift TaskBody (tasksRoutes_get_id env r db)
    | PATCH_tasks_id r => lift TaskBody (tasksRoutes_patch_id env r db)
    | DELETE_tasks_id r => lift DeleteBody (tasksRoutes_delete_id env r db)
    end.

(** The store after a sequence of requests, each with what it draws from
    outside. *)
Fixpoint run (calls : list (Env * Call)) (db : Db) : Db :=
  match calls with
  | [] => db
  | (env, c) :: calls' => run calls' (snd (serve env c db))
  end.

End Server.

(** ** The web client (apps/web/src/lib/api.ts) *)

Module web.

(** A JavaScript object with string values: assigning a key replaces its
    value or adds the key at the end. *)
Definition Obj := list (string * string).

Fixpoint assign (k v : string) (o : Obj) : Obj :=
  match o with
  | [] => [(k, v)]
  | (k', v') :: o' =>
      if (k' =? k)%string then (k, v) :: o' else (k', v') :: assign k v o'
  end.

Fixpoint get (k : string) (o : Obj) : option string :=
  match o with
  | [] => None
  | (k', v') :: o' => if (k' =? k)%string then Some v' else get k o'
  end.

(** [{ ...base, ...extra }] *)
Definition spread (base extra : Obj) : Obj :=
  fold_left (fun o kv => assign (fst kv) (snd kv) o) extra base.

Record RequestInit := mkInit {
  method : option string;
  body : option string;
  headers : Obj }.

(** A parsed JSON value, as [response.json()] resolves to; [N] is the
    type of JavaScript numbers.  An object lists its members in the order
    of the text. *)
#[local] Unset Elimination Schemes.
Inductive Json (N : Type) :=
| JNull
| JBool (b : bool)
| JNumber (n : N)
| JString (s : string)
| JArray (l : list (Json N))
| JObject (o : list (string * Json N)).
Arguments JNull {N}.
Arguments JBool {N} b.
Arguments JString {N} s.
#[local] Set Elimination Schemes.

(** A fetch response whose body parses to [W], or does not parse. *)
Record FetchResponse (W : Type) := mkResponse {
  ok : bool;
  status : Z;
  json : option W }.

(** The ways [fetchApi] ends: the parsed body, a thrown [ApiError], a
    TypeError thrown while the ApiError is made, or a rejection passed on
    from [fetch] or from [response.json()]. *)
Inductive Fetched (W : Type) :=
| Resolved (w : W)
| ThrewApiError (message : string) (statusCode : Z)
| ThrewTypeError
| Rejected.
Arguments ThrewApiError {W} message statusCode.
Arguments ThrewTypeError {W}.
Arguments Rejected {W}.

(** The init object [fetchApi] hands to [fetch]; [token] is
    [localStorage.getItem('token')], [None] for null. *)
Definition init_of (token : option string) (options : RequestInit)
  : RequestInit :=
  let headers :=
    spread [("Content-Type", "application/json")] (headers options) in
  let headers :=
    match token with
    | Some t =>
        if (t =? "")%string then headers
        else assign "Authorization" ("Bearer " ++ t) headers
    | None => headers
    end in
  mkInit (method options) (body options) headers.

Section Client.

Variable N : Type.

(** ToString and ToBoolean on a number. *)
Variable Number_toString : N -> string.
Variable Number_truthy : N -> bool.

(** [process.env.NEXT_PUBLIC_API_URL || 'http://localhost:3001'] *)
Variable API_URL : string.

(** The network: [None] is a rejected promise. *)
Variable fetch : string -> RequestInit -> option (FetchResponse (Json N)).

(** The member of an object that JSON.parse keeps for a key: the last one
    in the text. *)
Fixpoint member (k : string) (o : list (string * Json N)) : option (Json N) :=
  match o with
  | [] => None
  | (k', v) :: o' =>
      match member k o' with
      | Some x => Some x
      | None => if (k' =? k)%string then Some v else None
      end
  end.

(** [error.message] on a value that is not null: the member of an object,
    [undefined] on an array, a string, a number or a boolean. *)
Definition message_of (error : Json N) : option (Json N) :=
  match error with
  | JObject o => member "message" o
  | _ => None
  end.

Definition ToBoolean (v : Json N) : bool :=
  match v with
  | JNull => false
  | JBool b => b
  | JNumber n => Number_truthy n
  | JString s => negb (s =? "")%string
  | JArray _ | JObject _ => true
  end.

(** ToString, which [new Error(message)] applies to its argument; [None]
    is a thrown TypeError.  An array joins its elements with commas, null
    elements as empty strings; an object gives [object Object] unless it
    has a member named toString, which is not callable. *)
Fixpoint ToString (v : Json N) : option string :=
  match v with
  | JNull => Some "null"
  | JBool b => Some (if b then "true" else "false")
  | JNumber n => Some (Number_toString n)
  | JString s => Some s
  | JArray l =>
      (fix join (l : list (Json N)) : option string :=
         match l with
         | [] => Some ""
         | x :: l' =>
             let first :=
               match x with
               | JNull => Some ""
               | _ => ToString x
               end in
             match l' with
             | [] => first
             | _ :: _ =>
                 match first, join l' with
                 | Some a, Some b => Some (a ++ "," ++ b)
                 | _, _ => None
                 end
             end
         end) l
  | JObject o =>
      match member "toString" o with
      | Some _ => None
      | None => Some "[object Object]"
      end
  end.

Definition fetchApi (token : option string) (endpoint : string)
    (options : RequestInit) : Fetched (Json N) :=
  match fetch (API_URL ++ endpoint) (init_of token options) with
  | None => Rejected
  | Some response =>
      if negb (ok response)
      then
        let error :=
          match json response with
          | None => JObject [("message", JString "Request failed")]
          | Some error => error
          end in
        match error with
        | JNull => ThrewTypeError
        | _ =>
            let message :=
              match message_of error with
              | Some m => if ToBoolean m then m else JString "Request failed"
              | None => JString "Request failed"
              end in
            match ToString message with
            | Some m => ThrewApiError m (status response)
            | None => ThrewTypeError
            end
        end
      else
        match json response with
        | None => Rejected
        | Some w => Resolved w
        end
  end.

End Client.

End web.

(** ** The list as the specification words it

    The owner's rows that match the filter, newest first by creation time,
    rows of equal creation time ordered by id ([asc] chooses ascending or
    descending ids), and of them the slice of the page. *)






(** ** Store invariants: the constraints of the schema *)

Definition task_ids_unique (db : Db) : Prop :=
  NoDup (map tasks.id (tasks_table db)).

Definition db_wf (db : Db) : Prop :=
  NoDup (map users.id (users_table db))
  /\ NoDup (map users.email (users_table db))
  /\ task_ids_unique db
  /\ (forall t, In t (tasks_table db) ->
        exists u, In u (users_table db) /\ users.id u = tasks.userId t).

(** The total a list response reports, or 0 when the request fails. *)
Definition total_of {js : JsNumbers} (o : Outcome ListTasksResponse.t) : Z :=
  match o with
  | Returned r => Pagination.total (ListTasksResponse.pagination r)
  | Raised _ => 0
  end.

(** The list of a page's rows, or no rows when the request fails. *)
Definition data_of {js : JsNumbers} (o : Outcome ListTasksResponse.t)
  : list tasks.row :=
  match o with
  | Returned r => ListTasksResponse.data r
  | Raised _ => []
  end.

(** ** Sample data *)

Module Sample.

Definition secret : string := "test-secret".

Definition alice : users.row :=
  users.mk "u-alice" "a@x.com" "A" "$pw123456" 1000 1000.

Definition bob : users.row :=
  users.mk "u-bob" "b@x.com" "B" "$hunter22" 2000 2000.

Definition alice_token : string := "test-secret.u-alice".
Definition bob_token : string := "test-secret.u-bob".

Definition task (id owner title : string) (created : Date) : tasks.row :=
  tasks.mk id owner title None false created created.

Definition db0 : Db := mkDb [alice; bob] [].

(** Alice owns one task. *)
Definition db1 : Db := mkDb [alice; bob] [task "t-1" "u-alice" "write" 3000].

(** Three tasks of Alice created at the same instant, in row order b, a, c. *)
Definition db_ties : Db :=
  mkDb [alice; bob]
       [task "b" "u-alice" "second" 5000;
        task "a" "u-alice" "first" 5000;
        task "c" "u-alice" "third" 5000].

Definition env (t : Date) (id : uuid) : Env := mkEnv t id "salt".

(** [n] tasks of Alice with ids A, B, C, ... created one after another. *)
Definition many_tasks (n : nat) : list tasks.row :=
  map (fun k =>
         task (String (ascii_of_nat (65 + k)) EmptyString) "u-alice" "task"
              (Z.of_nat (3000 + k)))
      (seq 0 n).

Definition db25 : Db := mkDb [alice; bob] (many_tasks 25).

Definition db120 : Db := mkDb [alice; bob] (many_tasks 120).

(** Alice owns an open task and a completed one. *)
Definition db_done : Db :=
  mkDb [alice; bob]
       [task "t-1" "u-alice" "write" 3000;
        tasks.mk "t-2" "u-alice" "read" None true 4000 4500].

(** Carol registers on [db0]; the store generates the id u-carol. *)
Definition carol : users.row :=
  users.mk "u-carol" "c@x.com" "C" "$pw123456" 9000 9000.

Definition carol_token : string := "test-secret.u-carol".

Definition register_carol : Request unit unit RegisterBody.t :=
  mkRequest None tt tt (RegisterBody.mk "c@x.com" "pw123456" "C").

Definition carol_response : AuthResponse.t :=
  AuthResponse.mk
    [("id", JsString "u-carol"); ("email", JsString "c@x.com");
     ("name", JsString "C"); ("createdAt", JsDate 9000);
     ("updatedAt", JsDate 9000)]
    carol_token 604800.

Definition db_carol : Db := mkDb [alice; bob; carol] [].

(** Bob asks for Alice's task. *)
Definition bob_gets_t1 : Call :=
  GET_tasks_id (mkRequest (Some bob_token) (IdParams.mk "t-1") tt tt).

End Sample.

(** * Properties *)

Unset Implicit Arguments.

Section Properties.

Context {bc : Bcrypt} {jw : Jwt} {zd : Zod} {ob : OrderBy}
        {js : JsNumbers} {dr : Driver}.
Variable JWT_SECRET : string.

(** A token that the server verifies at time [now env] for user [u]. *)
Definition token_of (env : Env) (token : string) (u : uuid) : Prop :=
  jwt_verify JWT_SECRET token (now env / 1000) = Some u.

(** The rows of the tasks table that user [u] does not own. *)
Definition rows_of_others (u : uuid) (db : Db) : list tasks.row :=
  filter (fun t => negb (tasks.userId t =? u)%string) (tasks_table db).

(** What owner scoping means for the get, update and delete of one id by
    the bearer of [token], user [u]: a task that comes back is a row with
    that id owned by [u], and the rows of other users stay as they are. *)
Definition owner_scoped (env : Env) (db : Db) (u : uuid) (token : string)
    (id : IdParams.t) (b : UpdateTaskRequest.t) : Prop :=
  let get :=
    tasksRoutes_get_id JWT_SECRET env (mkRequest (Some token) id tt tt) db in
  let upd :=
    tasksRoutes_patch_id JWT_SECRET env (mkRequest (Some token) id tt b) db in
  let del :=
    tasksRoutes_delete_id JWT_SECRET env (mkRequest (Some token) id tt tt) db in
  (snd get = db
   /\ forall task, fst get = Returned task ->
        In task (tasks_table db)
        /\ tasks.id task = IdParams.id id /\ tasks.userId task = u)
  /\ (rows_of_others u (snd upd) = rows_of_others u db
      /\ users_table (snd upd) = users_table db
      /\ forall task, fst upd = Returned task ->
           In task (tasks_table (snd upd))
           /\ tasks.id task = IdParams.id id /\ tasks.userId task = u)
  /\ (rows_of_others u (snd del) = rows_of_others u db
      /\ users_table (snd del) = users_table db).

(** The routes that can write each table. *)
Definition writes_users (c : Call) : bool :=
  match c with
  | POST_auth_register _ | PATCH_users_me _ => true
  | _ => false
  end.

Definition writes_tasks (c : Call) : bool :=
  match c with
  | POST_tasks _ | PATCH_tasks_id _ | DELETE_tasks_id _ => true
  | _ => false
  end.

(** The requests that send an e-mail to the update of the own profile: the
    only ones that can change the e-mail of a users row. *)
Definition sends_email (c : Call) : bool :=
  match c with
  | PATCH_users_me r => truthy (UpdateUserRequest.email (body r))
  | _ => false
  end.

(** A request without a token that the server verifies. *)
Definition no_valid_token (env : Env) (c : Call) : Prop :=
  match authorization_of c with
  | None => True
  | Some token => jwt_verify JWT_SECRET token (now env / 1000) = None
  end.

(** An update body that supplies at least one of the updatable fields. *)
Definition supplies_field (b : UpdateTaskRequest.t) : bool :=
  negb (is_undefined (UpdateTaskRequest.title b)
        && is_undefined (UpdateTaskRequest.description b)
        && is_undefined (UpdateTaskRequest.completed b)).

Lemma jwtVerify_token {P Q B} env (request : Request P Q B) token u :
  authorization request = Some token ->
  token_of env token u ->
  jwtVerify JWT_SECRET env request = Returned u.
Proof.
  unfold jwtVerify, token_of. intros -> ->. reflexivity.
Qed.

Lemma getUserIdFromToken_token {P Q B} env (request : Request P Q B) token u db :
  authorization request = Some token ->
  token_of env token u ->
  getUserIdFromToken JWT_SECRET env request db = (Returned u, db).
Proof.
  intros Ha Ht. unfold getUserIdFromToken.
  now rewrite (jwtVerify_token env request token u Ha Ht).
Qed.

Lemma mkDb_eta db : mkDb (users_table db) (tasks_table db) = db.
Proof. now destruct db. Qed.

Lemma first_row_firstn_1 {A} (l : list A) : first_row (firstn 1 l) = hd_error l.
Proof. now destruct l. Qed.

Lemma hd_error_filter_none {A} (f : A -> bool) l :
  hd_error (filter f l) = None <-> (forall x, In x l -> f x = false).
Proof.
  induction l as [|a l IH]; simpl.
  - split; [intros _ x [] | reflexivity].
  - destruct (f a) eqn:Ea; simpl.
    + split; [discriminate | intros H; specialize (H a (or_introl eq_refl)); congruence].
    + rewrite IH. split.
      * intros H x [<- | Hx]; auto.
      * intros H x Hx. apply H. now right.
Qed.

Lemma hd_error_filter_some {A} (f : A -> bool) l x :
  hd_error (filter f l) = Some x -> In x l /\ f x = true.
Proof.
  intros H. apply filter_In.
  destruct (filter f l) as [|y l']; [discriminate|].
  simpl in H. injection H as ->. now left.
Qed.

(** *** Login errors *)

Lemma loginHandler_unknown_email env request db :
  (forall u, In u (users_table db) ->
     users.email u <> LoginBody.email (body request)) ->
  loginHandler JWT_SECRET env request db
  = (Raised (reply.unauthorized "Invalid email or password"), db).
Proof.
  intros Habs. unfold loginHandler, bind, select_users, read.
  rewrite first_row_firstn_1.
  assert (E : hd_error (filter (fun u => (users.email u =? LoginBody.email (body request))%string)
                              (users_table db)) = None).
  { apply hd_error_filter_none. intros u Hu. apply String.eqb_neq. auto. }
  now rewrite E.
Qed.

Lemma loginHandler_wrong_password env request db :
  (forall u, In u (users_table db) ->
     users.email u = LoginBody.email (body request) ->
     verifyPassword (LoginBody.password (body request)) (users.passwordHash u)
     = false) ->
  (exists u, In u (users_table db)
             /\ users.email u = LoginBody.email (body request)) ->
  loginHandler JWT_SECRET env request db
  = (Raised (reply.unauthorized "Invalid email or password"), db).
Proof.
  intros Hbad [u0 [Hin Hem]]. unfold loginHandler, bind, select_users, read.
  rewrite first_row_firstn_1.
  destruct (hd_error (filter (fun u => (users.email u =? LoginBody.email (body request))%string)
                             (users_table db))) as [user|] eqn:E.
  - apply hd_error_filter_some in E as [Hu He].
    apply String.eqb_eq in He. now rewrite (Hbad user Hu He).
  - exfalso. rewrite hd_error_filter_none in E.
    specialize (E u0 Hin). apply String.eqb_neq in E. contradiction.
Qed.

(** C3.  A login for an e-mail that no user has and a login for an e-mail
    that a user has, with a password that does not verify, end in the same
    outcome and so in the same error body: status 401, error
    "Unauthorized", message "Invalid email or password".  Neither
    changes the store.  The same holds through the route whenever both
    bodies pass the login schema. *)
Theorem login_errors_indistinguishable env1 env2 request1 request2 db1 db2 :
  (forall u, In u (users_table db1) ->
     users.email u <> LoginBody.email (body request1)) ->
  (exists u, In u (users_table db2)
             /\ users.email u = LoginBody.email (body request2)) ->
  (forall u, In u (users_table db2) ->
     users.email u = LoginBody.email (body request2) ->
     verifyPassword (LoginBody.password (body request2)) (users.passwordHash u)
     = false) ->
  let r1 := loginHandler JWT_SECRET env1 request1 db1 in
  let r2 := loginHandler JWT_SECRET env2 request2 db2 in
  respond (fst r1) = respond (fst r2)
  /\ respond (fst r1)
     = Failed (mkApiError (Some "Unauthorized") "Invalid email or password" 401)
  /\ (exists e, fst r1 = Raised e /\ kind_of e = Unauthenticated)
  /\ snd r1 = db1 /\ snd r2 = db2
  /\ (loginBodySchema (body request1) = [] ->
      loginBodySchema (body request2) = [] ->
      respond (fst (authRoutes_post_login JWT_SECRET env1 request1 db1))
      = respond (fst (authRoutes_post_login JWT_SECRET env2 request2 db2))).
Proof.
  intros Habs Hex Hbad r1 r2. subst r1 r2.
  rewrite (loginHandler_unknown_email env1 request1 db1 Habs).
  rewrite (loginHandler_wrong_password env2 request2 db2 Hbad Hex).
  simpl. repeat split.
  - eexists; split; reflexivity.
  - intros V1 V2. unfold authRoutes_post_login, with_schema, validate.
    rewrite V1, V2.
    rewrite (loginHandler_unknown_email env1 request1 db1 Habs).
    now rewrite (loginHandler_wrong_password env2 request2 db2 Hbad Hex).
Qed.

(** *** The user object of the auth responses *)

(** C8.  Whenever login or register returns a response, the keys of its
    [user] object are exactly id, email, name, createdAt and updatedAt, in
    that order; [passwordHash] is not among them; the values are the five
    public columns of a row of the users table; and the rest of the
    response is the token signed for that row's id and the token's
    lifetime in seconds. *)
Theorem auth_response_user_is_public env db db' r :
  (exists request,
     loginHandler JWT_SECRET env request db = (Returned r, db'))
  \/ (exists request,
        registerHandler JWT_SECRET env request db = (Returned r, db')) ->
  keys (AuthResponse.user r) = ["id"; "email"; "name"; "createdAt"; "updatedAt"]
  /\ ~ In "passwordHash" (keys (AuthResponse.user r))
  /\ exists u, In u (users_table db')
       /\ AuthResponse.user r
          = [("id", JsString (users.id u));
             ("email", JsString (users.email u));
             ("name", JsString (users.name u));
             ("createdAt", JsDate (users.createdAt u));
             ("updatedAt", JsDate (users.updatedAt u))]
       /\ AuthResponse.token r = generateToken JWT_SECRET env (users.id u)
       /\ AuthResponse.expiresIn r = 604800.
Proof.
  assert (K : forall u : users.row,
    let o := [("id", JsString (users.id u));
              ("email", JsString (users.email u));
              ("name", JsString (users.name u));
              ("createdAt", JsDate (users.createdAt u));
              ("updatedAt", JsDate (users.updatedAt u))] in
    keys o = ["id"; "email"; "name"; "createdAt"; "updatedAt"]
    /\ ~ In "passwordHash" (keys o)).
  { intros u o. split; [reflexivity|]. simpl.
    intros [H|[H|[H|[H|[H|[]]]]]]; discriminate H. }
  intros [[request H] | [request H]].
  - unfold loginHandler, bind, select_users, read in H.
    rewrite first_row_firstn_1 in H.
    destruct (hd_error _) as [user|] eqn:E in H; [|discriminate H].
    apply hd_error_filter_some in E as [Hin _].
    destruct (verifyPassword _ _) in H; simpl in H; [|discriminate H].
    unfold ret in H. injection H as <- <-. simpl.
    destruct (K user) as [K1 K2]. repeat split; auto.
    exists user. repeat split; auto.
  - unfold registerHandler, bind, select_users, read in H.
    rewrite first_row_firstn_1 in H.
    destruct (hd_error _) as [user|] eqn:E in H; [discriminate H|].
    unfold insert_users in H.
    destruct (existsb _ _) in H; [discriminate H|].
    unfold ret in H. injection H as <- <-.
    match goal with |- context [users_table (mkDb (_ ++ [?row]) _)] =>
      destruct (K row) as [K1 K2]; repeat split; auto; exists row end.
    split; [|repeat split]. simpl. apply in_or_app. right. now left.
Qed.

(** *** Schema validation at the auth routes *)

Lemma with_schema_rejects {P Q B A} (schema : B -> list string)
    (handler : Request P Q B -> Async A) request db :
  schema (body request) <> [] ->
  with_schema schema handler request db
  = (Raised (HttpError 400 "Error" (issues_message (schema (body request)))),
     db).
Proof.
  intros Hne. unfold with_schema, validate.
  destruct (schema (body request)); [contradiction | reflexivity].
Qed.

Lemma with_schema_accepts {P Q B A} (schema : B -> list string)
    (handler : Request P Q B -> Async A) request db :
  schema (body request) = [] ->
  with_schema schema handler request db = handler request db.
Proof.
  intros He. unfold with_schema, validate. now rewrite He.
Qed.

Lemma passwordSchema_short s :
  (String.length s < 8)%nat -> passwordSchema s = false.
Proof.
  intros H. unfold passwordSchema. apply Nat.leb_gt. exact H.
Qed.

Lemma loginBodySchema_short b :
  (String.length (LoginBody.password b) < 8)%nat -> loginBodySchema b <> [].
Proof.
  intros H. unfold loginBodySchema. rewrite (passwordSchema_short _ H).
  destruct (emailSchema _); discriminate.
Qed.

Lemma registerBodySchema_short b :
  (String.length (RegisterBody.password b) < 8)%nat ->
  registerBodySchema b <> [].
Proof.
  intros H. unfold registerBodySchema. rewrite (passwordSchema_short _ H).
  destruct (emailSchema _); discriminate.
Qed.

(** C9.  A login or register request whose password has fewer than 8
    characters is answered by the schema validator with status 400
    (ValidationError), whatever handler the route carries, so the handler
    does not run: login gives no 401 and register leaves the store, hence
    the users table, as it was. *)
Theorem short_password_rejected_before_handler env db
    (login : Request unit unit LoginBody.t)
    (register : Request unit unit RegisterBody.t) :
  (String.length (LoginBody.password (body login)) < 8)%nat ->
  (String.length (RegisterBody.password (body register)) < 8)%nat ->
  (exists e,
     (forall A (handler : _ -> Async A),
        with_schema loginBodySchema handler login db = (Raised e, db))
     /\ authRoutes_post_login JWT_SECRET env login db = (Raised e, db)
     /\ statusCode (errorHandler e) = 400
     /\ kind_of e = ValidationError
     /\ kind_of e <> Unauthenticated)
  /\ (exists e,
        (forall A (handler : _ -> Async A),
           with_schema registerBodySchema handler register db = (Raised e, db))
        /\ authRoutes_post_register JWT_SECRET env register db = (Raised e, db)
        /\ statusCode (errorHandler e) = 400
        /\ kind_of e = ValidationError
        /\ users_table (snd (authRoutes_post_register JWT_SECRET env register db))
           = users_table db).
Proof.
  intros Hl Hr. split.
  - eexists. split; [|split; [|split; [|split]]].
    + intros A handler. apply with_schema_rejects.
      now apply loginBodySchema_short.
    + apply with_schema_rejects. now apply loginBodySchema_short.
    + reflexivity.
    + reflexivity.
    + discriminate.
  - eexists. split; [|split; [|split; [|split]]].
    + intros A handler. apply with_schema_rejects.
      now apply registerBodySchema_short.
    + apply with_schema_rejects. now apply registerBodySchema_short.
    + reflexivity.
    + reflexivity.
    + unfold authRoutes_post_register.
      rewrite with_schema_rejects by now apply registerBodySchema_short.
      reflexivity.
Qed.

(** *** Register, then login *)

Lemma app_nil_both {A} (l1 l2 : list A) :
  (l1 ++ l2)%list = [] -> l1 = [] /\ l2 = [].
Proof. destruct l1; [auto | discriminate]. Qed.

Lemma registerBodySchema_login b :
  registerBodySchema b = [] ->
  loginBodySchema (LoginBody.mk (RegisterBody.email b) (RegisterBody.password b))
  = [].
Proof.
  unfold registerBodySchema, loginBodySchema. simpl. intros H.
  apply app_nil_both in H as [-> H]. apply app_nil_both in H as [-> _].
  reflexivity.
Qed.

Lemma registerHandler_new_email env request db :
  (forall u, In u (users_table db) ->
     users.email u <> RegisterBody.email (body request)) ->
  (forall u, In u (users_table db) -> users.id u <> random_uuid env) ->
  let newUser :=
    users.mk (random_uuid env) (RegisterBody.email (body request))
      (RegisterBody.name (body request))
      (hashPassword env (RegisterBody.password (body request)))
      (now env) (now env) in
  registerHandler JWT_SECRET env request db
  = (Returned
       (AuthResponse.mk
          [("id", JsString (users.id newUser));
           ("email", JsString (users.email newUser));
           ("name", JsString (users.name newUser));
           ("createdAt", JsDate (users.createdAt newUser));
           ("updatedAt", JsDate (users.updatedAt newUser))]
          (generateToken JWT_SECRET env (random_uuid env))
          (7 * 24 * 60 * 60)),
     mkDb (users_table db ++ [newUser]) (tasks_table db)).
Proof.
  intros Hemail Hid newUser.
  unfold registerHandler, bind, select_users, read.
  rewrite first_row_firstn_1.
  assert (E : hd_error (filter (fun u => (users.email u =? RegisterBody.email (body request))%string)
                              (users_table db)) = None).
  { apply hd_error_filter_none. intros u Hu. apply String.eqb_neq. auto. }
  rewrite E. unfold insert_users.
  assert (X : existsb (fun u => (users.id u =? random_uuid env)%string
                                || (users.email u =? RegisterBody.email (body request))%string)
                      (users_table db) = false).
  { apply not_true_is_false. intros Hx. apply existsb_exists in Hx as [u [Hu Hor]].
    apply orb_true_iff in Hor as [H|H]; apply String.eqb_eq in H.
    - exact (Hid u Hu H).
    - exact (Hemail u Hu H). }
  simpl. rewrite X. reflexivity.
Qed.

Lemma loginHandler_finds env request db user :
  hd_error (filter (fun u => (users.email u =? LoginBody.email (body request))%string)
                   (users_table db)) = Some user ->
  verifyPassword (LoginBody.password (body request)) (users.passwordHash user)
  = true ->
  loginHandler JWT_SECRET env request db
  = (Returned
       (AuthResponse.mk
          [("id", JsString (users.id user));
           ("email", JsString (users.email user));
           ("name", JsString (users.name user));
           ("createdAt", JsDate (users.createdAt user));
           ("updatedAt", JsDate (users.updatedAt user))]
          (generateToken JWT_SECRET env (users.id user))
          (7 * 24 * 60 * 60)),
     db).
Proof.
  intros E V. unfold loginHandler, bind, select_users, read.
  rewrite first_row_firstn_1, E, V. reflexivity.
Qed.

(** C2.  With a bcrypt whose [compare] accepts what [hash] made and a JWT
    library whose [verify] accepts an unexpired token it signed: for every
    body that passes the register schema, whose e-mail no user has (and a
    generated id that no user has), register returns a response; a login
    that follows with the same e-mail and password returns a response and
    leaves the store alone; and, verified before their seven days are over,
    the tokens of both responses resolve to the same user id, the id of the
    user that register returned. *)
Theorem register_then_login_same_user {bok : BcryptOk} {jok : JwtOk}
    env1 env2 (register : Request unit unit RegisterBody.t) auth2 db :
  registerBodySchema (body register) = [] ->
  (forall u, In u (users_table db) ->
     users.email u <> RegisterBody.email (body register)) ->
  (forall u, In u (users_table db) -> users.id u <> random_uuid env1) ->
  let login :=
    mkRequest auth2 tt tt
      (LoginBody.mk (RegisterBody.email (body register))
                    (RegisterBody.password (body register))) in
  exists r1 db1 r2 userId,
    authRoutes_post_register JWT_SECRET env1 register db = (Returned r1, db1)
    /\ authRoutes_post_login JWT_SECRET env2 login db1 = (Returned r2, db1)
    /\ hd_error (AuthResponse.user r1) = Some ("id", JsString userId)
    /\ hd_error (AuthResponse.user r2) = Some ("id", JsString userId)
    /\ forall env3 env4 db',
         now env3 / 1000 < now env1 / 1000 + 604800 ->
         now env4 / 1000 < now env2 / 1000 + 604800 ->
         getUserIdFromToken JWT_SECRET env3
           (mkRequest (Some (AuthResponse.token r1)) tt tt tt) db'
         = (Returned userId, db')
         /\ getUserIdFromToken JWT_SECRET env4
              (mkRequest (Some (AuthResponse.token r2)) tt tt tt) db'
            = (Returned userId, db').
Proof.
  intros Hschema Hemail Hid login.
  pose (newUser :=
    users.mk (random_uuid env1) (RegisterBody.email (body register))
      (RegisterBody.name (body register))
      (hashPassword env1 (RegisterBody.password (body register)))
      (now env1) (now env1)).
  eexists _, _, _, (random_uuid env1).
  split; [|split; [|split; [|split]]].
  - unfold authRoutes_post_register.
    rewrite with_schema_accepts by exact Hschema.
    apply registerHandler_new_email; assumption.
  - unfold authRoutes_post_login.
    rewrite with_schema_accepts
      by (subst login; simpl; now apply registerBodySchema_login).
    apply (loginHandler_finds env2 login _ newUser).
    + subst login. simpl. rewrite filter_app. simpl.
      rewrite String.eqb_refl.
      assert (F : filter (fun u => (users.email u =? RegisterBody.email (body register))%string)
                         (users_table db) = []).
      { destruct (filter _ _) as [|u l] eqn:E; [reflexivity | exfalso].
        assert (Hu : In u (u :: l)) by now left.
        rewrite <- E in Hu. apply filter_In in Hu as [Hin He].
        apply String.eqb_eq in He. exact (Hemail u Hin He). }
      now rewrite F.
    + subst login newUser. simpl. unfold verifyPassword, hashPassword.
      apply compare_hash.
  - reflexivity.
  - reflexivity.
  - intros env3 env4 db' H3 H4. split.
    + apply (getUserIdFromToken_token env3 _
               (generateToken JWT_SECRET env1 (random_uuid env1))
               (random_uuid env1)); [reflexivity|].
      unfold token_of. simpl. unfold generateToken. now apply verify_sign.
    + apply (getUserIdFromToken_token env4 _
               (generateToken JWT_SECRET env2 (random_uuid env1))
               (random_uuid env1)); [reflexivity|].
      unfold token_of. simpl. unfold generateToken. now apply verify_sign.
Qed.

(** *** Task routes: the hook and the handler read the same token *)

Lemma onRequest_token {P Q B A} env (handler : Request P Q B -> Async A)
    request token u db :
  authorization request = Some token ->
  token_of env token u ->
  onRequest JWT_SECRET env handler request db = handler request db.
Proof.
  intros Ha Ht. unfold onRequest.
  now rewrite (jwtVerify_token env request token u Ha Ht).
Qed.

Lemma onRequest_mk {P Q B A} env (handler : Request P Q B -> Async A)
    token u p q b db :
  token_of env token u ->
  onRequest JWT_SECRET env handler (mkRequest (Some token) p q b) db
  = handler (mkRequest (Some token) p q b) db.
Proof.
  intros Ht. now apply (onRequest_token env handler _ token u db).
Qed.

Lemma onRequest_raised_keeps_store {P Q B A} env
    (handler : Request P Q B -> Async A) request db :
  (forall db0, snd (handler request db0) = db0) ->
  snd (onRequest JWT_SECRET env handler request db) = db.
Proof.
  intros H. unfold onRequest. destruct (jwtVerify _ _ _); [apply H | reflexivity].
Qed.

(** *** Update with no field *)

Lemma updateTaskHandler_no_field env request db :
  supplies_field (body request) = false ->
  snd (updateTaskHandler JWT_SECRET env request db) = db
  /\ forall token u,
       authorization request = Some token ->
       token_of env token u ->
       updateTaskHandler JWT_SECRET env request db
       = (Raised (reply.badRequest "At least one field must be provided"), db).
Proof.
  unfold supplies_field. intros H. apply negb_false_iff in H.
  unfold updateTaskHandler, bind. split.
  - unfold getUserIdFromToken. destruct (jwtVerify _ _ _); [|reflexivity].
    now rewrite H.
  - intros token u Ha Ht.
    rewrite (getUserIdFromToken_token env request token u db Ha Ht).
    now rewrite H.
Qed.

(** C6.  An update whose body supplies none of title, description and
    completed leaves the store exactly as it was, so every stored task keeps
    all its columns, [updatedAt] included; and when the request carries a
    valid token the answer is the 400 "At least one field must be provided"
    (ValidationError). *)
Theorem update_without_fields_is_rejected env request db :
  UpdateTaskRequest.title (body request) = None ->
  UpdateTaskRequest.description (body request) = None ->
  UpdateTaskRequest.completed (body request) = None ->
  snd (tasksRoutes_patch_id JWT_SECRET env request db) = db
  /\ (forall token u,
        authorization request = Some token ->
        token_of env token u ->
        tasksRoutes_patch_id JWT_SECRET env request db
        = (Raised (reply.badRequest "At least one field must be provided"), db)
        /\ respond (fst (tasksRoutes_patch_id JWT_SECRET env request db))
           = Failed (mkApiError (Some "Bad Request")
                       "At least one field must be provided" 400)
        /\ kind_of (reply.badRequest "At least one field must be provided")
           = ValidationError).
Proof.
  intros Ht Hd Hc.
  assert (Hs : supplies_field (body request) = false).
  { unfold supplies_field. now rewrite Ht, Hd, Hc. }
  split.
  - unfold tasksRoutes_patch_id. apply onRequest_raised_keeps_store.
    intros db0. apply (updateTaskHandler_no_field env request db0 Hs).
  - intros token u Ha Hu.
    assert (E : tasksRoutes_patch_id JWT_SECRET env request db
                = (Raised (reply.badRequest "At least one field must be provided"), db)).
    { unfold tasksRoutes_patch_id.
      rewrite (onRequest_token env _ request token u db Ha Hu).
      apply (proj2 (updateTaskHandler_no_field env request db Hs) token u Ha Hu). }
    rewrite E. repeat split.
Qed.

(** *** Create *)

Lemma createTaskHandler_inserts env request db token u :
  authorization request = Some token ->
  token_of env token u ->
  (exists usr, In usr (users_table db) /\ users.id usr = u) ->
  (forall t, In t (tasks_table db) -> tasks.id t <> random_uuid env) ->
  let row :=
    tasks.mk (random_uuid env) u (CreateTaskRequest.title (body request))
      (or_null (CreateTaskRequest.description (body request)))
      false (now env) (now env) in
  tasksRoutes_post JWT_SECRET env request db
  = (Returned row, mkDb (users_table db) (tasks_table db ++ [row])).
Proof.
  intros Ha Ht [usr [Hin Hid]] Hfresh row.
  unfold tasksRoutes_post.
  rewrite (onRequest_token env _ request token u db Ha Ht).
  unfold createTaskHandler, bind.
  rewrite (getUserIdFromToken_token env request token u db Ha Ht).
  unfold insert_tasks. simpl.
  assert (X : existsb (fun t => (tasks.id t =? random_uuid env)%string)
                      (tasks_table db) = false).
  { apply not_true_is_false. intros Hx.
    apply existsb_exists in Hx as [t [Hi He]].
    apply String.eqb_eq in He. exact (Hfresh t Hi He). }
  assert (Y : existsb (fun x => (users.id x =? u)%string) (users_table db) = true).
  { apply existsb_exists. exists usr. split; [assumption|].
    now apply String.eqb_eq. }
  rewrite X, Y. reflexivity.
Qed.

(** C10.  A create request by an authenticated, existing user (with a
    generated id that no task has) returns the inserted task and appends it
    to the tasks table; the stored description is null when the request's
    description is absent or the empty string, and is the request's
    description, unchanged, when that is a non-empty string. *)
Theorem create_stores_empty_description_as_null env request db token u :
  authorization request = Some token ->
  token_of env token u ->
  (exists usr, In usr (users_table db) /\ users.id usr = u) ->
  (forall t, In t (tasks_table db) -> tasks.id t <> random_uuid env) ->
  exists task,
    tasksRoutes_post JWT_SECRET env request db
    = (Returned task, mkDb (users_table db) (tasks_table db ++ [task]))
    /\ (CreateTaskRequest.description (body request) = Some ""
        \/ CreateTaskRequest.description (body request) = None ->
        tasks.description task = None)
    /\ (forall d, CreateTaskRequest.description (body request) = Some d ->
          d <> "" -> tasks.description task = Some d).
Proof.
  intros Ha Ht Hu Hfresh. eexists. split; [|split].
  - apply (createTaskHandler_inserts env request db token u Ha Ht Hu Hfresh).
  - simpl. intros [-> | ->]; reflexivity.
  - simpl. intros d -> Hd. simpl.
    apply String.eqb_neq in Hd. now rewrite Hd.
Qed.

(** *** Ownership *)

Lemma NoDup_map_eq {A B} (f : A -> B) l x y :
  NoDup (map f l) -> In x l -> In y l -> f x = f y -> x = y.
Proof.
  induction l as [|a l IH]; simpl; intros Hnd Hx Hy Hf; [contradiction|].
  inversion Hnd as [|? ? Hnotin Hnd']; subst.
  destruct Hx as [<- | Hx], Hy as [<- | Hy]; auto.
  - exfalso. apply Hnotin. rewrite Hf. now apply in_map.
  - exfalso. apply Hnotin. rewrite <- Hf. now apply in_map.
Qed.

Lemma filter_none {A} (f : A -> bool) l :
  (forall x, In x l -> f x = false) -> filter f l = [].
Proof.
  induction l as [|a l IH]; simpl; intros H; [reflexivity|].
  rewrite (H a (or_introl eq_refl)). apply IH. intros x Hx. apply H. now right.
Qed.

Lemma map_if_none {A} (f : A -> bool) (g : A -> A) l :
  (forall x, In x l -> f x = false) ->
  map (fun t => if f t then g t else t) l = l.
Proof.
  induction l as [|a l IH]; simpl; intros H; [reflexivity|].
  rewrite (H a (or_introl eq_refl)). f_equal. apply IH.
  intros x Hx. apply H. now right.
Qed.

Lemma filter_negb_none {A} (f : A -> bool) l :
  (forall x, In x l -> f x = false) -> filter (fun t => negb (f t)) l = l.
Proof.
  induction l as [|a l IH]; simpl; intros H; [reflexivity|].
  rewrite (H a (or_introl eq_refl)). simpl. f_equal. apply IH.
  intros x Hx. apply H. now right.
Qed.

Lemma id_and_owner_true id u t :
  id_and_owner id u t = true <-> tasks.id t = id /\ tasks.userId t = u.
Proof.
  unfold id_and_owner. rewrite andb_true_iff, !String.eqb_eq. tauto.
Qed.

(** Under the primary key, a task of another owner matches no row of the
    requester's query. *)
Lemma no_row_for_non_owner db t B :
  task_ids_unique db ->
  In t (tasks_table db) ->
  tasks.userId t <> B ->
  forall x, In x (tasks_table db) -> id_and_owner (tasks.id t) B x = false.
Proof.
  intros Hnd Ht Hne x Hx. apply not_true_is_false. intros Hm.
  apply id_and_owner_true in Hm as [Hid Hu].
  assert (x = t) by (apply (NoDup_map_eq tasks.id (tasks_table db)); auto).
  subst x. contradiction.
Qed.

Lemma getTaskHandler_eq env request db token u :
  authorization request = Some token ->
  token_of env token u ->
  getTaskHandler JWT_SECRET env request db
  = (match hd_error (filter (id_and_owner (IdParams.id (params request)) u)
                            (tasks_table db)) with
     | None => Raised (reply.notFound "Task not found")
     | Some task => Returned task
     end, db).
Proof.
  intros Ha Ht. unfold getTaskHandler, bind.
  rewrite (getUserIdFromToken_token env request token u db Ha Ht).
  unfold select_tasks, read. rewrite first_row_firstn_1.
  now destruct (hd_error _).
Qed.

Lemma getTaskHandler_mk env db token u id :
  token_of env token u ->
  getTaskHandler JWT_SECRET env
    (mkRequest (Some token) (IdParams.mk id) tt tt) db
  = (match hd_error (filter (id_and_owner id u) (tasks_table db)) with
     | None => Raised (reply.notFound "Task not found")
     | Some task => Returned task
     end, db).
Proof.
  intros Ht.
  now apply (getTaskHandler_eq env
               (mkRequest (Some token) (IdParams.mk id) tt tt) db token u).
Qed.

Lemma updateTaskHandler_eq env request db token u :
  authorization request = Some token ->
  token_of env token u ->
  supplies_field (body request) = true ->
  let w := id_and_owner (IdParams.id (params request)) u in
  let updateData :=
    UpdateData.mk (UpdateTaskRequest.title (body request))
      (UpdateTaskRequest.description (body request))
      (UpdateTaskRequest.completed (body request)) (Some (now env)) in
  updateTaskHandler JWT_SECRET env request db
  = (match hd_error (map (set_task updateData) (filter w (tasks_table db))) with
     | None => Raised (reply.notFound "Task not found")
     | Some updatedTask => Returned updatedTask
     end,
     mkDb (users_table db)
       (map (fun t => if w t then set_task updateData t else t)
            (tasks_table db))).
Proof.
  intros Ha Ht Hs w updateData. unfold updateTaskHandler, bind.
  rewrite (getUserIdFromToken_token env request token u db Ha Ht).
  unfold supplies_field in Hs. apply negb_true_iff in Hs. rewrite Hs.
  match goal with |- context [update_tasks ?d _] =>
    replace d with updateData end.
  - unfold update_tasks, first_row. fold w. now destruct (hd_error _).
  - subst updateData.
    destruct (UpdateTaskRequest.title (body request)),
             (UpdateTaskRequest.description (body request)),
             (UpdateTaskRequest.completed (body request)); reflexivity.
Qed.

Lemma deleteTaskHandler_eq env request db token u :
  authorization request = Some token ->
  token_of env token u ->
  let w := id_and_owner (IdParams.id (params request)) u in
  deleteTaskHandler JWT_SECRET env request db
  = (match hd_error (filter w (tasks_table db)) with
     | None => Raised (reply.notFound "Task not found")
     | Some _ => Returned (DeleteTaskResponse.mk true)
     end,
     mkDb (users_table db) (filter (fun t => negb (w t)) (tasks_table db))).
Proof.
  intros Ha Ht w. unfold deleteTaskHandler, bind.
  rewrite (getUserIdFromToken_token env request token u db Ha Ht).
  unfold delete_tasks, first_row. fold w. now destruct (hd_error _).
Qed.

Lemma rows_of_others_update u id (g : tasks.row -> tasks.row) l :
  (forall t, tasks.userId (g t) = tasks.userId t) ->
  filter (fun t => negb (tasks.userId t =? u)%string)
    (map (fun t => if id_and_owner id u t then g t else t) l)
  = filter (fun t => negb (tasks.userId t =? u)%string) l.
Proof.
  intros Hg. induction l as [|a l IH]; simpl; [reflexivity|].
  destruct (id_and_owner id u a) eqn:E.
  - rewrite Hg. apply id_and_owner_true in E as [_ E].
    apply String.eqb_eq in E. rewrite E. simpl. exact IH.
  - destruct (negb _); [f_equal|]; exact IH.
Qed.

Lemma rows_of_others_delete u id l :
  filter (fun t => negb (tasks.userId t =? u)%string)
    (filter (fun t => negb (id_and_owner id u t)) l)
  = filter (fun t => negb (tasks.userId t =? u)%string) l.
Proof.
  induction l as [|a l IH]; simpl; [reflexivity|].
  destruct (id_and_owner id u a) eqn:E; simpl.
  - apply id_and_owner_true in E as [_ E].
    apply String.eqb_eq in E. rewrite E. simpl. exact IH.
  - destruct (negb _); [f_equal|]; exact IH.
Qed.

Lemma hd_error_map_some {A B} (f : A -> B) l y :
  hd_error (map f l) = Some y -> exists x, hd_error l = Some x /\ y = f x.
Proof.
  destruct l as [|x l]; simpl; [discriminate|].
  intros H. injection H as <-. now exists x.
Qed.

Lemma requests_are_owner_scoped env db u token id b :
  token_of env token u -> owner_scoped env db u token id b.
Proof.
  intros Ht. unfold owner_scoped.
  unfold tasksRoutes_get_id, tasksRoutes_patch_id, tasksRoutes_delete_id.
  rewrite !(onRequest_mk env _ token u _ _ _ db Ht).
  rewrite (getTaskHandler_eq env (mkRequest (Some token) id tt tt) db token u
             eq_refl Ht).
  rewrite (deleteTaskHandler_eq env (mkRequest (Some token) id tt tt) db
             token u eq_refl Ht).
  cbn [snd fst params body].
  split; [|split].
  - split; [reflexivity|]. intros task H.
    destruct (hd_error _) as [x|] eqn:E in H; [|discriminate H].
    injection H as <-. apply hd_error_filter_some in E as [Hin Hm].
    apply id_and_owner_true in Hm as [Hid Hu]. auto.
  - destruct (supplies_field b) eqn:Hs.
    + rewrite (updateTaskHandler_eq env (mkRequest (Some token) id tt b) db
                 token u eq_refl Ht Hs).
      cbn [snd fst params body tasks_table users_table].
      split; [|split].
      * unfold rows_of_others. cbn [tasks_table].
        now apply rows_of_others_update.
      * reflexivity.
      * intros task H.
        destruct (hd_error _) as [y|] eqn:E in H; [|discriminate H].
        injection H as <-.
        apply hd_error_map_some in E as [x [E ->]].
        apply hd_error_filter_some in E as [Hin Hm].
        split.
        -- apply in_map_iff. exists x. rewrite Hm. auto.
        -- apply id_and_owner_true in Hm as [Hid Hu]. now simpl.
    + destruct (updateTaskHandler_no_field env
                  (mkRequest (Some token) id tt b) db Hs) as [Hsnd Hfst].
      rewrite (Hfst token u eq_refl Ht). cbn [snd fst].
      split; [reflexivity|]. split; [reflexivity|]. discriminate.
  - unfold rows_of_others. cbn [tasks_table users_table].
    split; [apply rows_of_others_delete | reflexivity].
Qed.

(** C7 (as the code has it).  A create request with a non-empty title, by
    an authenticated, existing user (with a generated id that no task has),
    returns the inserted task and appends it to the tasks table.  The title
    is stored as sent, the owner is the requester and [completed] is false;
    the optional description passes through unchanged when it is a
    non-empty string and is stored as null when it is absent or the empty
    string; and a get of the new id by the same user, right after, returns
    the same task. *)
Theorem create_passes_fields_through env request db token u :
  authorization request = Some token ->
  token_of env token u ->
  (exists usr, In usr (users_table db) /\ users.id usr = u) ->
  (forall t, In t (tasks_table db) -> tasks.id t <> random_uuid env) ->
  CreateTaskRequest.title (body request) <> "" ->
  exists task db1,
    tasksRoutes_post JWT_SECRET env request db = (Returned task, db1)
    /\ tasks_table db1 = (tasks_table db ++ [task])%list
    /\ users_table db1 = users_table db
    /\ tasks.title task = CreateTaskRequest.title (body request)
    /\ tasks.userId task = u
    /\ tasks.completed task = false
    /\ (forall d, CreateTaskRequest.description (body request) = Some d ->
          d <> "" -> tasks.description task = Some d)
    /\ (CreateTaskRequest.description (body request) = None
        \/ CreateTaskRequest.description (body request) = Some "" ->
        tasks.description task = None)
    /\ tasksRoutes_get_id JWT_SECRET env
         (mkRequest (Some token) (IdParams.mk (tasks.id task)) tt tt) db1
       = (Returned task, db1).
Proof.
  intros Ha Ht Hu Hfresh _. eexists _, _.
  split; [apply (createTaskHandler_inserts env request db token u
                   Ha Ht Hu Hfresh)|].
  cbn [tasks_table users_table tasks.title tasks.userId tasks.completed
       tasks.description tasks.id].
  repeat apply conj; try reflexivity.
  - intros d -> Hd. simpl. apply String.eqb_neq in Hd. now rewrite Hd.
  - intros [-> | ->]; reflexivity.
  - unfold tasksRoutes_get_id.
    rewrite (onRequest_mk env _ token u _ _ _ _ Ht).
    rewrite (getTaskHandler_mk env _ token u _ Ht).
    cbn [tasks_table]. rewrite filter_app.
    assert (F : filter (id_and_owner (random_uuid env) u) (tasks_table db)
                = []).
    { destruct (filter _ _) as [|x l] eqn:E; [reflexivity | exfalso].
      assert (Hx : In x (x :: l)) by now left.
      rewrite <- E in Hx. apply filter_In in Hx as [Hin Hm].
      unfold id_and_owner in Hm. apply andb_true_iff in Hm as [Hm _].
      apply String.eqb_eq in Hm. exact (Hfresh x Hin Hm). }
    rewrite F. cbn [filter app]. unfold id_and_owner.
    cbn [tasks.id tasks.userId]. now rewrite !String.eqb_refl.
Qed.

Lemma get_non_owner_not_found env db A B t token :
  task_ids_unique db ->
  In t (tasks_table db) ->
  tasks.userId t = A ->
  A <> B ->
  token_of env token B ->
  tasksRoutes_get_id JWT_SECRET env
    (mkRequest (Some token) (IdParams.mk (tasks.id t)) tt tt) db
  = (Raised (reply.notFound "Task not found"), db).
Proof.
  intros Hnd Hin HA Hne Ht.
  assert (Hnone : forall x, In x (tasks_table db) ->
                    id_and_owner (tasks.id t) B x = false).
  { apply no_row_for_non_owner; auto. congruence. }
  unfold tasksRoutes_get_id.
  rewrite (onRequest_mk env _ token B _ _ _ db Ht).
  rewrite (getTaskHandler_eq env
             (mkRequest (Some token) (IdParams.mk (tasks.id t)) tt tt) db
             token B eq_refl Ht).
  cbn [params IdParams.id].
  now rewrite (filter_none _ _ Hnone).
Qed.

(** C1 (as the code has it).  Let task [t] be a row of user A in a store
    whose task ids are unique, and let B, another user, present a valid
    token.  Then B's get and delete of [t]'s id, and B's update of it with a
    body that supplies at least one field, are answered 404 "Task not found"
    (NotFound) and leave the store as it was; B's update with a body that
    supplies no field is answered 400 (ValidationError), the store again
    untouched.  Moreover, for every id and
    every body, the get, update and delete that B sends match rows on both
    the id and B's user id: a task that comes back is a row with that id
    owned by B, and the rows of all other users stay unchanged. *)
Theorem non_owner_gets_not_found env db A B t token :
  task_ids_unique db ->
  In t (tasks_table db) ->
  tasks.userId t = A ->
  A <> B ->
  token_of env token B ->
  let id := IdParams.mk (tasks.id t) in
  tasksRoutes_get_id JWT_SECRET env (mkRequest (Some token) id tt tt) db
  = (Raised (reply.notFound "Task not found"), db)
  /\ (forall b, supplies_field b = true ->
        tasksRoutes_patch_id JWT_SECRET env (mkRequest (Some token) id tt b) db
        = (Raised (reply.notFound "Task not found"), db))
  /\ (forall b, supplies_field b = false ->
        tasksRoutes_patch_id JWT_SECRET env (mkRequest (Some token) id tt b) db
        = (Raised (reply.badRequest "At least one field must be provided"),
           db))
  /\ tasksRoutes_delete_id JWT_SECRET env (mkRequest (Some token) id tt tt) db
     = (Raised (reply.notFound "Task not found"), db)
  /\ respond (A:=tasks.row) (Raised (reply.notFound "Task not found"))
     = Failed (mkApiError (Some "Not Found") "Task not found" 404)
  /\ kind_of (reply.notFound "Task not found") = NotFound
  /\ (forall id' b, owner_scoped env db B token id' b).
Proof.
  intros Hnd Hin HA Hne Ht id.
  assert (Hnone : forall x, In x (tasks_table db) ->
                    id_and_owner (tasks.id t) B x = false).
  { apply no_row_for_non_owner; auto. congruence. }
  unfold tasksRoutes_get_id, tasksRoutes_patch_id, tasksRoutes_delete_id.
  split; [|split; [|split; [|split; [|split; [|split]]]]].
  - fold tasksRoutes_get_id. subst id.
    now apply (get_non_owner_not_found env db A B t token).
  - intros b Hs.
    rewrite (onRequest_mk env _ token B _ _ _ db Ht).
    rewrite (updateTaskHandler_eq env (mkRequest (Some token) id tt b) db
               token B eq_refl Ht Hs).
    subst id. cbn [params IdParams.id].
    rewrite (filter_none _ _ Hnone), (map_if_none _ _ _ Hnone).
    simpl. now rewrite mkDb_eta.
  - intros b Hs.
    rewrite (onRequest_mk env _ token B _ _ _ db Ht).
    apply (proj2 (updateTaskHandler_no_field env
                    (mkRequest (Some token) id tt b) db Hs) token B eq_refl Ht).
  - rewrite (onRequest_mk env _ token B _ _ _ db Ht).
    rewrite (deleteTaskHandler_eq env (mkRequest (Some token) id tt tt) db
               token B eq_refl Ht).
    subst id. cbn [params IdParams.id].
    rewrite (filter_none _ _ Hnone), (filter_negb_none _ _ Hnone).
    now rewrite mkDb_eta.
  - reflexivity.
  - reflexivity.
  - intros id' b. now apply requests_are_owner_scoped.
Qed.

(** *** The list query *)

Lemma NoDup_map_filter {A B} (f : A -> B) (p : A -> bool) l :
  NoDup (map f l) -> NoDup (map f (filter p l)).
Proof.
  induction l as [|a l IH]; simpl; intros H; [constructor|].
  inversion H as [|? ? Hn Hd]; subst.
  destruct (p a); simpl; [|now apply IH].
  constructor; [|now apply IH].
  intros Hin. apply Hn. apply in_map_iff in Hin as [x [Hx Hi]].
  apply filter_In in Hi as [Hi _]. apply in_map_iff. now exists x.
Qed.




(** The list route for a valid token, in one equation. *)
Lemma tasksRoutes_get_form env db token u q :
  token_of env token u ->
  let page :=
    match ListTasksParams.page q with Some s => Sent s | None => Default 1 end in
  let limit :=
    match ListTasksParams.limit q with Some s => Sent s | None => Default 20 end in
  let matching :=
    filter (whereClause u (ListTasksParams.completed q)) (tasks_table db) in
  let total := Z.of_nat (List.length matching) in
  tasksRoutes_get JWT_SECRET env (mkRequest (Some token) tt q tt) db
  = (match limit_offset limit
             (times (minus (to_number page) (of_Z 1)) (to_number limit))
             (order_by_createdAt_desc env matching) with
     | Returned l =>
         Returned
           (ListTasksResponse.mk l
              (Pagination.mk page limit total
                 (Math_ceil (divide (of_Z total) (to_number limit)))))
     | Raised e => Raised e
     end, db).
Proof.
  intros Ht page limit matching total.
  unfold tasksRoutes_get. rewrite (onRequest_mk env _ token u _ _ _ db Ht).
  unfold listTasksHandler, bind.
  rewrite (getUserIdFromToken_token env (mkRequest (Some token) tt q tt)
             token u db eq_refl Ht).
  cbn [query]. fold page limit. unfold select_tasks_page.
  fold matching. now destruct (limit_offset _ _ _).
Qed.

Lemma safe_bounds z : 0 <= z <= MAX_SAFE_INTEGER -> safe_integer z.
Proof. unfold safe_integer, MAX_SAFE_INTEGER. lia. Qed.

(** The offset of page [p] with the default limit. *)
Lemma offset_of_page {jsok : JsNumbersOk} p L :
  1 <= p <= MAX_SAFE_INTEGER -> 1 <= L <= MAX_SAFE_INTEGER ->
  (p - 1) * L <= MAX_SAFE_INTEGER ->
  times (minus (ToNumber (decimal p)) (of_Z 1)) (of_Z L) = of_Z ((p - 1) * L).
Proof.
  intros Hp HL Ho.
  rewrite ToNumber_decimal by (unfold MAX_SAFE_INTEGER in *; lia).
  rewrite minus_exact;
    try (apply safe_bounds; unfold MAX_SAFE_INTEGER in *; lia).
  apply times_exact; apply safe_bounds; unfold MAX_SAFE_INTEGER in *; nia.
Qed.

Lemma offset_rows_of_Z {jsok : JsNumbersOk} {A} o (rows : list A) :
  0 <= o <= MAX_SAFE_INTEGER ->
  (if Number_truthy (of_Z o) then offset_rows (of_Z o) rows
   else Returned rows)
  = Returned (skipn (Z.to_nat o) rows).
Proof.
  intros Ho. rewrite truthy_of_Z by now apply safe_bounds.
  destruct (o =? 0) eqn:E; cbn [negb].
  - apply Z.eqb_eq in E. now subst o.
  - unfold offset_rows. rewrite integer_value_of_Z by now apply safe_bounds.
    destruct (o <? 0) eqn:E1; [apply Z.ltb_lt in E1; lia|].
    destruct (9223372036854775807 <? o) eqn:E2; [|reflexivity].
    apply Z.ltb_lt in E2. unfold MAX_SAFE_INTEGER in Ho. lia.
Qed.


(** A list request without a query string is page 1. *)
Lemma list_no_query {jsok : JsNumbersOk} env db token u :
  token_of env token u ->
  let matching := filter (whereClause u None) (tasks_table db) in
  let total := Z.of_nat (List.length matching) in
  total <= MAX_SAFE_INTEGER ->
  tasksRoutes_get JWT_SECRET env
    (mkRequest (Some token) tt (ListTasksParams.mk None None None) tt) db
  = (Returned
       (ListTasksResponse.mk
          (firstn 20 (order_by_createdAt_desc env matching))
          (Pagination.mk (Default 1) (Default 20) total
             (of_Z (- (- total / 20))))),
     db).
Proof.
  intros Ht matching total Htot.
  rewrite (tasksRoutes_get_form env db token u _ Ht).
  cbn [ListTasksParams.page ListTasksParams.limit ListTasksParams.completed
       to_number].
  fold matching. fold total.
  rewrite minus_exact by (unfold safe_integer, MAX_SAFE_INTEGER; lia).
  change (1 - 1) with 0.
  unfold limit_offset. rewrite times_zero.
  cbn [limit_clause]. change (0 <=? 20) with true. cbv iota.
  change (Z.to_nat 20) with 20%nat.
  rewrite ceil_divide by (unfold MAX_SAFE_INTEGER in *; subst total; lia).
  reflexivity.
Qed.



(** *** The task routes carry no schema *)

Lemma tasksRoutes_get_never_400 env request db e :
  fst (tasksRoutes_get JWT_SECRET env request db) = Raised e ->
  kind_of e <> ValidationError.
Proof.
  unfold tasksRoutes_get, onRequest.
  destruct (jwtVerify JWT_SECRET env request) as [u|e0] eqn:Ej.
  - unfold listTasksHandler, bind, getUserIdFromToken. rewrite Ej.
    unfold select_tasks_page, limit_offset, offset_rows.
    destruct (Number_truthy _); [|simpl; discriminate].
    destruct (integer_value _) as [o|];
      [|simpl; intros H; injection H as <-; discriminate].
    destruct (o <? 0); [simpl; intros H; injection H as <-; discriminate|].
    destruct (_ <? o); [simpl; intros H; injection H as <-; discriminate|].
    simpl. discriminate.
  - simpl. intros H. injection H as <-.
    unfold jwtVerify in Ej. destruct (authorization request).
    + destruct (jwt_verify _ _ _); [discriminate Ej|].
      injection Ej as <-. discriminate.
    + injection Ej as <-. discriminate.
Qed.

Lemma tasksRoutes_post_never_400 env request db e :
  fst (tasksRoutes_post JWT_SECRET env request db) = Raised e ->
  kind_of e <> ValidationError.
Proof.
  unfold tasksRoutes_post, onRequest.
  destruct (jwtVerify JWT_SECRET env request) as [u|e0] eqn:Ej.
  - unfold createTaskHandler, bind, getUserIdFromToken. rewrite Ej.
    unfold insert_tasks.
    destruct (existsb _ _); [simpl; intros H; injection H as <-; discriminate|].
    destruct (negb _); [simpl; intros H; injection H as <-; discriminate|].
    simpl. discriminate.
  - simpl. intros H. injection H as <-.
    unfold jwtVerify in Ej. destruct (authorization request).
    + destruct (jwt_verify _ _ _); [discriminate Ej|].
      injection Ej as <-. discriminate.
    + injection Ej as <-. discriminate.
Qed.

(** *** The handlers keep the constraints of the schema *)

Lemma existsb_false_forall {A} (f : A -> bool) l :
  existsb f l = false -> forall x, In x l -> f x = false.
Proof.
  intros H x Hx. apply not_true_is_false. intros Hf.
  assert (existsb f l = true) by (apply existsb_exists; eauto). congruence.
Qed.

Lemma NoDup_map_snoc {A B} (f : A -> B) l x :
  NoDup (map f l) -> (forall y, In y l -> f y <> f x) ->
  NoDup (map f (l ++ [x])).
Proof.
  intros Hnd Hne. rewrite map_app. apply NoDup_app; [assumption | |].
  - simpl. constructor; [simpl; tauto | constructor].
  - intros b Hb [<- | []]. apply in_map_iff in Hb as [y [Hy Hin]].
    exact (Hne y Hin Hy).
Qed.

Lemma insert_users_wf env email passwordHash name db :
  db_wf db -> db_wf (snd (insert_users env email passwordHash name db)).
Proof.
  intros (Hid & Hem & Ht & Hfk). unfold insert_users.
  destruct (existsb _ _) eqn:X; [now repeat split|].
  pose proof (existsb_false_forall _ _ X) as Hx. cbn [snd].
  unfold db_wf, task_ids_unique. cbn [users_table tasks_table].
  split; [|split; [|split]].
  - apply NoDup_map_snoc; [assumption|]. intros y Hy. simpl.
    specialize (Hx y Hy). apply orb_false_iff in Hx as [Hx _].
    now apply String.eqb_neq in Hx.
  - apply NoDup_map_snoc; [assumption|]. intros y Hy. simpl.
    specialize (Hx y Hy). apply orb_false_iff in Hx as [_ Hx].
    now apply String.eqb_neq in Hx.
  - exact Ht.
  - intros t Hin. destruct (Hfk t Hin) as [u [Hu He]].
    exists u. split; [apply in_or_app; now left | assumption].
Qed.

Lemma insert_tasks_wf env userId title description db :
  db_wf db -> db_wf (snd (insert_tasks env userId title description db)).
Proof.
  intros (Hid & Hem & Ht & Hfk). unfold insert_tasks.
  destruct (existsb _ (tasks_table db)) eqn:X; [now repeat split|].
  destruct (existsb _ (users_table db)) eqn:Y; [|now repeat split].
  pose proof (existsb_false_forall _ _ X) as Hx. cbn [negb snd].
  unfold db_wf, task_ids_unique. cbn [users_table tasks_table].
  split; [assumption|]. split; [assumption|]. split.
  - apply NoDup_map_snoc; [assumption|]. intros y Hy. simpl.
    specialize (Hx y Hy). now apply String.eqb_neq in Hx.
  - intros t Hin. apply in_app_or in Hin as [Hin | [<- | []]].
    + exact (Hfk t Hin).
    + apply existsb_exists in Y as [u [Hu He]].
      apply String.eqb_eq in He. now exists u.
Qed.

Lemma update_tasks_wf u w db :
  db_wf db -> db_wf (snd (update_tasks u w db)).
Proof.
  intros (Hid & Hem & Ht & Hfk). unfold update_tasks. cbn [snd].
  unfold db_wf, task_ids_unique in *. cbn [users_table tasks_table].
  split; [assumption|]. split; [assumption|]. split.
  - rewrite map_map.
    rewrite (map_ext _ tasks.id); [assumption|].
    intros t. now destruct (w t).
  - intros t Hin. apply in_map_iff in Hin as [x [Hx Hin]].
    destruct (Hfk x Hin) as [usr [Hu He]]. exists usr. split; [assumption|].
    subst t. now destruct (w x).
Qed.

Lemma delete_tasks_wf w db : db_wf db -> db_wf (snd (delete_tasks w db)).
Proof.
  intros (Hid & Hem & Ht & Hfk). unfold delete_tasks. cbn [snd].
  unfold db_wf, task_ids_unique in *. cbn [users_table tasks_table].
  split; [assumption|]. split; [assumption|]. split.
  - now apply NoDup_map_filter.
  - intros t Hin. apply filter_In in Hin as [Hin _]. exact (Hfk t Hin).
Qed.

Lemma bind_read_wf {A B} (q : Db -> A) (k : A -> Async B) db :
  (forall a, db_wf (snd (k a db))) -> db_wf (snd (bind (read q) k db)).
Proof. intros H. unfold bind, read. apply H. Qed.

(** Every route takes a store that satisfies the schema's constraints to
    one that does. *)
Lemma routes_preserve_db_wf env db :
  db_wf db ->
  (forall r, db_wf (snd (authRoutes_post_login JWT_SECRET env r db)))
  /\ (forall r, db_wf (snd (authRoutes_post_register JWT_SECRET env r db)))
  /\ (forall r, db_wf (snd (tasksRoutes_get JWT_SECRET env r db)))
  /\ (forall r, db_wf (snd (tasksRoutes_post JWT_SECRET env r db)))
  /\ (forall r, db_wf (snd (tasksRoutes_get_id JWT_SECRET env r db)))
  /\ (forall r, db_wf (snd (tasksRoutes_patch_id JWT_SECRET env r db)))
  /\ (forall r, db_wf (snd (tasksRoutes_delete_id JWT_SECRET env r db))).
Proof.
  intros Hwf.
  assert (Huid : forall P Q B A (r : Request P Q B) (k : uuid -> Async A),
            (forall u, db_wf (snd (k u db))) ->
            db_wf (snd (bind (getUserIdFromToken JWT_SECRET env r) k db))).
  { intros P Q B A r k H. unfold bind, getUserIdFromToken.
    destruct (jwtVerify _ _ _); [apply H | exact Hwf]. }
  assert (Hhook : forall P Q B A (h : Request P Q B -> Async A) r,
            db_wf (snd (h r db)) ->
            db_wf (snd (onRequest JWT_SECRET env h r db))).
  { intros P Q B A h r H. unfold onRequest.
    destruct (jwtVerify _ _ _); [exact H | exact Hwf]. }
  assert (Hsch : forall B A (s : B -> list string)
                   (h : Request unit unit B -> Async A) r,
            db_wf (snd (h r db)) -> db_wf (snd (with_schema s h r db))).
  { intros B A s h r H. unfold with_schema.
    destruct (validate _ _); [exact H | exact Hwf]. }
  repeat apply conj; intros r.
  - apply Hsch. unfold loginHandler. apply bind_read_wf. intros rows.
    destruct (first_row rows); [|exact Hwf].
    destruct (negb _); exact Hwf.
  - apply Hsch. unfold registerHandler. apply bind_read_wf. intros rows.
    destruct (first_row rows); [exact Hwf|].
    unfold bind.
    pose proof (insert_users_wf env (RegisterBody.email (body r))
                  (hashPassword env (RegisterBody.password (body r)))
                  (RegisterBody.name (body r)) db Hwf) as Hi.
    destruct (insert_users _ _ _ _ db) as [[newUser|e] db']; exact Hi.
  - apply Hhook. unfold listTasksHandler. apply Huid. intros u.
    unfold bind, select_tasks_page, count_tasks, read.
    destruct (limit_offset _ _ _); exact Hwf.
  - apply Hhook. unfold createTaskHandler. apply Huid. intros u.
    unfold bind.
    pose proof (insert_tasks_wf env u (CreateTaskRequest.title (body r))
                  (or_null (CreateTaskRequest.description (body r))) db Hwf)
      as Hi.
    destruct (insert_tasks _ _ _ _ db) as [[task|e] db']; exact Hi.
  - apply Hhook. unfold getTaskHandler. apply Huid. intros u.
    apply bind_read_wf. intros rows. destruct (first_row rows); exact Hwf.
  - apply Hhook. unfold updateTaskHandler. apply Huid. intros u.
    destruct (_ && _); [exact Hwf|]. unfold bind.
    match goal with |- context [update_tasks ?d ?w db] =>
      pose proof (update_tasks_wf d w db Hwf) as Hi;
      destruct (update_tasks d w db) as [[rows|e] db'] end;
      [|exact Hi].
    destruct (first_row rows); exact Hi.
  - apply Hhook. unfold deleteTaskHandler. apply Huid. intros u.
    unfold bind.
    match goal with |- context [delete_tasks ?w db] =>
      pose proof (delete_tasks_wf w db Hwf) as Hi;
      destruct (delete_tasks w db) as [[rows|e] db'] end;
      [|exact Hi].
    destruct (first_row rows); exact Hi.
Qed.

(** A task that A has just created is served to A and hidden from B. *)
Lemma created_task_is_hidden_from_others envA envB db A B tokenA tokenB title d :
  db_wf db ->
  token_of envA tokenA A ->
  token_of envB tokenB B ->
  A <> B ->
  (exists usr, In usr (users_table db) /\ users.id usr = A) ->
  (forall t, In t (tasks_table db) -> tasks.id t <> random_uuid envA) ->
  exists t db1,
    tasksRoutes_post JWT_SECRET envA
      (mkRequest (Some tokenA) tt tt (CreateTaskRequest.mk title d)) db
    = (Returned t, db1)
    /\ tasks.userId t = A
    /\ db_wf db1
    /\ tasksRoutes_get_id JWT_SECRET envA
         (mkRequest (Some tokenA) (IdParams.mk (tasks.id t)) tt tt) db1
       = (Returned t, db1)
    /\ tasksRoutes_get_id JWT_SECRET envB
         (mkRequest (Some tokenB) (IdParams.mk (tasks.id t)) tt tt) db1
       = (Raised (reply.notFound "Task not found"), db1).
Proof.
  intros Hwf HA HB Hne Hu Hfresh.
  pose proof (createTaskHandler_inserts envA
                (mkRequest (Some tokenA) tt tt (CreateTaskRequest.mk title d))
                db tokenA A eq_refl HA Hu Hfresh) as Hc.
  cbv zeta in Hc. cbn [body CreateTaskRequest.title
                       CreateTaskRequest.description] in Hc.
  eexists _, _. split; [exact Hc|]. split; [reflexivity|].
  assert (Hwf1 : db_wf (mkDb (users_table db)
                  (tasks_table db
                   ++ [tasks.mk (random_uuid envA) A title (or_null d) false
                         (now envA) (now envA)]))).
  { destruct (routes_preserve_db_wf envA db Hwf) as (_ & _ & _ & Hpost & _).
    specialize (Hpost (mkRequest (Some tokenA) tt tt
                         (CreateTaskRequest.mk title d))).
    rewrite Hc in Hpost. exact Hpost. }
  split; [exact Hwf1|].
  assert (Hin : In (tasks.mk (random_uuid envA) A title (or_null d) false
                      (now envA) (now envA))
                   (tasks_table db
                    ++ [tasks.mk (random_uuid envA) A title (or_null d) false
                          (now envA) (now envA)])).
  { apply in_or_app. right. now left. }
  split.
  - unfold tasksRoutes_get_id.
    rewrite (onRequest_mk envA _ tokenA A _ _ _ _ HA).
    rewrite (getTaskHandler_mk envA _ tokenA A _ HA).
    cbn [tasks.id tasks_table].
    rewrite filter_app. cbn [filter].
    rewrite (filter_none (id_and_owner (random_uuid envA) A) (tasks_table db)).
    + unfold id_and_owner at 1. cbn [tasks.id tasks.userId].
      now rewrite !String.eqb_refl.
    + intros x Hx. apply not_true_is_false. intros Hm.
      apply id_and_owner_true in Hm as [Hm _]. exact (Hfresh x Hx Hm).
  - destruct Hwf1 as (_ & _ & Hids & _).
    exact (get_non_owner_not_found envB _ A B _ tokenB
             Hids Hin eq_refl Hne HB).
Qed.

(** * Further properties of the routes *)

(** *** Register and login *)

Lemma registerHandler_taken_email env request db :
  (exists u, In u (users_table db)
             /\ users.email u = RegisterBody.email (body request)) ->
  registerHandler JWT_SECRET env request db
  = (Raised (reply.conflict "User with this email already exists"), db).
Proof.
  intros [u [Hin He]]. unfold registerHandler, bind, select_users, read.
  rewrite first_row_firstn_1.
  destruct (hd_error _) as [x|] eqn:E; [reflexivity | exfalso].
  rewrite hd_error_filter_none in E. specialize (E u Hin).
  apply String.eqb_neq in E. contradiction.
Qed.

Lemma register_returned_inserts env request db resp db1 :
  authRoutes_post_register JWT_SECRET env request db = (Returned resp, db1) ->
  registerBodySchema (body request) = []
  /\ (forall u, In u (users_table db) ->
        users.email u <> RegisterBody.email (body request))
  /\ db1 = mkDb (users_table db
                 ++ [users.mk (random_uuid env)
                       (RegisterBody.email (body request))
                       (RegisterBody.name (body request))
                       (hashPassword env (RegisterBody.password (body request)))
                       (now env) (now env)])
                (tasks_table db).
Proof.
  unfold authRoutes_post_register, with_schema, validate.
  destruct (registerBodySchema (body request)) eqn:S; [|discriminate].
  unfold registerHandler, bind, select_users, read.
  rewrite first_row_firstn_1.
  destruct (hd_error _) as [x|] eqn:E; [discriminate|].
  unfold insert_users. destruct (existsb _ _); [discriminate|].
  unfold ret. intros H. injection H as _ <-.
  split; [reflexivity|]. split; [|reflexivity].
  intros u Hu. apply String.eqb_neq.
  exact (proj1 (hd_error_filter_none _ _) E u Hu).
Qed.

(** X2.  Login never changes the store, and it answers 200 only when the
    body passes the schema and the users table holds a row with the
    request's e-mail whose hash verifies the request's password; the token
    it returns is the one signed for that row's id. *)
Theorem login_success_needs_matching_password env request db :
  snd (authRoutes_post_login JWT_SECRET env request db) = db
  /\ forall resp,
       fst (authRoutes_post_login JWT_SECRET env request db) = Returned resp ->
       loginBodySchema (body request) = []
       /\ exists u, In u (users_table db)
            /\ users.email u = LoginBody.email (body request)
            /\ verifyPassword (LoginBody.password (body request))
                 (users.passwordHash u) = true
            /\ AuthResponse.token resp = generateToken JWT_SECRET env (users.id u).
Proof.
  unfold authRoutes_post_login, with_schema, validate.
  destruct (loginBodySchema (body request)) eqn:S;
    [|split; [reflexivity | discriminate]].
  unfold loginHandler, bind, select_users, read.
  rewrite first_row_firstn_1.
  destruct (hd_error _) as [user|] eqn:E;
    [|split; [reflexivity | discriminate]].
  apply hd_error_filter_some in E as [Hin He]. apply String.eqb_eq in He.
  destruct (verifyPassword _ _) eqn:V; cbn [negb];
    [|split; [reflexivity | discriminate]].
  split; [reflexivity|]. intros resp H. cbn [fst ret] in H.
  unfold ret in H. cbn [fst] in H. injection H as <-.
  split; [reflexivity|]. exists user. repeat split; assumption.
Qed.

(** *** All routes: what a request can change *)

Lemma fst_lift {A B} (f : A -> B) (r : Outcome A * Db) e :
  fst (lift f r) = Raised e <-> fst r = Raised e.
Proof.
  unfold lift. cbn [fst]. destruct (fst r); split; intros H;
    try discriminate; try (injection H as <-); congruence.
Qed.

Lemma snd_lift {A B} (f : A -> B) (r : Outcome A * Db) :
  snd (lift f r) = snd r.
Proof. reflexivity. Qed.

Lemma hd_error_filter_none_map {A} (w : A -> bool) (g : A -> A) l :
  hd_error (filter w l) = None ->
  map (fun t => if w t then g t else t) l = l.
Proof.
  intros H. apply map_if_none. now apply hd_error_filter_none.
Qed.

Lemma hd_error_filter_none_negb {A} (w : A -> bool) l :
  hd_error (filter w l) = None -> filter (fun t => negb (w t)) l = l.
Proof.
  intros H. apply filter_negb_none. now apply hd_error_filter_none.
Qed.

Lemma hd_error_map_none {A B} (f : A -> B) l :
  hd_error (map f l) = None -> hd_error l = None.
Proof. destruct l; [reflexivity | discriminate]. Qed.

Ltac through_hook Ej :=
  unfold onRequest;
  match goal with
  | |- context [jwtVerify ?k ?env ?r] =>
      destruct (jwtVerify k env r) as [?u|?e0] eqn:Ej
  end.

Lemma login_keeps_store env r db :
  snd (authRoutes_post_login JWT_SECRET env r db) = db.
Proof.
  unfold authRoutes_post_login, with_schema.
  destruct (validate _ _); [|reflexivity].
  unfold loginHandler, bind, select_users, read.
  destruct (first_row _); [|reflexivity].
  now destruct (negb _).
Qed.

Lemma register_raised_keeps_store env r db e :
  fst (authRoutes_post_register JWT_SECRET env r db) = Raised e ->
  snd (authRoutes_post_register JWT_SECRET env r db) = db.
Proof.
  unfold authRoutes_post_register, with_schema.
  destruct (validate _ _); [|reflexivity].
  unfold registerHandler, bind, select_users, read.
  destruct (first_row _); [reflexivity|].
  unfold insert_users. destruct (existsb _ _); [reflexivity|].
  cbn [fst ret]. unfold ret. discriminate.
Qed.

Lemma users_get_keeps_store env r db :
  snd (usersRoutes_get_me JWT_SECRET env r db) = db.
Proof.
  unfold usersRoutes_get_me. through_hook Ej; [|reflexivity].
  unfold getUserHandler, bind, getUserIdFromToken. rewrite Ej.
  unfold select_users, read. now destruct (first_row _).
Qed.

Lemma users_patch_raised_keeps_store env r db e :
  fst (usersRoutes_patch_me JWT_SECRET env r db) = Raised e ->
  snd (usersRoutes_patch_me JWT_SECRET env r db) = db.
Proof.
  unfold usersRoutes_patch_me. through_hook Ej; [|reflexivity].
  unfold updateUserHandler, bind, getUserIdFromToken. rewrite Ej.
  destruct (_ && _); [reflexivity|].
  match goal with |- context [update_users ?d ?w db] =>
    generalize d; intros d' end.
  unfold update_users.
  destruct (UserUpdateData.email d').
  - destruct (has_duplicate _); [reflexivity|].
    unfold first_row. destruct (hd_error (map _ _)) eqn:E;
      [cbn; unfold ret; discriminate|].
    intros _. cbn [snd throw]. unfold throw. cbn [snd].
    apply hd_error_map_none in E.
    rewrite (hd_error_filter_none_map _ _ _ E). apply mkDb_eta.
  - unfold first_row. destruct (hd_error (map _ _)) eqn:E;
      [cbn; unfold ret; discriminate|].
    intros _. unfold throw. cbn [snd].
    apply hd_error_map_none in E.
    rewrite (hd_error_filter_none_map _ _ _ E). apply mkDb_eta.
Qed.

Lemma tasks_get_keeps_store env r db :
  snd (tasksRoutes_get JWT_SECRET env r db) = db.
Proof.
  unfold tasksRoutes_get. through_hook Ej; [|reflexivity].
  unfold listTasksHandler, bind, getUserIdFromToken. rewrite Ej.
  unfold select_tasks_page. now destruct (limit_offset _ _ _).
Qed.

Lemma tasks_get_id_keeps_store env r db :
  snd (tasksRoutes_get_id JWT_SECRET env r db) = db.
Proof.
  unfold tasksRoutes_get_id. through_hook Ej; [|reflexivity].
  unfold getTaskHandler, bind, getUserIdFromToken. rewrite Ej.
  unfold select_tasks, read. now destruct (first_row _).
Qed.

Lemma tasks_post_raised_keeps_store env r db e :
  fst (tasksRoutes_post JWT_SECRET env r db) = Raised e ->
  snd (tasksRoutes_post JWT_SECRET env r db) = db.
Proof.
  unfold tasksRoutes_post. through_hook Ej; [|reflexivity].
  unfold createTaskHandler, bind, getUserIdFromToken. rewrite Ej.
  unfold insert_tasks. destruct (existsb _ _); [reflexivity|].
  destruct (negb _); [reflexivity|]. cbn. unfold ret. discriminate.
Qed.

Lemma tasks_patch_raised_keeps_store env r db e :
  fst (tasksRoutes_patch_id JWT_SECRET env r db) = Raised e ->
  snd (tasksRoutes_patch_id JWT_SECRET env r db) = db.
Proof.
  unfold tasksRoutes_patch_id. through_hook Ej; [|reflexivity].
  unfold updateTaskHandler, bind, getUserIdFromToken. rewrite Ej.
  destruct (_ && _); [reflexivity|].
  match goal with |- context [update_tasks ?d ?w db] =>
    generalize d; intros d' end.
  unfold update_tasks, first_row.
  destruct (hd_error (map _ _)) eqn:E; [cbn; unfold ret; discriminate|].
  intros _. unfold throw. cbn [snd].
  apply hd_error_map_none in E.
  rewrite (hd_error_filter_none_map _ _ _ E). apply mkDb_eta.
Qed.

Lemma tasks_delete_raised_keeps_store env r db e :
  fst (tasksRoutes_delete_id JWT_SECRET env r db) = Raised e ->
  snd (tasksRoutes_delete_id JWT_SECRET env r db) = db.
Proof.
  unfold tasksRoutes_delete_id. through_hook Ej; [|reflexivity].
  unfold deleteTaskHandler, bind, getUserIdFromToken. rewrite Ej.
  unfold delete_tasks, first_row.
  destruct (hd_error (filter _ _)) eqn:E; [cbn; unfold ret; discriminate|].
  intros _. unfold throw. cbn [snd].
  rewrite (hd_error_filter_none_negb _ _ E). apply mkDb_eta.
Qed.

(** X3.  A request that is answered with an error leaves the store exactly
    as it was, on every route: a failed register, create, update or delete
    writes nothing. *)
Theorem failed_request_changes_nothing env c db e :
  fst (serve JWT_SECRET env c db) = Raised e ->
  snd (serve JWT_SECRET env c db) = db.
Proof.
  destruct c; cbn [serve]; try rewrite snd_lift; try rewrite fst_lift.
  - reflexivity.
  - intros _. apply login_keeps_store.
  - apply register_raised_keeps_store.
  - intros _. apply users_get_keeps_store.
  - apply users_patch_raised_keeps_store.
  - intros _. apply tasks_get_keeps_store.
  - apply tasks_post_raised_keeps_store.
  - intros _. apply tasks_get_id_keeps_store.
  - apply tasks_patch_raised_keeps_store.
  - apply tasks_delete_raised_keeps_store.
Qed.

(** X4.  Each route writes at most its own table: only register and the
    update of the own profile can change the users table, only the create,
    update and delete of a task can change the tasks table; the health
    check, login and every GET leave the whole store as it was. *)
Theorem routes_write_only_their_table env c db :
  (writes_users c = false ->
   users_table (snd (serve JWT_SECRET env c db)) = users_table db)
  /\ (writes_tasks c = false ->
      tasks_table (snd (serve JWT_SECRET env c db)) = tasks_table db)
  /\ (writes_users c = false -> writes_tasks c = false ->
      snd (serve JWT_SECRET env c db) = db).
Proof.
  destruct c; cbn [serve writes_users writes_tasks]; try rewrite snd_lift.
  - repeat split.
  - rewrite login_keeps_store. repeat split.
  - split; [discriminate|]. split; [|discriminate]. intros _.
    unfold authRoutes_post_register, with_schema.
    destruct (validate _ _); [|reflexivity].
    unfold registerHandler, bind, select_users, read.
    destruct (first_row _); [reflexivity|].
    unfold insert_users. now destruct (existsb _ _).
  - rewrite users_get_keeps_store. repeat split.
  - split; [discriminate|]. split; [|discriminate]. intros _.
    unfold usersRoutes_patch_me. through_hook Ej; [|reflexivity].
    unfold updateUserHandler, bind, getUserIdFromToken. rewrite Ej.
    destruct (_ && _); [reflexivity|].
    match goal with |- context [update_users ?d ?w db] =>
      generalize d; intros d' end.
    unfold update_users.
    destruct (UserUpdateData.email d');
      [destruct (has_duplicate _); [reflexivity|]|];
      cbn [fst]; now destruct (first_row _).
  - rewrite tasks_get_keeps_store. repeat split.
  - split; [|split; discriminate]. intros _.
    unfold tasksRoutes_post. through_hook Ej; [|reflexivity].
    unfold createTaskHandler, bind, getUserIdFromToken. rewrite Ej.
    unfold insert_tasks. destruct (existsb _ _); [reflexivity|].
    now destruct (negb _).
  - rewrite tasks_get_id_keeps_store. repeat split.
  - split; [|split; discriminate]. intros _.
    unfold tasksRoutes_patch_id. through_hook Ej; [|reflexivity].
    unfold updateTaskHandler, bind, getUserIdFromToken. rewrite Ej.
    destruct (_ && _); [reflexivity|].
    unfold update_tasks. cbn [fst]. now destruct (first_row _).
  - split; [|split; discriminate]. intros _.
    unfold tasksRoutes_delete_id. through_hook Ej; [|reflexivity].
    unfold deleteTaskHandler, bind, getUserIdFromToken. rewrite Ej.
    unfold delete_tasks. cbn [fst]. now destruct (first_row _).
Qed.

(** *** Register twice *)

Lemma serve_keeps_users_table env c db :
  writes_users c = false ->
  users_table (snd (serve JWT_SECRET env c db)) = users_table db.
Proof.
  destruct c; cbn [serve writes_users]; try rewrite snd_lift;
    try discriminate; intros _.
  - reflexivity.
  - now rewrite login_keeps_store.
  - now rewrite users_get_keeps_store.
  - now rewrite tasks_get_keeps_store.
  - unfold tasksRoutes_post. through_hook Ej; [|reflexivity].
    unfold createTaskHandler, bind, getUserIdFromToken. rewrite Ej.
    unfold insert_tasks. destruct (existsb _ _); [reflexivity|].
    now destruct (negb _).
  - now rewrite tasks_get_id_keeps_store.
  - unfold tasksRoutes_patch_id. through_hook Ej; [|reflexivity].
    unfold updateTaskHandler, bind, getUserIdFromToken. rewrite Ej.
    destruct (_ && _); [reflexivity|].
    unfold update_tasks. cbn [fst]. now destruct (first_row _).
  - unfold tasksRoutes_delete_id. through_hook Ej; [|reflexivity].
    unfold deleteTaskHandler, bind, getUserIdFromToken. rewrite Ej.
    unfold delete_tasks. cbn [fst]. now destruct (first_row _).
Qed.

(** The e-mail and the password hash of an account stay in the users table
    through every request that sends no e-mail to the update of the own
    profile. *)
Lemma serve_keeps_account env c db e h :
  sends_email c = false ->
  (exists u, In u (users_table db)
             /\ users.email u = e /\ users.passwordHash u = h) ->
  exists u, In u (users_table (snd (serve JWT_SECRET env c db)))
            /\ users.email u = e /\ users.passwordHash u = h.
Proof.
  intros Hs Hex.
  destruct (writes_users c) eqn:W;
    [|now rewrite serve_keeps_users_table].
  destruct c; try discriminate W; cbn [serve]; rewrite snd_lift.
  - unfold authRoutes_post_register, with_schema.
    destruct (validate _ _); [|exact Hex].
    unfold registerHandler, bind, select_users, read.
    destruct (first_row _); [exact Hex|].
    unfold insert_users. destruct (existsb _ _); [exact Hex|].
    cbn [snd users_table]. destruct Hex as [u [Hin Hu]].
    exists u. split; [apply in_or_app; now left | exact Hu].
  - cbn [sends_email] in Hs.
    unfold usersRoutes_patch_me. through_hook Ej; [|exact Hex].
    unfold updateUserHandler, bind, getUserIdFromToken. rewrite Ej.
    rewrite Hs. cbn [negb].
    destruct (negb (truthy _) && true); [exact Hex|].
    match goal with |- context [update_users ?d ?w db] =>
      set (d' := d); set (w' := w) end.
    assert (Hd : UserUpdateData.email d' = None).
    { subst d'. destruct (truthy (UpdateUserRequest.name (body r)));
        reflexivity. }
    unfold update_users. rewrite Hd.
    assert (K : exists u,
              In u (map (fun r => if w' r then set_user d' r else r)
                        (users_table db))
              /\ users.email u = e /\ users.passwordHash u = h).
    { destruct Hex as [x [Hin [He Hh]]].
      exists (if w' x then set_user d' x else x).
      split; [now apply (in_map (fun r => if w' r then set_user d' r else r))|].
      destruct (w' x); [|now split].
      unfold set_user. cbn [users.email users.passwordHash].
      rewrite Hd. now split. }
    cbn [fst]. destruct (first_row _); exact K.
Qed.

Lemma run_keeps_account calls db e h :
  (forall ec, In ec calls -> sends_email (snd ec) = false) ->
  (exists u, In u (users_table db)
             /\ users.email u = e /\ users.passwordHash u = h) ->
  exists u, In u (users_table (run JWT_SECRET calls db))
            /\ users.email u = e /\ users.passwordHash u = h.
Proof.
  revert db. induction calls as [|[env c] calls IH]; intros db Hs Hex;
    [exact Hex|].
  cbn [run]. apply IH; [intros ec Hin; apply Hs; now right|].
  apply serve_keeps_account; [|exact Hex].
  exact (Hs (env, c) (or_introl eq_refl)).
Qed.

(** X1.  Once a register has succeeded, a later register with the same
    e-mail (whatever its password and name, as long as the body passes the
    schema) is answered 409 "User with this email already exists" and
    changes nothing, after any requests to any routes in between, as long
    as none of them sent an e-mail to the update of the own profile; and
    the hash stored for the e-mail is still the first password's. *)
Theorem register_twice_is_conflict
    env1 env2 request1 request2 db resp db1 calls :
  authRoutes_post_register JWT_SECRET env1 request1 db = (Returned resp, db1) ->
  (forall ec, In ec calls -> sends_email (snd ec) = false) ->
  RegisterBody.email (body request2) = RegisterBody.email (body request1) ->
  registerBodySchema (body request2) = [] ->
  let db2 := run JWT_SECRET calls db1 in
  authRoutes_post_register JWT_SECRET env2 request2 db2
  = (Raised (reply.conflict "User with this email already exists"), db2)
  /\ respond (A:=AuthResponse.t)
       (Raised (reply.conflict "User with this email already exists"))
     = Failed (mkApiError (Some "Conflict")
                 "User with this email already exists" 409)
  /\ kind_of (reply.conflict "User with this email already exists") = Conflict
  /\ exists u, In u (users_table db2)
       /\ users.email u = RegisterBody.email (body request1)
       /\ users.passwordHash u
          = hashPassword env1 (RegisterBody.password (body request1)).
Proof.
  intros H1 Hcalls He Hs db2.
  destruct (register_returned_inserts env1 request1 db resp db1 H1)
    as (_ & _ & E1).
  assert (Hex : exists u,
            In u (users_table db2)
            /\ users.email u = RegisterBody.email (body request1)
            /\ users.passwordHash u
               = hashPassword env1 (RegisterBody.password (body request1))).
  { subst db2. apply run_keeps_account; [exact Hcalls|].
    rewrite E1. cbn [users_table].
    eexists. split; [apply in_or_app; right; left; reflexivity|].
    split; reflexivity. }
  split; [|split; [reflexivity | split; [reflexivity | exact Hex]]].
  unfold authRoutes_post_register.
  rewrite with_schema_accepts by exact Hs.
  apply registerHandler_taken_email.
  destruct Hex as [u [Hin [Hem _]]]. exists u. split; [exact Hin|].
  congruence.
Qed.

(** *** The protected routes: authentication *)

Lemma onRequest_no_token {P Q B A} env (handler : Request P Q B -> Async A)
    request db :
  match authorization request with
  | None => True
  | Some token => jwt_verify JWT_SECRET token (now env / 1000) = None
  end ->
  exists e,
    onRequest JWT_SECRET env handler request db = (Raised e, db)
    /\ statusCode (errorHandler e) = 401.
Proof.
  intros H. unfold onRequest, jwtVerify.
  destruct (authorization request) as [token|].
  - rewrite H. eexists. split; reflexivity.
  - eexists. split; reflexivity.
Qed.

(** X5.  A request to a route of /api/users or /api/tasks that carries no
    bearer token, or one that does not verify (bad signature, expired), is
    answered 401 by the [onRequest] hook and the store stays as it was:
    the handler does not run.  Called on its own for such a request,
    [getUserIdFromToken] raises an error without a status code, which the
    error handler would answer with 500. *)
Theorem protected_routes_reject_missing_token env c db :
  protected c = true ->
  no_valid_token env c ->
  (exists e,
     serve JWT_SECRET env c db = (Raised e, db)
     /\ statusCode (errorHandler e) = 401
     /\ kind_of e = Unauthenticated)
  /\ (forall P Q B (request : Request P Q B),
        authorization request = authorization_of c ->
        getUserIdFromToken JWT_SECRET env request db
        = (Raised (JsError "Invalid or missing token"), db)
        /\ statusCode (errorHandler (JsError "Invalid or missing token"))
           = 500).
Proof.
  intros Hp Hn. unfold no_valid_token in Hn. split.
  - assert (K : forall P Q B A (f : A -> Body)
                  (h : Request P Q B -> Async A) r,
              authorization r = authorization_of c ->
              exists e,
                lift f (onRequest JWT_SECRET env h r db) = (Raised e, db)
                /\ statusCode (errorHandler e) = 401
                /\ kind_of e = Unauthenticated).
    { intros P Q B A f h r Ha.
      destruct (onRequest_no_token env h r db) as [e [He Hs]];
        [now rewrite Ha|].
      exists e. rewrite He. split; [reflexivity|]. split; [exact Hs|].
      unfold kind_of. now rewrite Hs. }
    destruct c; try discriminate Hp; cbn [serve];
      unfold usersRoutes_get_me, usersRoutes_patch_me, tasksRoutes_get,
        tasksRoutes_post, tasksRoutes_get_id, tasksRoutes_patch_id,
        tasksRoutes_delete_id; now apply K.
  - intros P Q B request Ha. split; [|reflexivity].
    unfold getUserIdFromToken, jwtVerify. rewrite Ha.
    destruct (authorization_of c) as [token|]; [now rewrite Hn | reflexivity].
Qed.

(** *** All routes: the constraints of the schema *)

Lemma has_duplicate_false_NoDup l : has_duplicate l = false -> NoDup l.
Proof.
  induction l as [|x l IH]; simpl; intros H; [constructor|].
  apply orb_false_iff in H as [Hx Hl]. constructor; [|now apply IH].
  intros Hin.
  assert (existsb (String.eqb x) l = true).
  { apply existsb_exists. exists x. split; [exact Hin | apply String.eqb_refl]. }
  congruence.
Qed.

Lemma update_users_wf u w db :
  db_wf db -> db_wf (snd (update_users u w db)).
Proof.
  intros (Hid & Hem & Ht & Hfk).
  assert (Hids : map users.id
                   (map (fun r => if w r then set_user u r else r)
                        (users_table db))
                 = map users.id (users_table db)).
  { rewrite map_map. apply map_ext. intros r. now destruct (w r). }
  assert (Hfk' : forall t, In t (tasks_table db) ->
            exists x,
              In x (map (fun r => if w r then set_user u r else r)
                        (users_table db))
              /\ users.id x = tasks.userId t).
  { intros t Hin. destruct (Hfk t Hin) as [x [Hx He]].
    exists (if w x then set_user u x else x). split.
    - apply in_map_iff. now exists x.
    - now destruct (w x). }
  unfold update_users. destruct (UserUpdateData.email u) as [e|] eqn:Ee.
  - destruct (has_duplicate _) eqn:D; [now repeat split|].
    cbn [snd]. unfold db_wf, task_ids_unique. cbn [users_table tasks_table].
    split; [now rewrite Hids|]. split; [now apply has_duplicate_false_NoDup|].
    split; assumption.
  - cbn [snd]. unfold db_wf, task_ids_unique. cbn [users_table tasks_table].
    split; [now rewrite Hids|]. split; [|split; assumption].
    rewrite map_map. rewrite (map_ext _ users.email); [assumption|].
    intros r. destruct (w r); [|reflexivity].
    unfold set_user. cbn [users.email]. now rewrite Ee.
Qed.

Lemma users_routes_preserve_db_wf env db :
  db_wf db ->
  (forall r, db_wf (snd (usersRoutes_get_me JWT_SECRET env r db)))
  /\ (forall r, db_wf (snd (usersRoutes_patch_me JWT_SECRET env r db))).
Proof.
  intros Hwf. split; intros r.
  - now rewrite users_get_keeps_store.
  - unfold usersRoutes_patch_me. through_hook Ej; [|exact Hwf].
    unfold updateUserHandler, bind, getUserIdFromToken. rewrite Ej.
    destruct (_ && _); [exact Hwf|].
    match goal with |- context [update_users ?d ?w db] =>
      pose proof (update_users_wf d w db Hwf) as Hi;
      destruct (update_users d w db) as [[rows|e] db'] end;
      [|exact Hi].
    destruct (first_row rows); exact Hi.
Qed.

Lemma serve_preserves_db_wf env c db :
  db_wf db -> db_wf (snd (serve JWT_SECRET env c db)).
Proof.
  intros Hwf.
  destruct (routes_preserve_db_wf env db Hwf)
    as (H1 & H2 & H3 & H4 & H5 & H6 & H7).
  destruct (users_routes_preserve_db_wf env db Hwf) as (U1 & U2).
  destruct c; cbn [serve]; try rewrite snd_lift; auto.
Qed.

(** X7.  The constraints of the schema hold in every store the server can
    reach: after any sequence of requests to any routes, starting from the
    empty store (or from any store that satisfies them), no two users share
    an id or an e-mail, no two tasks share an id, and every task's owner is
    a row of the users table. *)
Theorem reachable_stores_keep_constraints calls :
  db_wf (run JWT_SECRET calls (mkDb [] []))
  /\ forall db, db_wf db -> db_wf (run JWT_SECRET calls db).
Proof.
  assert (G : forall db, db_wf db -> db_wf (run JWT_SECRET calls db)).
  { induction calls as [|[env c] calls IH]; intros db Hwf; [exact Hwf|].
    cbn [run]. apply IH. now apply serve_preserves_db_wf. }
  split; [|exact G]. apply G.
  unfold db_wf, task_ids_unique. cbn.
  repeat split; try constructor. intros t [].
Qed.

(** *** The owner's update and delete *)

Lemma filter_id_and_owner_unique l t :
  NoDup (map tasks.id l) ->
  In t l ->
  filter (id_and_owner (tasks.id t) (tasks.userId t)) l = [t].
Proof.
  induction l as [|a l IH]; intros Hnd Hin; [contradiction|].
  inversion Hnd as [|? ? Hn Hnd']; subst. cbn [filter].
  destruct Hin as [<- | Hin].
  - unfold id_and_owner at 1. rewrite !String.eqb_refl. cbn [andb].
    f_equal. apply filter_none. intros x Hx.
    apply not_true_is_false. intros Hm.
    apply id_and_owner_true in Hm as [Hm _].
    apply Hn. rewrite <- Hm. now apply in_map.
  - destruct (id_and_owner (tasks.id t) (tasks.userId t) a) eqn:E.
    + apply id_and_owner_true in E as [E _]. exfalso.
      apply Hn. rewrite E. now apply in_map.
    + now apply IH.
Qed.

Lemma map_id_and_owner_unique (g : tasks.row -> tasks.row) l t :
  NoDup (map tasks.id l) ->
  In t l ->
  map (fun x => if id_and_owner (tasks.id t) (tasks.userId t) x
                then g x else x) l
  = map (fun x => if (tasks.id x =? tasks.id t)%string then g t else x) l.
Proof.
  intros Hnd Hin. apply map_ext_in. intros x Hx.
  destruct (tasks.id x =? tasks.id t)%string eqn:E.
  - apply String.eqb_eq in E.
    assert (x = t) by (apply (NoDup_map_eq tasks.id l); auto). subst x.
    unfold id_and_owner. now rewrite !String.eqb_refl.
  - unfold id_and_owner. now rewrite E.
Qed.

Lemma filter_negb_id_and_owner_unique l t :
  NoDup (map tasks.id l) ->
  In t l ->
  filter (fun x => negb (id_and_owner (tasks.id t) (tasks.userId t) x)) l
  = filter (fun x => negb (tasks.id x =? tasks.id t)%string) l.
Proof.
  intros Hnd Hin. apply filter_ext_in. intros x Hx.
  destruct (tasks.id x =? tasks.id t)%string eqn:E.
  - apply String.eqb_eq in E.
    assert (x = t) by (apply (NoDup_map_eq tasks.id l); auto). subst x.
    unfold id_and_owner. now rewrite !String.eqb_refl.
  - unfold id_and_owner. now rewrite E.
Qed.

(** X8.  The owner's update of an existing task, with at least one field
    supplied, returns the task with exactly the supplied fields replaced,
    [updatedAt] set to the time of the request and id, owner and
    [createdAt] kept; in the tasks table that row, and no other, is
    replaced in place; the users table is untouched; and a get of the id
    right after returns the updated task. *)
Theorem owner_update_replaces_supplied_fields env db token t b :
  token_of env token (tasks.userId t) ->
  task_ids_unique db ->
  In t (tasks_table db) ->
  supplies_field b = true ->
  let t' :=
    tasks.mk (tasks.id t) (tasks.userId t)
      (match UpdateTaskRequest.title b with
       | Some x => x
       | None => tasks.title t
       end)
      (match UpdateTaskRequest.description b with
       | Some x => Some x
       | None => tasks.description t
       end)
      (match UpdateTaskRequest.completed b with
       | Some x => x
       | None => tasks.completed t
       end)
      (tasks.createdAt t) (now env) in
  let db' :=
    mkDb (users_table db)
      (map (fun x => if (tasks.id x =? tasks.id t)%string then t' else x)
           (tasks_table db)) in
  tasksRoutes_patch_id JWT_SECRET env
    (mkRequest (Some token) (IdParams.mk (tasks.id t)) tt b) db
  = (Returned t', db')
  /\ tasksRoutes_get_id JWT_SECRET env
       (mkRequest (Some token) (IdParams.mk (tasks.id t)) tt tt) db'
     = (Returned t', db').
Proof.
  intros Ht Hnd Hin Hs t' db'.
  assert (Hset : set_task
                   (UpdateData.mk (UpdateTaskRequest.title b)
                      (UpdateTaskRequest.description b)
                      (UpdateTaskRequest.completed b) (Some (now env))) t
                 = t') by reflexivity.
  split.
  - unfold tasksRoutes_patch_id.
    rewrite (onRequest_mk env _ token (tasks.userId t) _ _ _ db Ht).
    rewrite (updateTaskHandler_eq env
               (mkRequest (Some token) (IdParams.mk (tasks.id t)) tt b) db
               token (tasks.userId t) eq_refl Ht Hs).
    cbn [params IdParams.id body].
    rewrite (filter_id_and_owner_unique _ t Hnd Hin).
    rewrite (map_id_and_owner_unique _ _ t Hnd Hin).
    cbn [map hd_error]. rewrite Hset. reflexivity.
  - unfold tasksRoutes_get_id.
    rewrite (onRequest_mk env _ token (tasks.userId t) _ _ _ db' Ht).
    rewrite (getTaskHandler_mk env db' token (tasks.userId t) _ Ht).
    assert (Hin' : In t' (tasks_table db')).
    { subst db'. cbn [tasks_table]. apply in_map_iff. exists t.
      now rewrite String.eqb_refl. }
    assert (Hnd' : NoDup (map tasks.id (tasks_table db'))).
    { subst db'. cbn [tasks_table]. rewrite map_map.
      rewrite (map_ext _ tasks.id); [exact Hnd|].
      intros x. destruct (tasks.id x =? tasks.id t)%string eqn:E;
        [|reflexivity].
      apply String.eqb_eq in E. now rewrite E. }
    pose proof (filter_id_and_owner_unique _ t' Hnd' Hin') as F.
    change (tasks.id t') with (tasks.id t) in F.
    change (tasks.userId t') with (tasks.userId t) in F.
    now rewrite F.
Qed.

(** X9.  The owner's delete of an existing task answers success, removes
    that row and no other from the tasks table and leaves the users table
    alone; after it the task is gone for its owner too: a get and a second
    delete of the id are answered 404. *)
Theorem owner_delete_removes_the_task env db token t :
  token_of env token (tasks.userId t) ->
  task_ids_unique db ->
  In t (tasks_table db) ->
  let request := mkRequest (Some token) (IdParams.mk (tasks.id t)) tt tt in
  let db' :=
    mkDb (users_table db)
      (filter (fun x => negb (tasks.id x =? tasks.id t)%string)
              (tasks_table db)) in
  tasksRoutes_delete_id JWT_SECRET env request db
  = (Returned (DeleteTaskResponse.mk true), db')
  /\ ~ In t (tasks_table db')
  /\ (forall x, In x (tasks_table db) -> x <> t -> In x (tasks_table db'))
  /\ tasksRoutes_get_id JWT_SECRET env request db'
     = (Raised (reply.notFound "Task not found"), db')
  /\ tasksRoutes_delete_id JWT_SECRET env request db'
     = (Raised (reply.notFound "Task not found"), db').
Proof.
  intros Ht Hnd Hin request db'.
  assert (Hgone : forall x, In x (tasks_table db') ->
                    id_and_owner (tasks.id t) (tasks.userId t) x = false).
  { subst db'. cbn [tasks_table]. intros x Hx.
    apply filter_In in Hx as [_ Hx]. apply negb_true_iff in Hx.
    unfold id_and_owner. now rewrite Hx. }
  split; [|split; [|split; [|split]]].
  - unfold tasksRoutes_delete_id. subst request.
    rewrite (onRequest_mk env _ token (tasks.userId t) _ _ _ db Ht).
    rewrite (deleteTaskHandler_eq env
               (mkRequest (Some token) (IdParams.mk (tasks.id t)) tt tt) db
               token (tasks.userId t) eq_refl Ht).
    cbn [params IdParams.id].
    rewrite (filter_id_and_owner_unique _ t Hnd Hin).
    now rewrite (filter_negb_id_and_owner_unique _ t Hnd Hin).
  - subst db'. cbn [tasks_table]. intros Hx.
    apply filter_In in Hx as [_ Hx]. now rewrite String.eqb_refl in Hx.
  - subst db'. cbn [tasks_table]. intros x Hx Hne. apply filter_In.
    split; [exact Hx|]. apply negb_true_iff. apply String.eqb_neq.
    intros E. apply Hne. now apply (NoDup_map_eq tasks.id (tasks_table db)).
  - unfold tasksRoutes_get_id. subst request.
    rewrite (onRequest_mk env _ token (tasks.userId t) _ _ _ db' Ht).
    rewrite (getTaskHandler_mk env db' token (tasks.userId t) _ Ht).
    now rewrite (filter_none _ _ Hgone).
  - unfold tasksRoutes_delete_id. subst request.
    rewrite (onRequest_mk env _ token (tasks.userId t) _ _ _ db' Ht).
    rewrite (deleteTaskHandler_eq env
               (mkRequest (Some token) (IdParams.mk (tasks.id t)) tt tt) db'
               token (tasks.userId t) eq_refl Ht).
    cbn [params IdParams.id].
    rewrite (filter_none _ _ Hgone), (filter_negb_none _ _ Hgone).
    now rewrite mkDb_eta.
Qed.

(** *** The list of tasks *)

Lemma in_firstn {A} n (l : list A) x : In x (firstn n l) -> In x l.
Proof.
  revert l. induction n as [|n IH]; intros [|y l]; simpl; try tauto.
  intros [E | H]; [now left | right; now apply IH].
Qed.

Lemma in_skipn {A} n (l : list A) x : In x (skipn n l) -> In x l.
Proof.
  revert l. induction n as [|n IH]; intros [|y l]; simpl; try tauto.
  intros H. right. now apply IH.
Qed.

Lemma in_limit_offset {A} limit offset (rows l : list A) x :
  limit_offset limit offset rows = Returned l -> In x l -> In x rows.
Proof.
  unfold limit_offset, offset_rows. intros H Hin.
  assert (K : forall l0, In x (match limit_clause limit with
                               | Some n => firstn n l0
                               | None => l0
                               end) -> In x l0).
  { intros l0. destruct (limit_clause limit); [apply in_firstn | auto]. }
  destruct (Number_truthy offset).
  - destruct (integer_value offset) as [o|]; [|discriminate H].
    destruct (o <? 0); [discriminate H|].
    destruct (_ <? o); [discriminate H|].
    injection H as <-. apply K in Hin. now apply in_skipn in Hin.
  - injection H as <-. now apply K.
Qed.

(** The rows of a list response are rows that the where clause selects. *)
Lemma list_data_matches {obok : OrderByOk} env db token u q resp db' :
  token_of env token u ->
  tasksRoutes_get JWT_SECRET env (mkRequest (Some token) tt q tt) db
  = (Returned resp, db') ->
  db' = db
  /\ forall t, In t (ListTasksResponse.data resp) ->
       In t (filter (whereClause u (ListTasksParams.completed q))
               (tasks_table db)).
Proof.
  intros Ht H.
  rewrite (tasksRoutes_get_form env db token u q Ht) in H.
  destruct (limit_offset _ _ _) as [l|e] eqn:L in H; [|discriminate H].
  injection H as <- <-. split; [reflexivity|].
  intros t Hin. cbn [ListTasksResponse.data] in Hin.
  apply (in_limit_offset _ _ _ _ _ L) in Hin.
  exact (Permutation_in _ (Permutation_sym (order_by_perm env _)) Hin).
Qed.

(** X10.  A list request changes nothing in the store, and every row of its
    response is a row of the tasks table that the requester owns, whatever
    was sent as page, limit and completed and whichever order the store
    chose; when a completed parameter was sent, the rows are those whose
    completed column equals the boolean the driver sends for that
    string. *)
Theorem list_shows_only_own_tasks {obok : OrderByOk}
    env db token u q resp db' :
  token_of env token u ->
  tasksRoutes_get JWT_SECRET env (mkRequest (Some token) tt q tt) db
  = (Returned resp, db') ->
  db' = db
  /\ forall t, In t (ListTasksResponse.data resp) ->
       In t (tasks_table db)
       /\ tasks.userId t = u
       /\ forall c, ListTasksParams.completed q = Some c ->
            tasks.completed t = boolean_param c.
Proof.
  intros Ht H.
  destruct (list_data_matches env db token u q resp db' Ht H) as [Hdb K].
  split; [exact Hdb|].
  intros t Hin. apply K in Hin.
  apply filter_In in Hin as [Hin Hw]. split; [exact Hin|].
  unfold whereClause in Hw.
  destruct (ListTasksParams.completed q) as [c|].
  - apply andb_true_iff in Hw as [Hu Hc].
    apply String.eqb_eq in Hu. apply eqb_prop in Hc.
    split; [exact Hu|]. intros c' E. injection E as <-. exact Hc.
  - apply String.eqb_eq in Hw. split; [exact Hw | discriminate].
Qed.

(** X11.  With a driver that sends every string as false for a boolean
    parameter (postgres.js serializes x === true ? 't' : 'f'), the value of
    a completed parameter makes no difference: completed=true and
    completed=false get the same answer, and its rows are open tasks. *)
Theorem completed_parameter_lists_open_tasks {obok : OrderByOk}
    env db token u page limit :
  (forall s, boolean_param s = false) ->
  token_of env token u ->
  let list c :=
    tasksRoutes_get JWT_SECRET env
      (mkRequest (Some token) tt (ListTasksParams.mk page limit (Some c)) tt)
      db in
  (forall c1 c2, list c1 = list c2)
  /\ (forall c resp, fst (list c) = Returned resp ->
        forall t, In t (ListTasksResponse.data resp) ->
          tasks.completed t = false).
Proof.
  intros Hdr Ht list. split.
  - intros c1 c2. subst list. cbv beta.
    rewrite !(tasksRoutes_get_form env db token u _ Ht).
    cbn [ListTasksParams.page ListTasksParams.limit ListTasksParams.completed].
    assert (E : filter (whereClause u (Some c1)) (tasks_table db)
                = filter (whereClause u (Some c2)) (tasks_table db)).
    { apply filter_ext. intros t. unfold whereClause. now rewrite !Hdr. }
    now rewrite E.
  - intros c resp H t Hin. subst list. cbv beta in H.
    destruct (tasksRoutes_get JWT_SECRET env
                (mkRequest (Some token) tt
                   (ListTasksParams.mk page limit (Some c)) tt) db)
      as [o db'] eqn:R.
    cbn [fst] in H. subst o.
    destruct (list_data_matches env db token u _ resp db' Ht R) as (_ & K).
    apply K in Hin. apply filter_In in Hin as [_ Hw].
    cbn [ListTasksParams.completed whereClause] in Hw.
    apply andb_true_iff in Hw as [_ Hc]. apply eqb_prop in Hc.
    rewrite Hc. apply Hdr.
Qed.

(** X12.  A limit that is sent is not applied.  With no page parameter,
    whatever string is sent as limit, the response holds every matching row
    of the requester, newest first, and returns the string as its limit.
    With page p and limit L sent as decimal numerals, the response holds
    every matching row from position (p-1)*L on, not at most L of them. *)
Theorem sent_limit_is_not_applied {jsok : JsNumbersOk}
    env db token u c :
  token_of env token u ->
  let matching := filter (whereClause u c) (tasks_table db) in
  let total := Z.of_nat (List.length matching) in
  let list page limit :=
    tasksRoutes_get JWT_SECRET env
      (mkRequest (Some token) tt (ListTasksParams.mk page (Some limit) c) tt)
      db in
  (forall l,
     list None l
     = (Returned
          (ListTasksResponse.mk (order_by_createdAt_desc env matching)
             (Pagination.mk (Default 1) (Sent l) total
                (Math_ceil (divide (of_Z total) (ToNumber l))))),
        db))
  /\ (forall p L,
        1 <= p <= MAX_SAFE_INTEGER -> 1 <= L <= MAX_SAFE_INTEGER ->
        (p - 1) * L <= MAX_SAFE_INTEGER ->
        total <= MAX_SAFE_INTEGER ->
        list (Some (decimal p)) (decimal L)
        = (Returned
             (ListTasksResponse.mk
                (skipn (Z.to_nat ((p - 1) * L))
                   (order_by_createdAt_desc env matching))
                (Pagination.mk (Sent (decimal p)) (Sent (decimal L)) total
                   (of_Z (- (- total / L))))),
           db)).
Proof.
  intros Ht matching total list. split.
  - intros l. subst list. cbv beta.
    rewrite (tasksRoutes_get_form env db token u _ Ht).
    cbn [ListTasksParams.page ListTasksParams.limit ListTasksParams.completed
         to_number].
    fold matching. fold total.
    rewrite minus_exact by (unfold safe_integer, MAX_SAFE_INTEGER; lia).
    change (1 - 1) with 0.
    unfold limit_offset. rewrite times_zero. reflexivity.
  - intros p L Hp HL Ho Htot. subst list. cbv beta.
    rewrite (tasksRoutes_get_form env db token u _ Ht).
    cbn [ListTasksParams.page ListTasksParams.limit ListTasksParams.completed
         to_number].
    fold matching. fold total.
    rewrite (@ToNumber_decimal _ _ L) by lia.
    rewrite (offset_of_page p L Hp HL Ho).
    unfold limit_offset.
    rewrite offset_rows_of_Z by nia.
    cbn [limit_clause].
    rewrite ceil_divide by (subst total; lia).
    reflexivity.
Qed.

(** X13.  After a user has created a task, the list of that user (a
    request without a query string) is served and reports one task more;
    the new task is on it when the user had fewer than 20 tasks; and for
    every other user the total of any list request is what it was. *)
Theorem created_task_is_listed {obok : OrderByOk} {jsok : JsNumbersOk}
    env envL db token u request :
  authorization request = Some token ->
  token_of env token u ->
  token_of envL token u ->
  (exists usr, In usr (users_table db) /\ users.id usr = u) ->
  (forall t, In t (tasks_table db) -> tasks.id t <> random_uuid env) ->
  Z.of_nat (List.length (tasks_table db)) < MAX_SAFE_INTEGER ->
  let list tok q d :=
    fst (tasksRoutes_get JWT_SECRET envL (mkRequest (Some tok) tt q tt) d) in
  let no_query := ListTasksParams.mk None None None in
  exists task db1,
    tasksRoutes_post JWT_SECRET env request db = (Returned task, db1)
    /\ (exists r, list token no_query db1 = Returned r)
    /\ total_of (list token no_query db1)
       = total_of (list token no_query db) + 1
    /\ (total_of (list token no_query db) < 20 ->
        In task (data_of (list token no_query db1)))
    /\ (forall v tokv q,
          v <> u -> token_of envL tokv v ->
          total_of (list tokv q db1) = total_of (list tokv q db)).
Proof.
  intros Ha Ht HtL Hu Hfresh Hsize list no_query.
  eexists _, _.
  split; [apply (createTaskHandler_inserts env request db token u
                   Ha Ht Hu Hfresh)|].
  set (task := tasks.mk (random_uuid env) u
                 (CreateTaskRequest.title (body request))
                 (or_null (CreateTaskRequest.description (body request)))
                 false (now env) (now env)).
  set (db1 := mkDb (users_table db) (tasks_table db ++ [task])).
  assert (F : filter (whereClause u None) (tasks_table db1)
              = (filter (whereClause u None) (tasks_table db) ++ [task])%list).
  { subst db1. cbn [tasks_table]. rewrite filter_app. f_equal.
    cbn [filter whereClause]. subst task. cbn [tasks.userId].
    now rewrite String.eqb_refl. }
  pose proof (filter_length_le (whereClause u None) (tasks_table db)) as Hle.
  assert (E0 : list token no_query db
               = Returned
                   (ListTasksResponse.mk
                      (firstn 20
                         (order_by_createdAt_desc envL
                            (filter (whereClause u None) (tasks_table db))))
                      (Pagination.mk (Default 1) (Default 20)
                         (Z.of_nat
                            (List.length
                               (filter (whereClause u None) (tasks_table db))))
                         (of_Z (- (- Z.of_nat
                                       (List.length
                                          (filter (whereClause u None)
                                             (tasks_table db))) / 20)))))).
  { subst list no_query. cbv beta.
    rewrite (list_no_query envL db token u HtL) by lia. reflexivity. }
  assert (E1 : list token no_query db1
               = Returned
                   (ListTasksResponse.mk
                      (firstn 20
                         (order_by_createdAt_desc envL
                            (filter (whereClause u None) (tasks_table db1))))
                      (Pagination.mk (Default 1) (Default 20)
                         (Z.of_nat
                            (List.length
                               (filter (whereClause u None) (tasks_table db1))))
                         (of_Z (- (- Z.of_nat
                                       (List.length
                                          (filter (whereClause u None)
                                             (tasks_table db1))) / 20)))))).
  { subst list no_query. cbv beta.
    rewrite (list_no_query envL db1 token u HtL);
      [reflexivity|].
    rewrite F, length_app. cbn [List.length]. lia. }
  split; [rewrite E1; eexists; reflexivity|].
  rewrite E0, E1.
  cbn [total_of data_of ListTasksResponse.pagination Pagination.total
       ListTasksResponse.data].
  split; [rewrite F, length_app; cbn [List.length]; lia|].
  split.
  - intros Hsmall. rewrite firstn_all2.
    + apply (Permutation_in _ (order_by_perm envL _)).
      rewrite F. apply in_or_app. right. now left.
    + rewrite <- (Permutation_length (order_by_perm envL _)).
      rewrite F, length_app. cbn [List.length]. lia.
  - intros v tokv q Hv Htv. subst list. cbv beta.
    rewrite !(tasksRoutes_get_form envL _ tokv v _ Htv).
    subst db1. cbn [fst tasks_table].
    rewrite filter_app. cbn [filter].
    assert (W : whereClause v (ListTasksParams.completed q) task = false).
    { unfold whereClause. subst task. cbn [tasks.userId].
      assert (E : (u =? v)%string = false)
        by (apply String.eqb_neq; congruence).
      destruct (ListTasksParams.completed q); now rewrite E. }
    rewrite W. now rewrite app_nil_r.
Qed.

(** *** The own profile (/api/users/me) *)

Lemma filter_user_id_unique l usr :
  NoDup (map users.id l) ->
  In usr l ->
  filter (fun x => (users.id x =? users.id usr)%string) l = [usr].
Proof.
  induction l as [|a l IH]; intros Hnd Hin; [contradiction|].
  inversion Hnd as [|? ? Hn Hnd']; subst. cbn [filter].
  destruct Hin as [<- | Hin].
  - rewrite String.eqb_refl. f_equal. apply filter_none. intros x Hx.
    apply String.eqb_neq. intros E. apply Hn. rewrite <- E. now apply in_map.
  - destruct (users.id a =? users.id usr)%string eqn:E; [|now apply IH].
    apply String.eqb_eq in E. exfalso. apply Hn. rewrite E. now apply in_map.
Qed.

Lemma usersRoutes_get_me_eq env db token u :
  token_of env token u ->
  usersRoutes_get_me JWT_SECRET env (mkRequest (Some token) tt tt tt) db
  = (match hd_error (filter (fun x => (users.id x =? u)%string)
                            (users_table db)) with
     | None => Raised (reply.notFound "User not found")
     | Some user =>
         Returned [("id", JsString (users.id user));
                   ("email", JsString (users.email user));
                   ("name", JsString (users.name user));
                   ("createdAt", JsDate (users.createdAt user));
                   ("updatedAt", JsDate (users.updatedAt user))]
     end, db).
Proof.
  intros Ht. unfold usersRoutes_get_me.
  rewrite (onRequest_mk env _ token u _ _ _ db Ht).
  unfold getUserHandler, bind.
  rewrite (getUserIdFromToken_token env (mkRequest (Some token) tt tt tt)
             token u db eq_refl Ht).
  unfold select_users, read. rewrite first_row_firstn_1.
  now destruct (hd_error _).
Qed.

Lemma register_returned_form env request db resp db1 :
  authRoutes_post_register JWT_SECRET env request db = (Returned resp, db1) ->
  let newUser :=
    users.mk (random_uuid env) (RegisterBody.email (body request))
      (RegisterBody.name (body request))
      (hashPassword env (RegisterBody.password (body request)))
      (now env) (now env) in
  (forall u, In u (users_table db) -> users.id u <> random_uuid env)
  /\ db1 = mkDb (users_table db ++ [newUser]) (tasks_table db)
  /\ resp
     = AuthResponse.mk
         [("id", JsString (users.id newUser));
          ("email", JsString (users.email newUser));
          ("name", JsString (users.name newUser));
          ("createdAt", JsDate (users.createdAt newUser));
          ("updatedAt", JsDate (users.updatedAt newUser))]
         (generateToken JWT_SECRET env (random_uuid env))
         (7 * 24 * 60 * 60).
Proof.
  unfold authRoutes_post_register, with_schema, validate.
  destruct (registerBodySchema (body request)); [|discriminate].
  unfold registerHandler, bind, select_users, read.
  destruct (first_row _); [discriminate|].
  unfold insert_users. destruct (existsb _ _) eqn:X; [discriminate|].
  unfold ret. intros H. injection H as <- <-. cbv zeta.
  split; [|split; reflexivity].
  intros u Hu. pose proof (existsb_false_forall _ _ X u Hu) as Hx.
  cbn [users.id] in Hx. apply orb_false_iff in Hx as [Hx _].
  now apply String.eqb_neq.
Qed.

(** X14.  With a JWT library whose [verify] accepts an unexpired token it
    signed: the token of a register response, presented to GET
    /api/users/me within its seven days, gets back the very user object
    that register returned, without the password hash, and the store is
    not changed.  A valid token of a user who has no row (any more) is
    answered 404 "User not found". *)
Theorem get_me_returns_the_registered_user {jok : JwtOk}
    env1 env2 request db resp db1 :
  authRoutes_post_register JWT_SECRET env1 request db = (Returned resp, db1) ->
  now env2 / 1000 < now env1 / 1000 + 604800 ->
  usersRoutes_get_me JWT_SECRET env2
    (mkRequest (Some (AuthResponse.token resp)) tt tt tt) db1
  = (Returned (AuthResponse.user resp), db1)
  /\ ~ In "passwordHash" (keys (AuthResponse.user resp))
  /\ (forall token v,
        token_of env2 token v ->
        (forall x, In x (users_table db1) -> users.id x <> v) ->
        usersRoutes_get_me JWT_SECRET env2 (mkRequest (Some token) tt tt tt) db1
        = (Raised (reply.notFound "User not found"), db1)).
Proof.
  intros H Hexp.
  destruct (register_returned_form env1 request db resp db1 H)
    as (Hfresh & -> & ->).
  cbn [AuthResponse.token AuthResponse.user users.id users.email users.name
       users.createdAt users.updatedAt].
  split; [|split].
  - rewrite (usersRoutes_get_me_eq env2 _ _ (random_uuid env1)).
    + cbn [users_table]. rewrite filter_app.
      rewrite (filter_none (fun x => (users.id x =? random_uuid env1)%string)
                 (users_table db)).
      * cbn [filter app users.id]. now rewrite String.eqb_refl.
      * intros x Hx. apply String.eqb_neq. now apply Hfresh.
    + unfold token_of, generateToken. now apply verify_sign.
  - cbn. intros [E|[E|[E|[E|[E|[]]]]]]; discriminate E.
  - intros token v Ht Hnone.
    rewrite (usersRoutes_get_me_eq env2 _ token v Ht).
    rewrite filter_none; [reflexivity|].
    intros x Hx. apply String.eqb_neq. now apply Hnone.
Qed.

Lemma updateUserHandler_no_field env request db :
  truthy (UpdateUserRequest.name (body request)) = false ->
  truthy (UpdateUserRequest.email (body request)) = false ->
  snd (usersRoutes_patch_me JWT_SECRET env request db) = db
  /\ forall token u,
       authorization request = Some token ->
       token_of env token u ->
       usersRoutes_patch_me JWT_SECRET env request db
       = (Raised (reply.badRequest "At least one field must be provided"), db).
Proof.
  intros Hn He. unfold usersRoutes_patch_me. split.
  - through_hook Ej; [|reflexivity].
    unfold updateUserHandler, bind, getUserIdFromToken. rewrite Ej.
    now rewrite Hn, He.
  - intros token u Ha Ht.
    rewrite (onRequest_token env _ request token u db Ha Ht).
    unfold updateUserHandler, bind.
    rewrite (getUserIdFromToken_token env request token u db Ha Ht).
    now rewrite Hn, He.
Qed.

(** X15.  An update of the own profile in which name and e-mail are each
    absent or the empty string is answered 400 "At least one field must be
    provided" and changes nothing: for this route an empty string counts as
    a field that was not supplied. *)
Theorem update_me_needs_a_non_empty_field env request db token u :
  authorization request = Some token ->
  token_of env token u ->
  (UpdateUserRequest.name (body request) = None
   \/ UpdateUserRequest.name (body request) = Some "") ->
  (UpdateUserRequest.email (body request) = None
   \/ UpdateUserRequest.email (body request) = Some "") ->
  usersRoutes_patch_me JWT_SECRET env request db
  = (Raised (reply.badRequest "At least one field must be provided"), db)
  /\ respond (A:=JsObject)
       (Raised (reply.badRequest "At least one field must be provided"))
     = Failed (mkApiError (Some "Bad Request")
                 "At least one field must be provided" 400).
Proof.
  intros Ha Ht Hn He. split; [|reflexivity].
  apply (proj2 (updateUserHandler_no_field env request db
                  ltac:(destruct Hn as [-> | ->]; reflexivity)
                  ltac:(destruct He as [-> | ->]; reflexivity))
           token u Ha Ht).
Qed.

Lemma NoDup_has_duplicate_false l : NoDup l -> has_duplicate l = false.
Proof.
  induction 1 as [|x l Hn Hnd IH]; [reflexivity|]. cbn [has_duplicate].
  rewrite IH, orb_false_r. apply not_true_is_false. intros H.
  apply existsb_exists in H as [y [Hy E]]. apply String.eqb_eq in E.
  now subst y.
Qed.

Lemma NoDup_emails_after_update (g : users.row -> users.row) u e' l :
  (forall x, users.email (g x) = e') ->
  NoDup (map users.id l) ->
  NoDup (map users.email l) ->
  (forall x, In x l -> users.id x <> u -> users.email x <> e') ->
  NoDup (map users.email
           (map (fun x => if (users.id x =? u)%string then g x else x) l)).
Proof.
  intros Hg. induction l as [|a l IH]; intros Hid Hem Hfree; [constructor|].
  inversion Hid as [|? ? Hnid Hid']; inversion Hem as [|? ? Hnem Hem'];
    subst. cbn [map]. constructor.
  - intros Hin. apply in_map_iff in Hin as [y [Hy Hin]].
    apply in_map_iff in Hin as [x [<- Hx]].
    destruct (users.id a =? u)%string eqn:Ea,
             (users.id x =? u)%string eqn:Ex.
    + apply String.eqb_eq in Ea, Ex. apply Hnid. rewrite Ea, <- Ex.
      now apply in_map.
    + apply String.eqb_neq in Ex. rewrite Hg in Hy.
      exact (Hfree x (or_intror Hx) Ex Hy).
    + apply String.eqb_neq in Ea. rewrite Hg in Hy.
      exact (Hfree a (or_introl eq_refl) Ea (eq_sym Hy)).
    + apply Hnem. rewrite <- Hy. now apply in_map.
  - apply IH; auto. intros x Hx. apply Hfree. now right.
Qed.

Lemma usersRoutes_patch_me_eq env db token u b :
  token_of env token u ->
  truthy (UpdateUserRequest.name b) || truthy (UpdateUserRequest.email b)
  = true ->
  let updateData :=
    UserUpdateData.mk
      (if truthy (UpdateUserRequest.name b)
       then UpdateUserRequest.name b else None)
      (if truthy (UpdateUserRequest.email b)
       then UpdateUserRequest.email b else None)
      (Some (now env)) in
  usersRoutes_patch_me JWT_SECRET env (mkRequest (Some token) tt tt b) db
  = bind (update_users updateData (fun x => (users.id x =? u)%string))
      (fun rows =>
         match first_row rows with
         | None => throw (reply.notFound "User not found")
         | Some updatedUser =>
             ret [("id", JsString (users.id updatedUser));
                  ("email", JsString (users.email updatedUser));
                  ("name", JsString (users.name updatedUser));
                  ("createdAt", JsDate (users.createdAt updatedUser));
                  ("updatedAt", JsDate (users.updatedAt updatedUser))]
         end) db.
Proof.
  intros Ht Hs updateData. unfold usersRoutes_patch_me.
  rewrite (onRequest_mk env _ token u _ _ _ db Ht).
  unfold updateUserHandler.
  unfold bind at 1.
  rewrite (getUserIdFromToken_token env (mkRequest (Some token) tt tt b)
             token u db eq_refl Ht).
  cbn [body].
  assert (C : negb (truthy (UpdateUserRequest.name b))
              && negb (truthy (UpdateUserRequest.email b)) = false).
  { destruct (truthy (UpdateUserRequest.name b)),
             (truthy (UpdateUserRequest.email b)); try reflexivity.
    discriminate Hs. }
  rewrite C. subst updateData.
  destruct (truthy (UpdateUserRequest.name b)),
           (truthy (UpdateUserRequest.email b)); reflexivity.
Qed.

(** What the update of the own profile does when the new e-mail, if one is
    sent, is free. *)
Lemma update_me_form env db token usr b :
  token_of env token (users.id usr) ->
  db_wf db ->
  In usr (users_table db) ->
  truthy (UpdateUserRequest.name b) || truthy (UpdateUserRequest.email b)
  = true ->
  (forall e x, UpdateUserRequest.email b = Some e -> e <> "" ->
     In x (users_table db) -> users.id x <> users.id usr ->
     users.email x <> e) ->
  let usr' :=
    users.mk (users.id usr)
      (match UpdateUserRequest.email b with
       | Some e => if (e =? "")%string then users.email usr else e
       | None => users.email usr
       end)
      (match UpdateUserRequest.name b with
       | Some n => if (n =? "")%string then users.name usr else n
       | None => users.name usr
       end)
      (users.passwordHash usr) (users.createdAt usr) (now env) in
  usersRoutes_patch_me JWT_SECRET env (mkRequest (Some token) tt tt b) db
  = (Returned [("id", JsString (users.id usr'));
               ("email", JsString (users.email usr'));
               ("name", JsString (users.name usr'));
               ("createdAt", JsDate (users.createdAt usr'));
               ("updatedAt", JsDate (users.updatedAt usr'))],
     mkDb (map (fun x => if (users.id x =? users.id usr)%string
                         then usr' else x) (users_table db))
          (tasks_table db)).
Proof.
  intros Ht Hwf Hin Hs Hfree usr'.
  destruct Hwf as (Hid & Hem & _ & _).
  rewrite (usersRoutes_patch_me_eq env db token (users.id usr) b Ht Hs).
  cbv zeta.
  set (d := UserUpdateData.mk _ _ _).
  assert (Hset : set_user d usr = usr').
  { subst d usr'. unfold set_user, truthy.
    cbn [UserUpdateData.email UserUpdateData.name UserUpdateData.updatedAt].
    destruct (UpdateUserRequest.name b) as [n|],
             (UpdateUserRequest.email b) as [e|];
      try destruct (n =? "")%string; try destruct (e =? "")%string;
      reflexivity. }
  assert (Hmap : map (fun r => if (users.id r =? users.id usr)%string
                               then set_user d r else r) (users_table db)
                 = map (fun x => if (users.id x =? users.id usr)%string
                                 then usr' else x) (users_table db)).
  { apply map_ext_in. intros x Hx.
    destruct (users.id x =? users.id usr)%string eqn:E; [|reflexivity].
    apply String.eqb_eq in E.
    assert (x = usr) by (apply (NoDup_map_eq users.id (users_table db)); auto).
    now subst x. }
  unfold bind, update_users.
  destruct (UserUpdateData.email d) as [e'|] eqn:Ed.
  - assert (He' : exists e, UpdateUserRequest.email b = Some e
                            /\ e <> "" /\ e' = e).
    { subst d. cbn [UserUpdateData.email] in Ed. unfold truthy in Ed.
      destruct (UpdateUserRequest.email b) as [e|]; [|discriminate Ed].
      destruct (e =? "")%string eqn:E; cbn [negb] in Ed; [discriminate Ed|].
      injection Ed as <-. exists e. apply String.eqb_neq in E. auto. }
    destruct He' as (e & Hb & Hne & ->).
    assert (D : has_duplicate
                  (map users.email
                     (map (fun r => if (users.id r =? users.id usr)%string
                                    then set_user d r else r)
                          (users_table db))) = false).
    { apply NoDup_has_duplicate_false.
      apply (NoDup_emails_after_update (set_user d) (users.id usr) e);
        [|exact Hid | exact Hem|].
      - intros x. unfold set_user. now rewrite Ed.
      - intros x Hx Hne'. now apply (Hfree e x Hb Hne Hx Hne'). }
    rewrite D.
    rewrite (filter_user_id_unique _ usr Hid Hin). cbn [map first_row hd_error].
    rewrite Hset, Hmap. reflexivity.
  - rewrite (filter_user_id_unique _ usr Hid Hin). cbn [map first_row hd_error].
    rewrite Hset, Hmap. reflexivity.
Qed.

(** X16.  An authenticated update of the own profile with a non-empty name
    or e-mail, the e-mail (if sent) not in use by another user, returns the
    user object with the non-empty fields replaced and [updatedAt] set to
    the time of the request; an empty-string field is ignored.  In the
    users table the requester's row, and no other, is replaced in place,
    keeping its id, password hash and [createdAt]; the tasks table is
    untouched.  The e-mail is stored as sent, whatever its form. *)
Theorem update_me_changes_only_the_own_row env db token usr b :
  token_of env token (users.id usr) ->
  db_wf db ->
  In usr (users_table db) ->
  truthy (UpdateUserRequest.name b) || truthy (UpdateUserRequest.email b)
  = true ->
  (forall e x, UpdateUserRequest.email b = Some e -> e <> "" ->
     In x (users_table db) -> users.id x <> users.id usr ->
     users.email x <> e) ->
  let usr' :=
    users.mk (users.id usr)
      (match UpdateUserRequest.email b with
       | Some e => if (e =? "")%string then users.email usr else e
       | None => users.email usr
       end)
      (match UpdateUserRequest.name b with
       | Some n => if (n =? "")%string then users.name usr else n
       | None => users.name usr
       end)
      (users.passwordHash usr) (users.createdAt usr) (now env) in
  exists db',
    usersRoutes_patch_me JWT_SECRET env (mkRequest (Some token) tt tt b) db
    = (Returned [("id", JsString (users.id usr'));
                 ("email", JsString (users.email usr'));
                 ("name", JsString (users.name usr'));
                 ("createdAt", JsDate (users.createdAt usr'));
                 ("updatedAt", JsDate (users.updatedAt usr'))], db')
    /\ tasks_table db' = tasks_table db
    /\ users_table db'
       = map (fun x => if (users.id x =? users.id usr)%string
                       then usr' else x) (users_table db)
    /\ In usr' (users_table db')
    /\ (forall x, In x (users_table db) -> users.id x <> users.id usr ->
          In x (users_table db')).
Proof.
  intros Ht Hwf Hin Hs Hfree usr'. eexists.
  split; [apply (update_me_form env db token usr b Ht Hwf Hin Hs Hfree)|].
  cbn [tasks_table users_table]. split; [reflexivity|].
  split; [reflexivity|]. split.
  - apply in_map_iff. exists usr. now rewrite String.eqb_refl.
  - intros x Hx Hne. apply in_map_iff. exists x.
    apply String.eqb_neq in Hne. now rewrite Hne.
Qed.

(** X17.  An update of the own profile that sends the e-mail of another
    user is refused by the store's unique constraint: the handler has no
    check of its own, so the answer is a 500 with the store's message, not
    a 409, and nothing is changed. *)
Theorem update_me_to_a_taken_email_fails env db token usr other b e :
  token_of env token (users.id usr) ->
  In usr (users_table db) ->
  In other (users_table db) ->
  users.id other <> users.id usr ->
  UpdateUserRequest.email b = Some e ->
  e <> "" ->
  users.email other = e ->
  usersRoutes_patch_me JWT_SECRET env (mkRequest (Some token) tt tt b) db
  = (Raised constraint_violation, db)
  /\ statusCode (errorHandler constraint_violation) = 500
  /\ kind_of constraint_violation <> Conflict.
Proof.
  intros Ht Hin Hother Hne Hb Hnz He.
  split; [|split; [reflexivity | discriminate]].
  assert (Te : truthy (UpdateUserRequest.email b) = true).
  { rewrite Hb. cbn. apply String.eqb_neq in Hnz. now rewrite Hnz. }
  rewrite (usersRoutes_patch_me_eq env db token (users.id usr) b Ht);
    [|now rewrite Te, orb_true_r].
  cbv zeta. rewrite Te, Hb.
  set (d := UserUpdateData.mk _ _ _).
  unfold bind, update_users. cbn [UserUpdateData.email d].
  subst d. cbn [UserUpdateData.email].
  match goal with |- context [has_duplicate ?l] =>
    destruct (has_duplicate l) eqn:D end; [reflexivity | exfalso].
  apply has_duplicate_false_NoDup in D.
  match type of D with
  | NoDup (map users.email (map ?f0 (users_table db))) => set (f := f0) in D
  end.
  assert (Hne' : (users.id other =? users.id usr)%string = false)
    by now apply String.eqb_neq.
  assert (E : f usr = f other).
  { apply (NoDup_map_eq users.email (map f (users_table db)));
      [exact D | exact (in_map f _ _ Hin) | exact (in_map f _ _ Hother) |].
    subst f. cbv beta. rewrite String.eqb_refl, Hne'.
    unfold set_user. cbn [UserUpdateData.email users.email]. now rewrite He. }
  subst f. cbv beta in E. rewrite String.eqb_refl, Hne' in E.
  apply Hne. rewrite <- E. reflexivity.
Qed.

Lemma hd_filter_email_unique l y :
  NoDup (map users.email l) ->
  In y l ->
  hd_error (filter (fun u => (users.email u =? users.email y)%string) l)
  = Some y.
Proof.
  induction l as [|a l IH]; intros Hnd Hin; [contradiction|].
  inversion Hnd as [|? ? Hn Hnd']; subst. cbn [filter].
  destruct Hin as [<- | Hin].
  - now rewrite String.eqb_refl.
  - destruct (users.email a =? users.email y)%string eqn:E; [|now apply IH].
    apply String.eqb_eq in E. exfalso. apply Hn. rewrite E. now apply in_map.
Qed.

(** X18.  After a user has changed the e-mail of the own profile, login
    goes by the new e-mail: with the unchanged password, the new e-mail
    logs in to the same user id and the old e-mail is answered 401.  The
    update does not test the form of the e-mail, the login schema does: if
    the new e-mail is not one the schema accepts, every login with it is
    answered 400, whatever the password. *)
Theorem login_follows_the_changed_email env env2 db token usr b e password :
  token_of env token (users.id usr) ->
  db_wf db ->
  In usr (users_table db) ->
  UpdateUserRequest.email b = Some e ->
  e <> "" ->
  e <> users.email usr ->
  (forall x, In x (users_table db) -> users.id x <> users.id usr ->
     users.email x <> e) ->
  verifyPassword password (users.passwordHash usr) = true ->
  passwordSchema password = true ->
  let db' :=
    snd (usersRoutes_patch_me JWT_SECRET env
           (mkRequest (Some token) tt tt b) db) in
  let login em pw :=
    authRoutes_post_login JWT_SECRET env2
      (mkRequest None tt tt (LoginBody.mk em pw)) db' in
  (exists obj,
     fst (usersRoutes_patch_me JWT_SECRET env
            (mkRequest (Some token) tt tt b) db) = Returned obj)
  /\ (emailSchema e = true ->
      exists resp,
        login e password = (Returned resp, db')
        /\ AuthResponse.token resp
           = generateToken JWT_SECRET env2 (users.id usr))
  /\ (emailSchema e = false ->
      forall pw, exists err,
        login e pw = (Raised err, db')
        /\ statusCode (errorHandler err) = 400)
  /\ (emailSchema (users.email usr) = true ->
      login (users.email usr) password
      = (Raised (reply.unauthorized "Invalid email or password"), db')).
Proof.
  intros Ht Hwf Hin Hb Hnz Hnew Hfree Hv Hpw db' login.
  assert (Te : truthy (UpdateUserRequest.email b) = true).
  { rewrite Hb. cbn. apply String.eqb_neq in Hnz. now rewrite Hnz. }
  pose proof (update_me_form env db token usr b Ht Hwf Hin
                ltac:(now rewrite Te, orb_true_r)
                ltac:(intros e0 x H0 _ Hx Hne;
                      rewrite Hb in H0; injection H0 as <-;
                      now apply Hfree)) as Hform.
  cbv zeta in Hform.
  assert (Hnz' : (e =? "")%string = false) by now apply String.eqb_neq.
  rewrite Hb, Hnz' in Hform.
  set (usr' := users.mk (users.id usr) e _ (users.passwordHash usr)
                 (users.createdAt usr) (now env)) in Hform.
  assert (Hdb' : db' = mkDb (map (fun x => if (users.id x =? users.id usr)%string
                                          then usr' else x) (users_table db))
                            (tasks_table db)).
  { subst db'. now rewrite Hform. }
  destruct Hwf as (Hid & Hem & Htk & Hfk).
  assert (Hem' : NoDup (map users.email (users_table db'))).
  { rewrite Hdb'. cbn [users_table].
    apply (NoDup_emails_after_update (fun _ => usr') (users.id usr) e);
      auto. }
  assert (Hin' : In usr' (users_table db')).
  { rewrite Hdb'. cbn [users_table]. apply in_map_iff. exists usr.
    now rewrite String.eqb_refl. }
  split; [rewrite Hform; eexists; reflexivity|].
  split; [|split].
  - intros He. eexists. subst login. cbv beta.
    unfold authRoutes_post_login.
    rewrite with_schema_accepts
      by (cbn [body]; unfold loginBodySchema;
          cbn [LoginBody.email LoginBody.password]; now rewrite He, Hpw).
    split.
    + apply (loginHandler_finds env2 _ db' usr').
      * cbn [body LoginBody.email].
        exact (hd_filter_email_unique _ usr' Hem' Hin').
      * exact Hv.
    + reflexivity.
  - intros He pw. eexists. subst login. cbv beta.
    unfold authRoutes_post_login. split.
    + apply with_schema_rejects. cbn [body]. unfold loginBodySchema.
      cbn [LoginBody.email]. rewrite He. discriminate.
    + reflexivity.
  - intros He. subst login. cbv beta. unfold authRoutes_post_login.
    rewrite with_schema_accepts
      by (cbn [body]; unfold loginBodySchema;
          cbn [LoginBody.email LoginBody.password]; now rewrite He, Hpw).
    apply loginHandler_unknown_email. cbn [body LoginBody.email].
    rewrite Hdb'. cbn [users_table]. intros x Hx.
    apply in_map_iff in Hx as [y [<- Hy]].
    destruct (users.id y =? users.id usr)%string eqn:E.
    + cbn [users.email usr']. congruence.
    + apply String.eqb_neq in E. intros Heq. apply E.
      f_equal. now apply (NoDup_map_eq users.email (users_table db)).
Qed.

(** *** From register to the first task *)

(** X19.  With a JWT library whose [verify] accepts an unexpired token it
    signed: the token of a register response, used within its seven days,
    lets the new user create a task (the generated task id being unused),
    and the task's owner is the id in the register response. *)
Theorem registered_user_can_create_a_task {jok : JwtOk}
    env1 env2 request db resp db1 b :
  authRoutes_post_register JWT_SECRET env1 request db = (Returned resp, db1) ->
  now env2 / 1000 < now env1 / 1000 + 604800 ->
  (forall t, In t (tasks_table db1) -> tasks.id t <> random_uuid env2) ->
  exists task,
    tasksRoutes_post JWT_SECRET env2
      (mkRequest (Some (AuthResponse.token resp)) tt tt b) db1
    = (Returned task, mkDb (users_table db1) (tasks_table db1 ++ [task]))
    /\ tasks.title task = CreateTaskRequest.title b
    /\ hd_error (AuthResponse.user resp)
       = Some ("id", JsString (tasks.userId task)).
Proof.
  intros H Hexp Hfresh.
  destruct (register_returned_form env1 request db resp db1 H)
    as (_ & Hdb & ->).
  cbn [AuthResponse.token AuthResponse.user].
  eexists. split; [|split].
  - apply (createTaskHandler_inserts env2
             (mkRequest
                (Some (generateToken JWT_SECRET env1 (random_uuid env1)))
                tt tt b)
             db1 (generateToken JWT_SECRET env1 (random_uuid env1))
             (random_uuid env1) eq_refl).
    + unfold token_of, generateToken. now apply verify_sign.
    + rewrite Hdb. cbn [users_table]. eexists. split.
      * apply in_or_app. right. left. reflexivity.
      * reflexivity.
    + exact Hfresh.
  - reflexivity.
  - reflexivity.
Qed.

(** X20.  A create by an authenticated user fails with a 500 and changes
    nothing when the store refuses the row: when the generated id is the id
    of a task that exists (primary key), and when no row of the users table
    has the token's user id (foreign key), as for a token that outlived its
    user. *)
Theorem create_refused_by_the_store_is_500 env request db token u :
  authorization request = Some token ->
  token_of env token u ->
  ((exists t, In t (tasks_table db) /\ tasks.id t = random_uuid env) ->
   tasksRoutes_post JWT_SECRET env request db
   = (Raised constraint_violation, db))
  /\ ((forall t, In t (tasks_table db) -> tasks.id t <> random_uuid env) ->
      (forall x, In x (users_table db) -> users.id x <> u) ->
      tasksRoutes_post JWT_SECRET env request db
      = (Raised foreign_key_violation, db))
  /\ statusCode (errorHandler constraint_violation) = 500
  /\ statusCode (errorHandler foreign_key_violation) = 500.
Proof.
  intros Ha Ht.
  assert (E : tasksRoutes_post JWT_SECRET env request db
              = insert_tasks env u (CreateTaskRequest.title (body request))
                  (or_null (CreateTaskRequest.description (body request))) db).
  { unfold tasksRoutes_post.
    rewrite (onRequest_token env _ request token u db Ha Ht).
    unfold createTaskHandler, bind.
    rewrite (getUserIdFromToken_token env request token u db Ha Ht).
    destruct (insert_tasks _ _ _ _ db) as [[t|e] db']; reflexivity. }
  rewrite E. unfold insert_tasks. cbn [tasks.id].
  split; [|split; [|split; reflexivity]].
  - intros [t [Hin He]].
    assert (X : existsb (fun t => (tasks.id t =? random_uuid env)%string)
                  (tasks_table db) = true).
    { apply existsb_exists. exists t. split; [exact Hin|].
      now apply String.eqb_eq. }
    now rewrite X.
  - intros Hfresh Hnone.
    assert (X : existsb (fun t => (tasks.id t =? random_uuid env)%string)
                  (tasks_table db) = false).
    { apply not_true_is_false. intros Hx.
      apply existsb_exists in Hx as [t [Hi He]].
      apply String.eqb_eq in He. exact (Hfresh t Hi He). }
    assert (Y : existsb (fun x => (users.id x =? u)%string) (users_table db)
                = false).
    { apply not_true_is_false. intros Hx.
      apply existsb_exists in Hx as [x [Hi He]].
      apply String.eqb_eq in He. exact (Hnone x Hi He). }
    now rewrite X, Y.
Qed.

End Properties.

(** * The test doubles satisfy the library laws *)

Lemma fake_bcrypt_ok : @BcryptOk Fake.bcrypt.
Proof.
  intros password rounds salt. simpl. unfold Fake.compare, Fake.hash.
  apply String.eqb_refl.
Qed.

Lemma strip_prefix_app p s : Fake.strip_prefix p (p ++ s) = Some s.
Proof.
  induction p as [|c p IH]; simpl; [reflexivity|].
  now rewrite Ascii.eqb_refl.
Qed.

Lemma fake_jwt_ok : @JwtOk Fake.jwt.
Proof.
  intros secret userId iat ttl now _. simpl. apply strip_prefix_app.
Qed.

Lemma insert_desc_perm x l : Permutation (x :: l) (Fake.insert_desc x l).
Proof.
  induction l as [|y l IH]; simpl; [apply Permutation_refl|].
  destruct (tasks.createdAt x <? tasks.createdAt y).
  - eapply perm_trans; [apply perm_swap|]. now apply perm_skip.
  - apply Permutation_refl.
Qed.

Lemma stable_sort_perm l : Permutation l (Fake.stable_sort l).
Proof.
  induction l as [|x l IH]; simpl; [constructor|].
  eapply perm_trans; [|apply insert_desc_perm]. now apply perm_skip.
Qed.

Lemma insert_desc_sorted x l : newest_first l -> newest_first (Fake.insert_desc x l).
Proof.
  unfold newest_first. induction l as [|y l IH]; simpl; intros Hs.
  - repeat constructor.
  - inversion Hs as [|? ? Hs' Hall]; subst.
    destruct (tasks.createdAt x <? tasks.createdAt y) eqn:E.
    + apply Z.ltb_lt in E. constructor; [now apply IH|].
      eapply Permutation_Forall; [apply insert_desc_perm|].
      constructor; [lia | assumption].
    + apply Z.ltb_ge in E. constructor; [assumption|].
      constructor; [assumption|].
      eapply Forall_impl; [|exact Hall]. simpl. intros z Hz. lia.
Qed.

Lemma stable_sort_sorted l : newest_first (Fake.stable_sort l).
Proof.
  induction l as [|x l IH]; simpl; [constructor | now apply insert_desc_sorted].
Qed.

(** Stability: the rows of one creation time come out in the order they
    went in. *)
Lemma insert_desc_stable c x l :
  filter (fun t => tasks.createdAt t =? c) (Fake.insert_desc x l)
  = filter (fun t => tasks.createdAt t =? c) (x :: l).
Proof.
  induction l as [|y l IH]; [reflexivity|].
  cbn [Fake.insert_desc].
  destruct (tasks.createdAt x <? tasks.createdAt y) eqn:E; [|reflexivity].
  apply Z.ltb_lt in E. cbn [filter] in *. rewrite IH.
  destruct (tasks.createdAt x =? c) eqn:Ex; [|reflexivity].
  apply Z.eqb_eq in Ex.
  assert (Ey : (tasks.createdAt y =? c) = false) by (apply Z.eqb_neq; lia).
  now rewrite Ey.
Qed.

Lemma stable_sort_stable c l :
  filter (fun t => tasks.createdAt t =? c) (Fake.stable_sort l)
  = filter (fun t => tasks.createdAt t =? c) l.
Proof.
  induction l as [|x l IH]; [reflexivity|].
  cbn [Fake.stable_sort]. rewrite insert_desc_stable.
  cbn [filter]. now rewrite IH.
Qed.

Lemma fake_order_by_ok : @OrderByOk Fake.order_by.
Proof.
  split; intros env l; [apply stable_sort_perm | apply stable_sort_sorted].
Qed.

Lemma fake_ToNumber_decimal z :
  0 <= z -> Fake.ToNumber (decimal z) = Fake.Num z.
Proof.
  intros Hz. unfold Fake.ToNumber, decimal.
  assert (Hnn : N.to_uint (Z.to_N z) <> Decimal.Nil).
  { destruct (Z.to_N z) as [|q]; cbn; [discriminate|].
    apply DecimalPos.Unsigned.to_uint_nonnil. }
  assert (Hne : (NilZero.string_of_uint (N.to_uint (Z.to_N z)) =? "")%string
                = false).
  { apply String.eqb_neq. intros E.
    pose proof (NilZero.usu _ Hnn) as U. rewrite E in U. discriminate U. }
  rewrite Hne, (NilZero.usu _ Hnn), DecimalN.Unsigned.of_to.
  now rewrite Z2N.id.
Qed.

Lemma fake_js_ok : @JsNumbersOk Fake.js.
Proof.
  split; cbn.
  - intros z Hz. apply fake_ToNumber_decimal. lia.
  - reflexivity.
  - reflexivity.
  - intros [z| | | |]; cbn; try reflexivity.
  - reflexivity.
  - reflexivity.
  - intros a b Ha Hb. unfold Fake.divide.
    destruct (b =? 0) eqn:E; [apply Z.eqb_eq in E; lia|].
    destruct (a mod b =? 0) eqn:M; cbn [Fake.Math_ceil]; [|reflexivity].
    apply Z.eqb_eq in M. f_equal.
    pose proof (Z.div_mod a b ltac:(lia)) as D.
    rewrite M, Z.add_0_r in D.
    rewrite D at 2.
    replace (- (b * (a / b))) with ((- (a / b)) * b) by ring.
    rewrite Z.div_mul by lia. lia.
Qed.

(** * The theorems at sample requests *)

Lemma sample_users_other_email (e : string) :
  e <> "a@x.com" -> e <> "b@x.com" ->
  forall u, In u (users_table Sample.db0) -> users.email u <> e.
Proof.
  intros Ha Hb u [<- | [<- | []]]; simpl; congruence.
Qed.

Lemma sample_users_other_id (i : string) :
  i <> "u-alice" -> i <> "u-bob" ->
  forall u, In u (users_table Sample.db0) -> users.id u <> i.
Proof.
  intros Ha Hb u [<- | [<- | []]]; simpl; congruence.
Qed.

Lemma non_owner_gets_not_found_witness :
  task_ids_unique Sample.db1
  /\ tasksRoutes_get_id (jw:=Fake.jwt) Sample.secret (Sample.env 9000 "x")
       (mkRequest (Some Sample.bob_token) (IdParams.mk "t-1") tt tt) Sample.db1
     = (Raised (reply.notFound "Task not found"), Sample.db1).
Proof.
  assert (U : task_ids_unique Sample.db1).
  { unfold task_ids_unique. simpl. constructor; [simpl; tauto | constructor]. }
  split; [exact U|].
  apply (proj1 (non_owner_gets_not_found (jw:=Fake.jwt) Sample.secret
                  (Sample.env 9000 "x") Sample.db1 "u-alice" "u-bob"
                  (Sample.task "t-1" "u-alice" "write" 3000) Sample.bob_token
                  U (or_introl eq_refl) eq_refl
                  ltac:(discriminate) eq_refl)).
Defined.

Lemma register_then_login_same_user_witness :
  exists r1 db1 r2,
    authRoutes_post_register (bc:=Fake.bcrypt) (jw:=Fake.jwt) (zd:=Fake.zod)
      Sample.secret (Sample.env 9000 "u-carol")
      (mkRequest None tt tt (RegisterBody.mk "c@x.com" "pw123456" "C"))
      Sample.db0
    = (Returned r1, db1)
    /\ authRoutes_post_login (bc:=Fake.bcrypt) (jw:=Fake.jwt) (zd:=Fake.zod)
         Sample.secret (Sample.env 9500 "y")
         (mkRequest None tt tt (LoginBody.mk "c@x.com" "pw123456")) db1
       = (Returned r2, db1).
Proof.
  destruct (register_then_login_same_user (bc:=Fake.bcrypt) (jw:=Fake.jwt)
              (zd:=Fake.zod) Sample.secret (bok:=fake_bcrypt_ok)
              (jok:=fake_jwt_ok)
              (Sample.env 9000 "u-carol") (Sample.env 9500 "y")
              (mkRequest None tt tt (RegisterBody.mk "c@x.com" "pw123456" "C"))
              None Sample.db0 eq_refl
              (sample_users_other_email "c@x.com"
                 ltac:(discriminate) ltac:(discriminate))
              (sample_users_other_id "u-carol"
                 ltac:(discriminate) ltac:(discriminate)))
    as (r1 & db1 & r2 & userId & H1 & H2 & _).
  exists r1, db1, r2. split; assumption.
Defined.

Lemma login_errors_indistinguishable_witness :
  respond (fst (loginHandler (bc:=Fake.bcrypt) (jw:=Fake.jwt) Sample.secret
                  (Sample.env 9000 "x")
                  (mkRequest None tt tt (LoginBody.mk "nobody@x.com" "pw123456"))
                  Sample.db0))
  = respond (fst (loginHandler (bc:=Fake.bcrypt) (jw:=Fake.jwt) Sample.secret
                    (Sample.env 9000 "x")
                    (mkRequest None tt tt (LoginBody.mk "a@x.com" "wrongpw1"))
                    Sample.db0)).
Proof.
  apply (proj1 (login_errors_indistinguishable (bc:=Fake.bcrypt)
                  (jw:=Fake.jwt) (zd:=Fake.zod) Sample.secret
                  (Sample.env 9000 "x") (Sample.env 9000 "x")
                  (mkRequest None tt tt (LoginBody.mk "nobody@x.com" "pw123456"))
                  (mkRequest None tt tt (LoginBody.mk "a@x.com" "wrongpw1"))
                  Sample.db0 Sample.db0
                  (sample_users_other_email "nobody@x.com"
                     ltac:(discriminate) ltac:(discriminate))
                  (ex_intro _ Sample.alice (conj (or_introl eq_refl) eq_refl))
                  ltac:(intros u [<- | [<- | []]] H;
                        [reflexivity | discriminate H]))).
Defined.


Lemma update_without_fields_is_rejected_witness :
  tasksRoutes_patch_id (jw:=Fake.jwt) Sample.secret (Sample.env 9000 "x")
    (mkRequest (Some Sample.alice_token) (IdParams.mk "t-1") tt
       (UpdateTaskRequest.mk None None None)) Sample.db1
  = (Raised (reply.badRequest "At least one field must be provided"),
     Sample.db1).
Proof.
  apply (proj1 (proj2 (update_without_fields_is_rejected (jw:=Fake.jwt)
                         Sample.secret (Sample.env 9000 "x")
                         (mkRequest (Some Sample.alice_token)
                            (IdParams.mk "t-1") tt
                            (UpdateTaskRequest.mk None None None))
                         Sample.db1 eq_refl eq_refl eq_refl)
                 Sample.alice_token "u-alice" eq_refl eq_refl)).
Defined.

Lemma auth_response_user_is_public_witness :
  let r :=
    AuthResponse.mk
      [("id", JsString "u-alice"); ("email", JsString "a@x.com");
       ("name", JsString "A"); ("createdAt", JsDate 1000);
       ("updatedAt", JsDate 1000)]
      "test-secret.u-alice" 604800 in
  loginHandler (bc:=Fake.bcrypt) (jw:=Fake.jwt) Sample.secret
    (Sample.env 9000 "x")
    (mkRequest None tt tt (LoginBody.mk "a@x.com" "pw123456")) Sample.db0
  = (Returned r, Sample.db0)
  /\ ~ In "passwordHash" (keys (AuthResponse.user r)).
Proof.
  cbv zeta. split; [reflexivity|].
  apply (auth_response_user_is_public (bc:=Fake.bcrypt) (jw:=Fake.jwt)
           Sample.secret (Sample.env 9000 "x") Sample.db0 Sample.db0 _
           (or_introl
              (ex_intro _
                 (mkRequest None tt tt (LoginBody.mk "a@x.com" "pw123456"))
                 eq_refl))).
Defined.

Lemma short_password_rejected_before_handler_witness :
  exists e,
    authRoutes_post_login (bc:=Fake.bcrypt) (jw:=Fake.jwt) (zd:=Fake.zod)
      Sample.secret (Sample.env 9000 "x")
      (mkRequest None tt tt (LoginBody.mk "a@x.com" "pw12345")) Sample.db0
    = (Raised e, Sample.db0)
    /\ statusCode (errorHandler e) = 400.
Proof.
  destruct (short_password_rejected_before_handler (bc:=Fake.bcrypt)
              (jw:=Fake.jwt) (zd:=Fake.zod) Sample.secret
              (Sample.env 9000 "x") Sample.db0
              (mkRequest None tt tt (LoginBody.mk "a@x.com" "pw12345"))
              (mkRequest None tt tt (RegisterBody.mk "c@x.com" "pw12345" "C"))
              ltac:(simpl; lia) ltac:(simpl; lia))
    as [(e & _ & H & Hs & _) _].
  exists e. split; [exact H | exact Hs].
Defined.

Lemma create_stores_empty_description_as_null_witness :
  exists task,
    fst (tasksRoutes_post (jw:=Fake.jwt) Sample.secret (Sample.env 9000 "t-2")
           (mkRequest (Some Sample.alice_token) tt tt
              (CreateTaskRequest.mk "read" (Some ""))) Sample.db1)
    = Returned task
    /\ tasks.description task = None.
Proof.
  destruct (create_stores_empty_description_as_null (jw:=Fake.jwt)
              Sample.secret (Sample.env 9000 "t-2")
              (mkRequest (Some Sample.alice_token) tt tt
                 (CreateTaskRequest.mk "read" (Some ""))) Sample.db1
              Sample.alice_token "u-alice" eq_refl eq_refl
              (ex_intro _ Sample.alice (conj (or_introl eq_refl) eq_refl))
              ltac:(intros t [<- | []]; discriminate))
    as (task & H & Hnull & _).
  exists task. split; [now rewrite H | apply Hnull; now left].
Defined.

Lemma create_passes_fields_through_witness :
  exists task db1,
    tasksRoutes_post (jw:=Fake.jwt) Sample.secret (Sample.env 9000 "t-2")
      (mkRequest (Some Sample.alice_token) tt tt
         (CreateTaskRequest.mk "read" (Some "a book"))) Sample.db1
    = (Returned task, db1)
    /\ tasks.title task = "read"
    /\ tasks.description task = Some "a book".
Proof.
  destruct (create_passes_fields_through (jw:=Fake.jwt)
              Sample.secret (Sample.env 9000 "t-2")
              (mkRequest (Some Sample.alice_token) tt tt
                 (CreateTaskRequest.mk "read" (Some "a book"))) Sample.db1
              Sample.alice_token "u-alice" eq_refl eq_refl
              (ex_intro _ Sample.alice (conj (or_introl eq_refl) eq_refl))
              ltac:(intros t [<- | []]; discriminate)
              ltac:(discriminate))
    as (task & db1 & H & _ & _ & Ht & _ & _ & Hd & _).
  exists task, db1. split; [exact H|]. split; [exact Ht|].
  apply (Hd "a book" eq_refl). discriminate.
Defined.

(** The scenario of the specification: with 25 tasks, page 2 (the limit
    left at its default of 20) has 5 items and a pagination with total 25
    and totalPages 2; the items are the five oldest tasks, newest first. *)
Example list_page_2_of_25 :
  match
    fst (tasksRoutes_get (jw:=Fake.jwt) (ob:=Fake.order_by) (dr:=Fake.driver)
           (js:=Fake.js) Sample.secret (Sample.env 9000 "x")
           (mkRequest (Some Sample.alice_token) tt
              (ListTasksParams.mk (Some "2") None None) tt) Sample.db25)
  with
  | Returned r =>
      map tasks.id (ListTasksResponse.data r) = ["E"; "D"; "C"; "B"; "A"]
      /\ ListTasksResponse.pagination r
         = Pagination.mk (js:=Fake.js) (Sent "2") (Default 20) 25 (Fake.Num 2)
  | Raised _ => False
  end.
Proof. vm_compute. split; reflexivity. Qed.

(** * Where the code departs from the specification's wording *)

(** C1, counterexample.  Bob holds a valid token and Alice owns task t-1;
    Bob's update of t-1 with a body that supplies no field is answered 400
    (ValidationError), not 404: the handler tests the body before it
    queries the store. *)
Lemma non_owner_empty_update_is_bad_request :
  let t := Sample.task "t-1" "u-alice" "write" 3000 in
  let r :=
    tasksRoutes_patch_id (jw:=Fake.jwt) Sample.secret (Sample.env 9000 "x")
      (mkRequest (Some Sample.bob_token) (IdParams.mk (tasks.id t)) tt
         (UpdateTaskRequest.mk None None None)) Sample.db1 in
  In t (tasks_table Sample.db1)
  /\ tasks.userId t = "u-alice"
  /\ "u-alice" <> "u-bob"
  /\ token_of (jw:=Fake.jwt) Sample.secret (Sample.env 9000 "x")
       Sample.bob_token "u-bob"
  /\ r = (Raised (reply.badRequest "At least one field must be provided"),
          Sample.db1)
  /\ respond (fst r)
     = Failed (mkApiError (Some "Bad Request")
                 "At least one field must be provided" 400)
  /\ kind_of (reply.badRequest "At least one field must be provided")
     <> NotFound.
Proof.
  cbv zeta. split; [now left|]. split; [reflexivity|].
  split; [discriminate|]. split; [reflexivity|].
  split; [reflexivity|]. split; [reflexivity | discriminate].
Qed.


(** C4, the code at the failing input.  [paginationSchema] rejects a limit
    of 101, but the list route is registered without it: GET
    /api/tasks?page=1&limit=101 is served, status 200, with the limit
    returned as it was sent; on a store where the requester has 120 tasks
    the page holds all 120.  A page of 0 reaches the store and fails there
    (500, not 400); a limit of 0 is served with every row and an infinite
    page count. *)
Lemma list_limit_101_is_served :
  let get q db :=
    tasksRoutes_get (jw:=Fake.jwt) (ob:=Fake.order_by) (dr:=Fake.driver)
      (js:=Fake.js) Sample.secret (Sample.env 9000 "x")
      (mkRequest (Some Sample.alice_token) tt q tt) db in
  paginationSchema (js:=Fake.js)
    (ListTasksParams.mk (Some "1") (Some "101") None) = ["limit"]
  /\ get (ListTasksParams.mk (Some "1") (Some "101") None) Sample.db1
     = (Returned
          (ListTasksResponse.mk [Sample.task "t-1" "u-alice" "write" 3000]
             (Pagination.mk (js:=Fake.js) (Sent "1") (Sent "101") 1 (Fake.Num 1))),
        Sample.db1)
  /\ (exists r,
        fst (get (ListTasksParams.mk (Some "1") (Some "101") None)
               Sample.db120) = Returned r
        /\ List.length (ListTasksResponse.data r) = 120%nat)
  /\ paginationSchema (js:=Fake.js)
       (ListTasksParams.mk (Some "0") (Some "20") None) = ["page"]
  /\ respond (fst (get (ListTasksParams.mk (Some "0") (Some "20") None)
                     Sample.db1))
     = Failed (mkApiError (Some "Internal Server Error")
                 "OFFSET must not be negative" 500)
  /\ paginationSchema (js:=Fake.js)
       (ListTasksParams.mk (Some "1") (Some "0") None) = ["limit"]
  /\ get (ListTasksParams.mk (Some "1") (Some "0") None) Sample.db1
     = (Returned
          (ListTasksResponse.mk [Sample.task "t-1" "u-alice" "write" 3000]
             (Pagination.mk (js:=Fake.js) (Sent "1") (Sent "0") 1 Fake.Infinity)),
        Sample.db1).
Proof.
  cbv zeta. split; [reflexivity|]. split; [reflexivity|].
  split; [eexists; split; [vm_compute; reflexivity | reflexivity]|].
  repeat split; reflexivity.
Qed.

(** C7, counterexample.  The create route is registered without a schema
    and the handler does not test the title: a create with an empty title
    is served, status 200, and the row is inserted with the empty title.
    And an optional field does not always pass through unchanged: an empty
    description is stored as null. *)
Lemma create_empty_title_and_description :
  let row := tasks.mk "t-2" "u-alice" "" None false 9000 9000 in
  let post b :=
    tasksRoutes_post (jw:=Fake.jwt) Sample.secret (Sample.env 9000 "t-2")
      (mkRequest (Some Sample.alice_token) tt tt b) Sample.db1 in
  post (CreateTaskRequest.mk "" None)
  = (Returned row,
     mkDb (users_table Sample.db1) (tasks_table Sample.db1 ++ [row]))
  /\ tasks.title row = ""
  /\ (forall e, fst (post (CreateTaskRequest.mk "" None)) <> Raised e)
  /\ (exists task,
        fst (post (CreateTaskRequest.mk "read" (Some ""))) = Returned task
        /\ tasks.description task = None
        /\ tasks.description task <> Some "").
Proof.
  cbv zeta. split; [reflexivity|]. split; [reflexivity|].
  split; [intros e; discriminate|].
  eexists. split; [reflexivity|]. split; [reflexivity | discriminate].
Qed.

(** * The web client *)

Lemma get_assign_same k v o : web.get k (web.assign k v o) = Some v.
Proof.
  induction o as [|[k' v'] o IH]; cbn [web.assign web.get].
  - now rewrite String.eqb_refl.
  - destruct (k' =? k)%string eqn:E; cbn [web.get].
    + now rewrite String.eqb_refl.
    + now rewrite E.
Qed.

Lemma get_assign_other k k' v o :
  k' <> k -> web.get k' (web.assign k v o) = web.get k' o.
Proof.
  intros Hne. induction o as [|[k0 v0] o IH]; cbn [web.assign web.get].
  - assert (E : (k =? k')%string = false) by (apply String.eqb_neq; congruence).
    now rewrite E.
  - destruct (k0 =? k)%string eqn:E; cbn [web.get].
    + apply String.eqb_eq in E. subst k0.
      assert (E' : (k =? k')%string = false)
        by (apply String.eqb_neq; congruence).
      now rewrite E'.
    + now rewrite IH.
Qed.

Lemma get_spread_absent k base extra :
  (forall v, ~ In (k, v) extra) ->
  web.get k (web.spread base extra) = web.get k base.
Proof.
  unfold web.spread. revert base.
  induction extra as [|[k' v'] extra IH]; intros base Habs; [reflexivity|].
  cbn [fold_left fst snd]. rewrite IH.
  - apply get_assign_other. intros E. subst k'.
    apply (Habs v'). now left.
  - intros v Hin. apply (Habs v). now right.
Qed.

(** X21.  The request that [fetchApi] hands to [fetch] keeps the caller's
    method and body.  When the browser holds a non-empty token, its
    Authorization header is "Bearer " followed by that token, whatever
    headers the caller passed; with no token, or an empty one, and no such
    header from the caller, no Authorization header is sent.  Content-Type
    is application/json unless the caller sets it. *)
Theorem fetch_request_carries_the_token token options :
  let init := web.init_of token options in
  web.method init = web.method options
  /\ web.body init = web.body options
  /\ (forall t, token = Some t -> t <> "" ->
        web.get "Authorization" (web.headers init) = Some ("Bearer " ++ t))
  /\ (token = None \/ token = Some "" ->
      (forall v, ~ In ("Authorization", v) (web.headers options)) ->
      web.get "Authorization" (web.headers init) = None)
  /\ ((forall v, ~ In ("Content-Type", v) (web.headers options)) ->
      web.get "Content-Type" (web.headers init) = Some "application/json").
Proof.
  cbv zeta. unfold web.init_of. cbn [web.method web.body web.headers].
  split; [reflexivity|]. split; [reflexivity|]. split; [|split].
  - intros t -> Hne. apply String.eqb_neq in Hne. rewrite Hne.
    apply get_assign_same.
  - intros Ht Habs.
    assert (E : web.get "Authorization"
                  (web.spread [("Content-Type", "application/json")]
                     (web.headers options)) = None)
      by now rewrite get_spread_absent.
    destruct Ht as [-> | ->]; exact E.
  - intros Habs.
    assert (E : web.get "Content-Type"
                  (web.spread [("Content-Type", "application/json")]
                     (web.headers options)) = Some "application/json")
      by now rewrite get_spread_absent.
    destruct token as [t|]; [|exact E].
    destruct (t =? "")%string; [exact E|].
    rewrite get_assign_other; [exact E | discriminate].
Qed.

(** X22.  When the response is not ok, [fetchApi] never resolves.  It
    throws an ApiError with the response's status whose message is
    "Request failed" when the body does not parse, or parses to a value
    other than null that has no message or a falsy one, and is the body's
    message when that is a non-empty string.  A body that is the JSON null
    makes it throw a TypeError instead of an ApiError. *)
Theorem fetchApi_failure_is_an_ApiError (N : Type)
    (Number_toString : N -> string) (Number_truthy : N -> bool)
    (API_URL : string)
    (fetch : string -> web.RequestInit
             -> option (web.FetchResponse (web.Json N)))
    token endpoint options response :
  fetch (API_URL ++ endpoint) (web.init_of token options) = Some response ->
  web.ok response = false ->
  let result :=
    web.fetchApi Number_toString Number_truthy API_URL fetch token endpoint
      options in
  (web.json response = None ->
   result = web.ThrewApiError "Request failed" (web.status response))
  /\ (web.json response = Some web.JNull -> result = web.ThrewTypeError)
  /\ (forall w s,
        web.json response = Some w ->
        web.message_of w = Some (web.JString s) ->
        s <> "" ->
        result = web.ThrewApiError s (web.status response))
  /\ (forall w,
        web.json response = Some w ->
        w <> web.JNull ->
        match web.message_of w with
        | Some m => web.ToBoolean Number_truthy m = false
        | None => True
        end ->
        result = web.ThrewApiError "Request failed" (web.status response))
  /\ (forall w, result <> web.Resolved w).
Proof.
  intros Hf Hok result. subst result. unfold web.fetchApi.
  rewrite Hf, Hok. cbn [negb].
  split; [intros ->; reflexivity|].
  split; [intros ->; reflexivity|].
  split; [|split].
  - intros w s -> Hm Hs.
    destruct w; try discriminate Hm.
    rewrite Hm. cbn [web.ToBoolean].
    apply String.eqb_neq in Hs. rewrite Hs. reflexivity.
  - intros w -> Hnull Hm.
    destruct w; try (now elim Hnull); try reflexivity.
    destruct (web.message_of (web.JObject o)) as [m|]; [|reflexivity].
    now rewrite Hm.
  - intros w.
    destruct (web.json response) as [e|]; [|discriminate].
    destruct e; try discriminate;
      match goal with
      | |- context [web.ToString ?f ?m] =>
          destruct (web.ToString f m); discriminate
      end.
Qed.

(** * The further properties at sample requests *)

Lemma sample_db0_wf : db_wf Sample.db0.
Proof.
  unfold db_wf, task_ids_unique. cbn. repeat split.
  - repeat constructor; cbn; intuition discriminate.
  - repeat constructor; cbn; intuition discriminate.
  - constructor.
  - intros t [].
Qed.

Lemma sample_db1_ids : task_ids_unique Sample.db1.
Proof.
  unfold task_ids_unique. cbn. constructor; [cbn; tauto | constructor].
Qed.

Lemma register_twice_is_conflict_witness :
  let renamed :=
    run (bc:=Fake.bcrypt) (jw:=Fake.jwt) (zd:=Fake.zod) (ob:=Fake.order_by)
      (dr:=Fake.driver) (js:=Fake.js) Sample.secret
      [(Sample.env 9200 "x",
        PATCH_users_me
          (mkRequest (Some Sample.carol_token) tt tt
             (UpdateUserRequest.mk (Some "Carol") None)))]
      Sample.db_carol in
  authRoutes_post_register (bc:=Fake.bcrypt) (jw:=Fake.jwt) (zd:=Fake.zod)
    Sample.secret (Sample.env 9500 "u-dave")
    (mkRequest None tt tt (RegisterBody.mk "c@x.com" "otherpw99" "D"))
    renamed
  = (Raised (reply.conflict "User with this email already exists"), renamed).
Proof.
  exact (proj1 (register_twice_is_conflict (bc:=Fake.bcrypt) (jw:=Fake.jwt)
                  (zd:=Fake.zod) (ob:=Fake.order_by) (dr:=Fake.driver)
                  (js:=Fake.js) Sample.secret
                  (Sample.env 9000 "u-carol") (Sample.env 9500 "u-dave")
                  Sample.register_carol
                  (mkRequest None tt tt
                     (RegisterBody.mk "c@x.com" "otherpw99" "D"))
                  Sample.db0 Sample.carol_response Sample.db_carol
                  [(Sample.env 9200 "x",
                    PATCH_users_me
                      (mkRequest (Some Sample.carol_token) tt tt
                         (UpdateUserRequest.mk (Some "Carol") None)))]
                  eq_refl
                  ltac:(intros ec [<- | []]; reflexivity)
                  eq_refl eq_refl)).
Defined.

Lemma failed_request_changes_nothing_witness :
  snd (serve (bc:=Fake.bcrypt) (jw:=Fake.jwt) (zd:=Fake.zod)
         (ob:=Fake.order_by) (dr:=Fake.driver) (js:=Fake.js) Sample.secret (Sample.env 9000 "x")
         Sample.bob_gets_t1 Sample.db1)
  = Sample.db1.
Proof.
  exact (failed_request_changes_nothing (bc:=Fake.bcrypt) (jw:=Fake.jwt)
           (zd:=Fake.zod) (ob:=Fake.order_by) (dr:=Fake.driver) (js:=Fake.js) Sample.secret
           (Sample.env 9000 "x") Sample.bob_gets_t1 Sample.db1
           (reply.notFound "Task not found") eq_refl).
Defined.

Lemma protected_routes_reject_missing_token_witness :
  exists e,
    serve (bc:=Fake.bcrypt) (jw:=Fake.jwt) (zd:=Fake.zod) (ob:=Fake.order_by) (dr:=Fake.driver) (js:=Fake.js)
      Sample.secret (Sample.env 9000 "x")
      (GET_tasks (mkRequest None tt (ListTasksParams.mk None None None) tt))
      Sample.db1
    = (Raised e, Sample.db1)
    /\ statusCode (errorHandler e) = 401
    /\ kind_of e = Unauthenticated.
Proof.
  exact (proj1 (protected_routes_reject_missing_token (bc:=Fake.bcrypt)
                  (jw:=Fake.jwt) (zd:=Fake.zod) (ob:=Fake.order_by) (dr:=Fake.driver) (js:=Fake.js)
                  Sample.secret (Sample.env 9000 "x")
                  (GET_tasks
                     (mkRequest None tt (ListTasksParams.mk None None None) tt))
                  Sample.db1 eq_refl I)).
Defined.

Lemma owner_update_replaces_supplied_fields_witness :
  fst (tasksRoutes_patch_id (jw:=Fake.jwt) Sample.secret (Sample.env 9000 "x")
         (mkRequest (Some Sample.alice_token) (IdParams.mk "t-1") tt
            (UpdateTaskRequest.mk None None (Some true))) Sample.db1)
  = Returned (tasks.mk "t-1" "u-alice" "write" None true 3000 9000).
Proof.
  exact (f_equal fst
           (proj1 (owner_update_replaces_supplied_fields (jw:=Fake.jwt)
                     Sample.secret (Sample.env 9000 "x") Sample.db1
                     Sample.alice_token
                     (Sample.task "t-1" "u-alice" "write" 3000)
                     (UpdateTaskRequest.mk None None (Some true))
                     eq_refl sample_db1_ids (or_introl eq_refl) eq_refl))).
Defined.

Lemma owner_delete_removes_the_task_witness :
  tasksRoutes_delete_id (jw:=Fake.jwt) Sample.secret (Sample.env 9000 "x")
    (mkRequest (Some Sample.alice_token) (IdParams.mk "t-1") tt tt) Sample.db1
  = (Returned (DeleteTaskResponse.mk true), Sample.db0).
Proof.
  exact (proj1 (owner_delete_removes_the_task (jw:=Fake.jwt)
                  Sample.secret (Sample.env 9000 "x") Sample.db1
                  Sample.alice_token
                  (Sample.task "t-1" "u-alice" "write" 3000)
                  eq_refl sample_db1_ids (or_introl eq_refl))).
Defined.

Lemma list_shows_only_own_tasks_witness :
  In (Sample.task "t-1" "u-alice" "write" 3000) (tasks_table Sample.db1)
  /\ tasks.userId (Sample.task "t-1" "u-alice" "write" 3000) = "u-alice".
Proof.
  destruct (proj2 (list_shows_only_own_tasks (jw:=Fake.jwt)
                     (ob:=Fake.order_by) (dr:=Fake.driver) (js:=Fake.js)
                     Sample.secret (obok:=fake_order_by_ok)
                     (Sample.env 9000 "x") Sample.db1 Sample.alice_token
                     "u-alice" (ListTasksParams.mk None None None)
                     (ListTasksResponse.mk
                        [Sample.task "t-1" "u-alice" "write" 3000]
                        (Pagination.mk (js:=Fake.js) (Default 1) (Default 20)
                           1 (Fake.Num 1)))
                     Sample.db1 eq_refl eq_refl)
              (Sample.task "t-1" "u-alice" "write" 3000)
              (or_introl eq_refl))
    as (H1 & H2 & _).
  split; [exact H1 | exact H2].
Defined.

Lemma completed_parameter_lists_open_tasks_witness :
  let list c :=
    tasksRoutes_get (jw:=Fake.jwt) (ob:=Fake.order_by) (dr:=Fake.driver)
      (js:=Fake.js) Sample.secret (Sample.env 9000 "x")
      (mkRequest (Some Sample.alice_token) tt
         (ListTasksParams.mk None None (Some c)) tt) Sample.db_done in
  list "true" = list "false".
Proof.
  exact (proj1 (completed_parameter_lists_open_tasks (jw:=Fake.jwt)
                  (ob:=Fake.order_by) (dr:=Fake.driver) (js:=Fake.js)
                  Sample.secret (obok:=fake_order_by_ok)
                  (Sample.env 9000 "x") Sample.db_done Sample.alice_token
                  "u-alice" None None (fun _ => eq_refl) eq_refl)
           "true" "false").
Defined.

Lemma sent_limit_is_not_applied_witness :
  map tasks.id
    (data_of
       (fst (tasksRoutes_get (jw:=Fake.jwt) (ob:=Fake.order_by)
               (dr:=Fake.driver) (js:=Fake.js) Sample.secret
               (Sample.env 9000 "x")
               (mkRequest (Some Sample.alice_token) tt
                  (ListTasksParams.mk None (Some "2") None) tt)
               Sample.db_ties)))
  = ["b"; "a"; "c"].
Proof.
  exact (f_equal (fun r => map tasks.id (data_of (js:=Fake.js) (fst r)))
           (proj1 (sent_limit_is_not_applied (jw:=Fake.jwt)
                     (ob:=Fake.order_by) (dr:=Fake.driver) (js:=Fake.js)
                     Sample.secret (jsok:=fake_js_ok)
                     (Sample.env 9000 "x") Sample.db_ties Sample.alice_token
                     "u-alice" None eq_refl) "2")).
Defined.

Lemma created_task_is_listed_witness :
  exists task db1,
    tasksRoutes_post (jw:=Fake.jwt) Sample.secret (Sample.env 9000 "t-2")
      (mkRequest (Some Sample.alice_token) tt tt
         (CreateTaskRequest.mk "read" None)) Sample.db1
    = (Returned task, db1)
    /\ total_of
         (fst (tasksRoutes_get (jw:=Fake.jwt) (ob:=Fake.order_by)
                 (dr:=Fake.driver) (js:=Fake.js) Sample.secret
                 (Sample.env 9500 "x")
                 (mkRequest (Some Sample.alice_token) tt
                    (ListTasksParams.mk None None None) tt) db1))
       = 2.
Proof.
  destruct (created_task_is_listed (jw:=Fake.jwt) (ob:=Fake.order_by)
              (dr:=Fake.driver) (js:=Fake.js)
              Sample.secret (obok:=fake_order_by_ok) (jsok:=fake_js_ok)
              (Sample.env 9000 "t-2") (Sample.env 9500 "x") Sample.db1
              Sample.alice_token "u-alice"
              (mkRequest (Some Sample.alice_token) tt tt
                 (CreateTaskRequest.mk "read" None))
              eq_refl eq_refl eq_refl
              (ex_intro _ Sample.alice (conj (or_introl eq_refl) eq_refl))
              ltac:(intros t [<- | []]; discriminate)
              ltac:(vm_compute; reflexivity))
    as (task & db1 & H & _ & Htot & _).
  exists task, db1. split; [exact H | exact Htot].
Defined.

Lemma get_me_returns_the_registered_user_witness :
  usersRoutes_get_me (jw:=Fake.jwt) Sample.secret (Sample.env 9500 "x")
    (mkRequest (Some Sample.carol_token) tt tt tt) Sample.db_carol
  = (Returned (AuthResponse.user Sample.carol_response), Sample.db_carol).
Proof.
  exact (proj1 (get_me_returns_the_registered_user (bc:=Fake.bcrypt)
                  (jw:=Fake.jwt) (zd:=Fake.zod) Sample.secret
                  (jok:=fake_jwt_ok)
                  (Sample.env 9000 "u-carol") (Sample.env 9500 "x")
                  Sample.register_carol Sample.db0 Sample.carol_response
                  Sample.db_carol eq_refl ltac:(cbn; lia))).
Defined.

Lemma update_me_needs_a_non_empty_field_witness :
  usersRoutes_patch_me (jw:=Fake.jwt) Sample.secret (Sample.env 9000 "x")
    (mkRequest (Some Sample.alice_token) tt tt
       (UpdateUserRequest.mk (Some "") None)) Sample.db0
  = (Raised (reply.badRequest "At least one field must be provided"),
     Sample.db0).
Proof.
  exact (proj1 (update_me_needs_a_non_empty_field (jw:=Fake.jwt)
                  Sample.secret (Sample.env 9000 "x")
                  (mkRequest (Some Sample.alice_token) tt tt
                     (UpdateUserRequest.mk (Some "") None))
                  Sample.db0 Sample.alice_token "u-alice"
                  eq_refl eq_refl (or_intror eq_refl) (or_introl eq_refl))).
Defined.

Lemma update_me_changes_only_the_own_row_witness :
  exists db',
    usersRoutes_patch_me (jw:=Fake.jwt) Sample.secret (Sample.env 9000 "x")
      (mkRequest (Some Sample.alice_token) tt tt
         (UpdateUserRequest.mk (Some "Alice") (Some ""))) Sample.db0
    = (Returned [("id", JsString "u-alice"); ("email", JsString "a@x.com");
                 ("name", JsString "Alice"); ("createdAt", JsDate 1000);
                 ("updatedAt", JsDate 9000)], db')
    /\ In Sample.bob (users_table db').
Proof.
  destruct (update_me_changes_only_the_own_row (jw:=Fake.jwt)
              Sample.secret (Sample.env 9000 "x") Sample.db0
              Sample.alice_token Sample.alice
              (UpdateUserRequest.mk (Some "Alice") (Some ""))
              eq_refl sample_db0_wf (or_introl eq_refl) eq_refl
              ltac:(intros e x H Hne; injection H as <-; now elim Hne))
    as (db' & H & _ & _ & _ & Hothers).
  exists db'. split; [exact H|].
  apply (Hothers Sample.bob); [right; left; reflexivity | discriminate].
Defined.

Lemma update_me_to_a_taken_email_fails_witness :
  usersRoutes_patch_me (jw:=Fake.jwt) Sample.secret (Sample.env 9000 "x")
    (mkRequest (Some Sample.alice_token) tt tt
       (UpdateUserRequest.mk None (Some "b@x.com"))) Sample.db0
  = (Raised constraint_violation, Sample.db0).
Proof.
  exact (proj1 (update_me_to_a_taken_email_fails (jw:=Fake.jwt)
                  Sample.secret (Sample.env 9000 "x") Sample.db0
                  Sample.alice_token Sample.alice Sample.bob
                  (UpdateUserRequest.mk None (Some "b@x.com")) "b@x.com"
                  eq_refl (or_introl eq_refl) (or_intror (or_introl eq_refl))
                  ltac:(discriminate) eq_refl ltac:(discriminate) eq_refl)).
Defined.

Lemma login_follows_the_changed_email_witness :
  exists obj,
    fst (usersRoutes_patch_me (jw:=Fake.jwt) Sample.secret
           (Sample.env 9000 "x")
           (mkRequest (Some Sample.alice_token) tt tt
              (UpdateUserRequest.mk None (Some "a2@x.com"))) Sample.db0)
    = Returned obj.
Proof.
  exact (proj1 (login_follows_the_changed_email (bc:=Fake.bcrypt)
                  (jw:=Fake.jwt) (zd:=Fake.zod) Sample.secret
                  (Sample.env 9000 "x") (Sample.env 9500 "y") Sample.db0
                  Sample.alice_token Sample.alice
                  (UpdateUserRequest.mk None (Some "a2@x.com"))
                  "a2@x.com" "pw123456"
                  eq_refl sample_db0_wf (or_introl eq_refl) eq_refl
                  ltac:(discriminate) ltac:(discriminate)
                  ltac:(intros x [<- | [<- | []]] H; [now elim H | discriminate])
                  eq_refl eq_refl)).
Defined.

Lemma registered_user_can_create_a_task_witness :
  exists task,
    tasksRoutes_post (jw:=Fake.jwt) Sample.secret (Sample.env 9500 "t-9")
      (mkRequest (Some Sample.carol_token) tt tt
         (CreateTaskRequest.mk "first" None)) Sample.db_carol
    = (Returned task, mkDb (users_table Sample.db_carol) [task])
    /\ tasks.userId task = "u-carol".
Proof.
  destruct (registered_user_can_create_a_task (bc:=Fake.bcrypt)
              (jw:=Fake.jwt) (zd:=Fake.zod) Sample.secret (jok:=fake_jwt_ok)
              (Sample.env 9000 "u-carol") (Sample.env 9500 "t-9")
              Sample.register_carol Sample.db0 Sample.carol_response
              Sample.db_carol (CreateTaskRequest.mk "first" None)
              eq_refl ltac:(cbn; lia) ltac:(intros t []))
    as (task & H & _ & Hid).
  exists task. split; [exact H|].
  cbn in Hid. now injection Hid as <-.
Defined.

Lemma create_refused_by_the_store_is_500_witness :
  tasksRoutes_post (jw:=Fake.jwt) Sample.secret (Sample.env 9000 "t-2")
    (mkRequest (Some "test-secret.u-zed") tt tt
       (CreateTaskRequest.mk "read" None)) Sample.db1
  = (Raised foreign_key_violation, Sample.db1).
Proof.
  apply (proj1 (proj2 (create_refused_by_the_store_is_500 (jw:=Fake.jwt)
                         Sample.secret (Sample.env 9000 "t-2")
                         (mkRequest (Some "test-secret.u-zed") tt tt
                            (CreateTaskRequest.mk "read" None))
                         Sample.db1 "test-secret.u-zed" "u-zed"
                         eq_refl eq_refl))).
  - intros t [<- | []]. discriminate.
  - intros x [<- | [<- | []]]; discriminate.
Defined.

Lemma fetchApi_failure_is_an_ApiError_witness :
  web.fetchApi (N:=Z) (fun _ => "0") (fun n => negb (n =? 0))
    "http://localhost:3001"
    (fun _ _ =>
       Some (web.mkResponse false 404
               (Some (web.JObject
                        [("statusCode", web.JNumber 404);
                         ("error", web.JString "Not Found");
                         ("message", web.JString "Task not found")]))))
    None "/api/tasks/t-1" (web.mkInit None None [])
  = web.ThrewApiError "Task not found" 404.
Proof.
  exact (proj1 (proj2 (proj2
           (fetchApi_failure_is_an_ApiError Z (fun _ => "0")
              (fun n => negb (n =? 0)) "http://localhost:3001"
              (fun _ _ =>
                 Some (web.mkResponse false 404
                         (Some (web.JObject
                                  [("statusCode", web.JNumber 404);
                                   ("error", web.JString "Not Found");
                                   ("message",
                                    web.JString "Task not found")]))))
              None "/api/tasks/t-1" (web.mkInit None None [])
              (web.mkResponse false 404
                 (Some (web.JObject
                          [("statusCode", web.JNumber 404);
                           ("error", web.JString "Not Found");
                           ("message", web.JString "Task not found")])))
              eq_refl eq_refl)))
          _ "Task not found" eq_refl eq_refl ltac:(discriminate)).
Defined.
